(** * Smart-contract risk scorer: scoring pipeline, analyzers and result cache

    A shallow embedding of the JavaScript sources:
    - [src/utils/whitelist.js]      (allow-list and stablecoin lookup),
    - [src/utils/scoring.js]        (score aggregator and confidence),
    - [src/services/fallback-analyzer.js] (RPC-only scoring),
    - [src/analyzers/code-analyzer.js]    (source pattern scanner),
    - [src/analyzers/liquidity.js]        (LP lock checker),
    - [src/database/cache.js]             (time-bounded result cache),
    - [src/agent.js]                      (resolver and scoring stage),
    - [src/middleware/rate-limit.js]      (request rate limiter),
    - [src/services/goplus.js], [src/services/token-sniffer.js]
                                          (oracle adapters),
    - [src/analyzers/ownership.js], [src/analyzers/creator-history.js],
      [src/analyzers/behavioral.js], [src/analyzers/holder-analysis.js]
                                          (the other analyzers).

    Conventions of the embedding.
    - A JS [number] is a rational ([Q]); the inputs of the pipeline are finite
      numbers, so [NaN] and the infinities are outside the type.  Results that
      the code rounds ([Math.round], [Math.floor]) are [Z].
    - A JS string is a [string] of bytes; [toLowerCase] acts on the ASCII
      letters, which covers addresses, chain names, Solidity identifiers and
      the keyword tables.  A statement that depends on how free text (a token
      name or symbol, a source file) is lower-cased or matched by a pattern
      carries the hypothesis [isAscii] on that text.
    - An optional property ([undefined]/[null]) is an [option]; a call to a
      collaborator that can throw returns an [option] whose [None] is the
      exception.
    - Free-text fields that no decision depends on (descriptions, evidence
      strings, console output) are left out of the records. *)

From Stdlib Require Import ZArith QArith Qround Lqa String Ascii List Bool Sorted Lia.
From stdpp Require Import gmap strings.

Local Open Scope string_scope.
Local Open Scope Z_scope.

(** ** JavaScript primitives used by the sources *)

Module JS.

Abbreviation number := Q (only parsing).

Definition isUpper (c : ascii) : bool :=
  let n := N_of_ascii c in (65 <=? n)%N && (n <=? 90)%N.

Definition toLowerCase_char (c : ascii) : ascii :=
  if isUpper c then ascii_of_N (N_of_ascii c + 32) else c.

(** [s.toLowerCase()] *)
Fixpoint toLowerCase (s : string) : string :=
  match s with
  | EmptyString => EmptyString
  | String c s' => String (toLowerCase_char c) (toLowerCase s')
  end.

(** The texts made of ASCII characters only.  On them [toLowerCase] above is
    [String.prototype.toLowerCase], and the classes [\s] and [.] of the
    patterns of [code-analyzer.js] are those of the JS regular expressions;
    outside ASCII the runtime also lower-cases other letters (U+212A to [k])
    and counts other characters as white space (U+00A0). *)
Definition isAscii (s : string) : bool :=
  forallb (fun c => (N_of_ascii c <? 128)%N) (list_ascii_of_string s).

(** [s.includes(k)] *)
Fixpoint includes (s k : string) : bool :=
  match s with
  | EmptyString => String.prefix k s
  | String _ s' => String.prefix k s || includes s' k
  end.

(** [v || ''] for an optional string *)
Definition orEmpty (v : option string) : string :=
  match v with Some s => s | None => "" end.

(** truthiness of an optional string: absent and [''] are falsy *)
Definition truthy_string (v : option string) : bool :=
  match v with
  | Some s => negb (String.eqb s "")
  | None => false
  end.

(** truthiness of a number: [0] is falsy *)
Definition truthy_number (x : number) : bool := negb (Qeq_bool x 0).

Definition ltb (x y : number) : bool := negb (Qle_bool y x).
Definition gtb (x y : number) : bool := ltb y x.

Definition Math_min (x y : number) : number := if Qle_bool x y then x else y.
Definition Math_max (x y : number) : number := if Qle_bool x y then y else x.

(** [Math.round]: nearest integer, halves towards plus infinity *)
Definition Math_round (x : number) : Z := Qfloor (x + (1 # 2)).

End JS.

Import JS.

(** ** src/utils/whitelist.js *)

Definition KNOWN_SAFE_TOKENS : gset string :=
  list_to_set
    [ "0xa0b86991c6218b36c1d19d4a2e9eb0ce3606eb48";
      "0xdac17f958d2ee523a2206206994597c13d831ec7";
      "0x6b175474e89094c44da98b954eedeac495271d0f";
      "0x4fabb145d64652a948d72533023f6e7a623c7c53";
      "0xc02aaa39b223fe8d0a0e5c4f27ead9083c756cc2";
      "0x2260fac5e5542a773aa44fbcfedf7c193bc2c599";
      "0x514910771af9ca656af840dff83e8264ecf986ca";
      "0x1f9840a85d5af5bf1d1762f925bdaddc4201f984";
      "0x7d1afa7b718fb893db30a3abc0cfc608aacfebb0";
      "0x7fc66500c84a76ad7e9c93437bfc5ac33e2ddae9";
      "0x6b3595068778dd592e39a122f4f5a5cf09c90fe2";
      "0xc00e94cb662c3520282e6f5717214004a7f26888";
      "0x9f8f72aa9304c8b593d555f12ef6589cc3a579a2";
      "0xb8c77482e45f1f44de1745f52c74426c631bdd52";
      "0x50d1c9771902476076ecfc8b2a83ad6b9355a4c9";
      "0xa0b73e1ff0b80914ab6fe0444e65848c4c34450b";
      "0x75231f58b43240c9718dd58b4967c5114342a86c";
      "0x6f259637dcd74c767781e37bc6133cd6a68aa161";
      "0x4a220e6096b25eadb88358cb44068a3248254675" ].

Definition isKnownSafeToken (address : string) : bool :=
  let normalized := toLowerCase address in
  bool_decide (normalized ∈ KNOWN_SAFE_TOKENS).

Definition stablecoinKeywords : list string :=
  [ "usd"; "usdc"; "usdt"; "dai"; "busd"; "tusd"; "gusd"; "pax" ].

Definition isStablecoin (symbol name : option string) : bool :=
  if negb (truthy_string symbol) && negb (truthy_string name) then false
  else
    let text := toLowerCase (orEmpty symbol +:+ " " +:+ orEmpty name) in
    existsb (fun keyword => includes text keyword) stablecoinKeywords.

(** ** Data model shared by the analyzers and the aggregator *)

Inductive Severity := info | low | medium | high | critical | safe.

Record Finding := {
  f_type : string;
  f_severity : Severity;
  f_score : number
}.

(** [contractInfo] as built by [EtherscanClient.getContractInfo] or
    [analyzeContractViaRPC], with the [name]/[symbol] the agent merges in
    from the token info before scoring. *)
Record ContractInfo := {
  ci_address : option string;
  ci_name : option string;
  ci_symbol : option string;
  ci_verified : bool;
  ci_sourceCode : option string;
  ci_isProxy : bool;
  ci_creator : option string;
  ci_creationTxHash : option string;
  ci_ageInDays : Z;
  ci_transactionCount : Z;
  ci_fallbackMode : bool
}.

(** An entry of [safePatterns] in the result of [analyzeSourceCode]. *)
Record SafeMatch := { sm_type : string; sm_score : number }.

(** Result of [analyzeSourceCode]. *)
Record CodeAnalysis := {
  ca_analyzed : bool;
  ca_vulnerabilities : list Finding;
  ca_safePatterns : list SafeMatch;
  ca_score : number
}.

(** Result of [analyzeOwnership]; every producer sets [hasOwner], so the
    test [ownershipAnalysis?.hasOwner !== undefined] is the presence of the
    object. *)
Record OwnershipAnalysis := {
  oa_hasOwner : bool;
  oa_isRenounced : bool;
  oa_score : number
}.

(** Result of [analyzeLiquidity]; [hasLiquidity] is set by every producer. *)
Record LpHolder := {
  lh_address : string;
  lh_balance : Z;
  lh_percentage : number;
  lh_isLocker : bool;
  lh_isBurned : bool
}.

Record LiquidityAnalysis := {
  la_hasLiquidity : bool;
  la_lpLocked : bool;
  la_lpBurned : bool;
  la_lpHolders : list LpHolder;
  la_score : number;
  la_findings : list Finding
}.

Record BehaviorAnalysis := { ba_score : number }.

(** [{ score, findings }] as returned by the oracle adapters' [calculateRisk]
    and by the holder analyses. *)
Record RiskContribution := { rc_score : number }.

Record CreatorHistoryAnalysis := { cha_analyzed : bool; cha_score : number }.

Record TokenSnifferResult := { ts_checked : bool }.

Record GoPlusResult := {
  gp_checked : bool;
  gp_is_honeypot : option bool;
  gp_hidden_owner : bool;
  gp_cannot_sell_all : bool;
  gp_buy_tax : option number;
  gp_sell_tax : option number
}.

(** The [analyses] object destructured by [calculateRiskScore] and
    [calculateConfidence]; a property the caller does not pass is [None]. *)
Record Analyses := {
  codeAnalysis : option CodeAnalysis;
  ownershipAnalysis : option OwnershipAnalysis;
  liquidityAnalysis : option LiquidityAnalysis;
  behaviorAnalysis : option BehaviorAnalysis;
  contractInfo : option ContractInfo;
  tokenSnifferRisk : option RiskContribution;
  tokenSnifferResult : option TokenSnifferResult;
  goplusRisk : option RiskContribution;
  goplusResult : option GoPlusResult;
  creatorHistoryAnalysis : option CreatorHistoryAnalysis;
  holderAnalysis : option RiskContribution;
  creatorHoldingAnalysis : option RiskContribution
}.

(** ** src/utils/scoring.js *)

(** Optional chaining on [contractInfo]: an absent object gives [undefined],
    which is falsy and fails every numeric comparison. *)
Section OptionalChaining.
Variable contractInfo : option ContractInfo.

Definition get_address : option string := contractInfo ≫= ci_address.
Definition get_name : option string := contractInfo ≫= ci_name.
Definition get_symbol : option string := contractInfo ≫= ci_symbol.
Definition get_creator : option string := contractInfo ≫= ci_creator.
Definition get_creationTxHash : option string := contractInfo ≫= ci_creationTxHash.
Definition get_verified : bool :=
  match contractInfo with Some ci => ci_verified ci | None => false end.
Definition ageInDays_gt (n : Z) : bool :=
  match contractInfo with Some ci => n <? ci_ageInDays ci | None => false end.
Definition transactionCount_is (n : Z) : bool :=
  match contractInfo with Some ci => ci_transactionCount ci =? n | None => false end.

(** [contractInfo?.address && isKnownSafeToken(contractInfo.address)] *)
Definition addressIsKnownSafe : bool :=
  match get_address with
  | Some a => truthy_string (Some a) && isKnownSafeToken a
  | None => false
  end.
End OptionalChaining.

Definition scamKeywords : list string :=
  [ "scam"; "beware"; "fake"; "phishing"; "warning"; "honeypot";
    "fraud"; "ponzi"; "rugpull"; "rug pull"; "exit scam"; "dont buy";
    "don't buy"; "stay away"; "avoid"; "stolen"; "hacked" ].

(** [detectScamKeywords]: [Some keyword] is [{ isScam: true, keyword }],
    [None] is [{ isScam: false }]. *)
Definition detectScamKeywords (name symbol : option string) : option string :=
  let text := toLowerCase (orEmpty name +:+ " " +:+ orEmpty symbol) in
  find (fun keyword => includes text keyword) scamKeywords.

Record Pattern := { p_type : string; p_score : number }.

(** [detectSuspiciousPatterns(contractInfo, behaviorAnalysis)]; the body
    does not read its second parameter. *)
Definition detectSuspiciousPatterns (contractInfo : option ContractInfo) : list Pattern :=
  if addressIsKnownSafe contractInfo then []
  else
    let lowActivity :=
      match contractInfo with
      | Some ci =>
          if (365 <? ci_ageInDays ci) && (ci_transactionCount ci <? 5000) then
            let avgTxPerDay :=
              (inject_Z (ci_transactionCount ci) / inject_Z (ci_ageInDays ci))%Q in
            if ltb avgTxPerDay 1 && (negb (ci_verified ci) || (ci_ageInDays ci <? 730))
            then [ {| p_type := "abandoned_or_suspicious"; p_score := 15 |} ]
            else []
          else []
      | None => []
      end in
    let unverifiedOld :=
      if negb (get_verified contractInfo) && ageInDays_gt contractInfo 30
      then [ {| p_type := "unverified_old_contract"; p_score := 20 |} ]
      else [] in
    lowActivity ++ unverifiedOld.

(** [detectAPINotFound]; the branch on [tokenSnifferResult] has an empty
    body. *)
Definition detectAPINotFound (tokenSnifferResult : option TokenSnifferResult)
    (goplusResult : option GoPlusResult) (contractInfo : option ContractInfo)
  : list Pattern :=
  let hasNoCreationData :=
    negb (truthy_string (get_creator contractInfo))
    && negb (truthy_string (get_creationTxHash contractInfo)) in
  let hasNoActivity := transactionCount_is contractInfo 0 in
  if hasNoCreationData || hasNoActivity then
    [ {| p_type := "contract_not_found"; p_score := 40 |} ]
  else
    let isOld := ageInDays_gt contractInfo 30 in
    let notInDatabases :=
      match goplusResult with
      | Some g =>
          if negb (gp_checked g) && isOld
          then [ {| p_type := "not_in_security_databases"; p_score := 10 |} ]
          else []
      | None => []
      end in
    let noTradingData :=
      match goplusResult with
      | Some g =>
          if gp_checked g && isOld then
            let hasNoData :=
              match gp_is_honeypot g, gp_buy_tax g, gp_sell_tax g with
              | None, None, None => true
              | _, _, _ => false
              end in
            if hasNoData
            then [ {| p_type := "no_trading_data"; p_score := 10 |} ]
            else []
          else []
      | None => []
      end in
    notInDatabases ++ noTradingData.

(** [for (const p of patterns) acc += p.score] *)
Definition addScores (acc : number) (patterns : list Pattern) : number :=
  fold_left (fun acc p => (acc + p_score p)%Q) patterns acc.

(** [if (x && x.score) acc += x.score] *)
Definition addIfScore {A} (x : option A) (score : A -> number) (acc : number) : number :=
  match x with
  | Some r => if truthy_number (score r) then (acc + score r)%Q else acc
  | None => acc
  end.

(** [if (x) acc += x.score] *)
Definition addIfPresent {A} (x : option A) (score : A -> number) (acc : number) : number :=
  match x with
  | Some r => (acc + score r)%Q
  | None => acc
  end.

Definition internalAdjustments (analyses : Analyses) : number :=
  let acc := 0%Q in
  let acc :=
    match codeAnalysis analyses with
    | Some ca =>
        if ca_analyzed ca then (acc + ca_score ca)%Q
        else if negb (get_verified (contractInfo analyses)) then (acc + 15)%Q else acc
    | None =>
        if negb (get_verified (contractInfo analyses)) then (acc + 15)%Q else acc
    end in
  let acc := addIfPresent (ownershipAnalysis analyses) oa_score acc in
  let acc := addIfPresent (liquidityAnalysis analyses) la_score acc in
  let acc := addIfPresent (behaviorAnalysis analyses) ba_score acc in
  addScores acc (detectSuspiciousPatterns (contractInfo analyses)).

Definition externalAdjustments (analyses : Analyses) : number :=
  let acc := 0%Q in
  let acc := addIfScore (tokenSnifferRisk analyses) rc_score acc in
  let acc := addIfScore (goplusRisk analyses) rc_score acc in
  let acc := addIfScore (creatorHistoryAnalysis analyses) cha_score acc in
  let acc := addIfScore (holderAnalysis analyses) rc_score acc in
  let acc := addIfScore (creatorHoldingAnalysis analyses) rc_score acc in
  addScores acc
    (detectAPINotFound (tokenSnifferResult analyses) (goplusResult analyses)
       (contractInfo analyses)).

(** The value of [finalScore] right after the weighted calculation, before
    the overrides and the rounding. *)
Definition weightedScore (analyses : Analyses) : number :=
  let baseScore := 50%Q in
  let weightedAdjustments :=
    (internalAdjustments analyses * (4 # 10) + externalAdjustments analyses * (6 # 10))%Q in
  Math_max 0 (Math_min 100 (baseScore + weightedAdjustments)).

Definition calculateRiskScore (analyses : Analyses) : Z :=
  let contractInfo := contractInfo analyses in
  match detectScamKeywords (get_name contractInfo) (get_symbol contractInfo) with
  | Some _ => 95
  | None =>
      let finalScore := weightedScore analyses in
      let finalScore :=
        if addressIsKnownSafe contractInfo then Math_min finalScore 15
        else if get_verified contractInfo
                && isStablecoin (get_symbol contractInfo) (get_name contractInfo)
        then Math_min finalScore 20
        else finalScore in
      Math_round finalScore
  end.

Inductive RiskLevel := level_low | level_medium | level_high | level_critical.

Definition getRiskLevel (score : Z) : RiskLevel :=
  if 80 <=? score then level_critical
  else if 60 <=? score then level_high
  else if 40 <=? score then level_medium
  else level_low.

(** [if (cond) confidence += d] *)
Definition addIf (cond : bool) (d : number) (confidence : number) : number :=
  if cond then (confidence + d)%Q else confidence.

Definition calculateConfidence (analyses : Analyses) : number :=
  let confidence := (5 # 10)%Q in
  let confidence :=
    addIf (get_verified (contractInfo analyses)
           && match codeAnalysis analyses with Some ca => ca_analyzed ca | None => false end)
          (15 # 100) confidence in
  let confidence :=
    addIf (match ownershipAnalysis analyses with Some _ => true | None => false end)
          (5 # 100) confidence in
  let confidence :=
    addIf (match liquidityAnalysis analyses with Some _ => true | None => false end)
          (5 # 100) confidence in
  let confidence :=
    addIf (match contractInfo analyses with
           | Some ci => negb (ci_ageInDays ci =? 0) && (7 <? ci_ageInDays ci)
           | None => false
           end)
          (5 # 100) confidence in
  let confidence :=
    addIf (match tokenSnifferResult analyses with Some t => ts_checked t | None => false end)
          (1 # 10) confidence in
  let confidence :=
    addIf (match goplusResult analyses with Some g => gp_checked g | None => false end)
          (15 # 100) confidence in
  let confidence :=
    addIf (match creatorHistoryAnalysis analyses with Some c => cha_analyzed c | None => false end)
          (1 # 10) confidence in
  Math_min 1 confidence.

(** Case-insensitive substring match, the reading of "contains a keyword"
    used by the statements about the keyword tables. *)
Definition containsCI (s keyword : string) : bool :=
  includes (toLowerCase s) (toLowerCase keyword).

(** Functional update of the [goplusResult] property of an [analyses]
    object: the "otherwise identical run". *)
Definition with_goplusResult (g : option GoPlusResult) (a : Analyses) : Analyses :=
  {| codeAnalysis := codeAnalysis a;
     ownershipAnalysis := ownershipAnalysis a;
     liquidityAnalysis := liquidityAnalysis a;
     behaviorAnalysis := behaviorAnalysis a;
     contractInfo := contractInfo a;
     tokenSnifferRisk := tokenSnifferRisk a;
     tokenSnifferResult := tokenSnifferResult a;
     goplusRisk := goplusRisk a;
     goplusResult := g;
     creatorHistoryAnalysis := creatorHistoryAnalysis a;
     holderAnalysis := holderAnalysis a;
     creatorHoldingAnalysis := creatorHoldingAnalysis a |}.

(** *** The weighted sum as the specification words it

    "internal = sum of the code, ownership, liquidity and behavior
    contributions; external = sum of the oracle contributions plus the derived
    findings for contracts old-but-absent-from-security-databases and for old
    contracts with suspiciously low activity; final score =
    clamp(50 + 0.4 internal + 0.6 external, 0, 100)".  These definitions follow
    that sentence, not the code; they are compared with [weightedScore]. *)

Definition scoreOf {A} (x : option A) (score : A -> number) : number :=
  match x with Some r => score r | None => 0%Q end.

Definition totalOf (patterns : list Pattern) : number :=
  fold_right (fun p acc => (p_score p + acc)%Q) 0%Q patterns.

Definition ofType (type : string) (patterns : list Pattern) : list Pattern :=
  filter (fun p => String.eqb (p_type p) type) patterns.

Definition spec_internal (a : Analyses) : number :=
  (scoreOf (codeAnalysis a) (fun ca => if ca_analyzed ca then ca_score ca else 0)
   + scoreOf (ownershipAnalysis a) oa_score
   + scoreOf (liquidityAnalysis a) la_score
   + scoreOf (behaviorAnalysis a) ba_score)%Q.

Definition spec_external (a : Analyses) : number :=
  (scoreOf (tokenSnifferRisk a) rc_score
   + scoreOf (goplusRisk a) rc_score
   + scoreOf (creatorHistoryAnalysis a) cha_score
   + scoreOf (holderAnalysis a) rc_score
   + scoreOf (creatorHoldingAnalysis a) rc_score
   + totalOf (ofType "not_in_security_databases"
                (detectAPINotFound (tokenSnifferResult a) (goplusResult a) (contractInfo a)))
   + totalOf (ofType "abandoned_or_suspicious"
                (detectSuspiciousPatterns (contractInfo a))))%Q.

Definition spec_weightedScore (a : Analyses) : number :=
  Math_max 0 (Math_min 100 (50 + (4 # 10) * spec_internal a + (6 # 10) * spec_external a)).

(** *** The weighted sum as the code computes it, in closed form *)

Definition codeContribution (a : Analyses) : number :=
  let unverifiedPenalty := if get_verified (contractInfo a) then 0%Q else 15%Q in
  match codeAnalysis a with
  | Some ca => if ca_analyzed ca then ca_score ca else unverifiedPenalty
  | None => unverifiedPenalty
  end.

Definition code_internal (a : Analyses) : number :=
  (codeContribution a
   + scoreOf (ownershipAnalysis a) oa_score
   + scoreOf (liquidityAnalysis a) la_score
   + scoreOf (behaviorAnalysis a) ba_score
   + totalOf (detectSuspiciousPatterns (contractInfo a)))%Q.

Definition code_external (a : Analyses) : number :=
  (scoreOf (tokenSnifferRisk a) rc_score
   + scoreOf (goplusRisk a) rc_score
   + scoreOf (creatorHistoryAnalysis a) cha_score
   + scoreOf (holderAnalysis a) rc_score
   + scoreOf (creatorHoldingAnalysis a) rc_score
   + totalOf (detectAPINotFound (tokenSnifferResult a) (goplusResult a) (contractInfo a)))%Q.

(** *** The weighted sum as the amended claim words it

    "internal is the code contribution plus the ownership, liquidity and
    behavior scores plus the suspicious-pattern findings (an old contract with
    suspiciously low activity 15, an unverified contract older than 30 days
    20; none for a known-safe address); external is the Token Sniffer, GoPlus,
    creator-history, holder-concentration and creator-holding scores plus the
    API-not-found findings (contract not found 40, else not in security
    databases 10 and no trading data 10); the score before overrides and
    rounding is clamp(50 + 0.4 internal + 0.6 external, 0, 100)".  These
    definitions follow that sentence, with the condition of each finding
    written on the fields of the contract info and of the GoPlus result; they
    are compared with the sums of the code. *)

(** older than a year, fewer than 5000 transactions, less than one
    transaction a day, and unverified or younger than two years *)
Definition lowActivityOld (contractInfo : option ContractInfo) : bool :=
  match contractInfo with
  | Some ci =>
      (365 <? ci_ageInDays ci) && (ci_transactionCount ci <? 5000)
      && (ci_transactionCount ci <? ci_ageInDays ci)
      && (negb (ci_verified ci) || (ci_ageInDays ci <? 730))
  | None => false
  end.

(** unverified and older than 30 days *)
Definition unverifiedOld (contractInfo : option ContractInfo) : bool :=
  negb (get_verified contractInfo) && ageInDays_gt contractInfo 30.

Definition suspiciousPatternCharge (contractInfo : option ContractInfo) : number :=
  if addressIsKnownSafe contractInfo then 0
  else ((if lowActivityOld contractInfo then 15 else 0)
        + (if unverifiedOld contractInfo then 20 else 0))%Q.

(** neither creator nor creation transaction, or no transaction at all *)
Definition contractNotFound (contractInfo : option ContractInfo) : bool :=
  negb (truthy_string (get_creator contractInfo))
  && negb (truthy_string (get_creationTxHash contractInfo))
  || transactionCount_is contractInfo 0.

(** GoPlus answered without a check, for a contract older than 30 days *)
Definition notInSecurityDatabases (goplusResult : option GoPlusResult)
    (contractInfo : option ContractInfo) : bool :=
  match goplusResult with
  | Some g => negb (gp_checked g) && ageInDays_gt contractInfo 30
  | None => false
  end.

(** GoPlus checked a contract older than 30 days and defines neither the
    honeypot flag nor a tax *)
Definition noTradingData (goplusResult : option GoPlusResult)
    (contractInfo : option ContractInfo) : bool :=
  match goplusResult with
  | Some g =>
      gp_checked g && ageInDays_gt contractInfo 30
      && match gp_is_honeypot g, gp_buy_tax g, gp_sell_tax g with
         | None, None, None => true
         | _, _, _ => false
         end
  | None => false
  end.

Definition apiNotFoundCharge (goplusResult : option GoPlusResult)
    (contractInfo : option ContractInfo) : number :=
  if contractNotFound contractInfo then 40
  else ((if notInSecurityDatabases goplusResult contractInfo then 10 else 0)
        + (if noTradingData goplusResult contractInfo then 10 else 0))%Q.

Definition amended_internal (a : Analyses) : number :=
  (codeContribution a
   + scoreOf (ownershipAnalysis a) oa_score
   + scoreOf (liquidityAnalysis a) la_score
   + scoreOf (behaviorAnalysis a) ba_score
   + suspiciousPatternCharge (contractInfo a))%Q.

Definition amended_external (a : Analyses) : number :=
  (scoreOf (tokenSnifferRisk a) rc_score
   + scoreOf (goplusRisk a) rc_score
   + scoreOf (creatorHistoryAnalysis a) cha_score
   + scoreOf (holderAnalysis a) rc_score
   + scoreOf (creatorHoldingAnalysis a) rc_score
   + apiNotFoundCharge (goplusResult a) (contractInfo a))%Q.

Definition amended_weightedScore (a : Analyses) : number :=
  Math_max 0
    (Math_min 100 (50 + (4 # 10) * amended_internal a + (6 # 10) * amended_external a)).

(** The override step of [calculateRiskScore]. *)
Definition applyOverrides (contractInfo : option ContractInfo) (finalScore : number) : number :=
  if addressIsKnownSafe contractInfo then Math_min finalScore 15
  else if get_verified contractInfo
          && isStablecoin (get_symbol contractInfo) (get_name contractInfo)
  then Math_min finalScore 20
  else finalScore.

(** *** Confidence in closed form *)

Definition indicator (b : bool) : number := if b then 1%Q else 0%Q.

Definition sourceAnalyzed (a : Analyses) : bool :=
  get_verified (contractInfo a)
  && match codeAnalysis a with Some ca => ca_analyzed ca | None => false end.

Definition olderThanAWeek (a : Analyses) : bool :=
  match contractInfo a with
  | Some ci => negb (ci_ageInDays ci =? 0) && (7 <? ci_ageInDays ci)
  | None => false
  end.

Definition tokenSnifferChecked (a : Analyses) : bool :=
  match tokenSnifferResult a with Some t => ts_checked t | None => false end.

Definition goplusChecked (g : option GoPlusResult) : bool :=
  match g with Some g => gp_checked g | None => false end.

Definition creatorAnalyzed (a : Analyses) : bool :=
  match creatorHistoryAnalysis a with Some c => cha_analyzed c | None => false end.

Definition isPresent {A} (x : option A) : bool :=
  match x with Some _ => true | None => false end.

Definition confidenceSum (a : Analyses) : number :=
  ((5 # 10)
   + indicator (sourceAnalyzed a) * (15 # 100)
   + indicator (isPresent (ownershipAnalysis a)) * (5 # 100)
   + indicator (isPresent (liquidityAnalysis a)) * (5 # 100)
   + indicator (olderThanAWeek a) * (5 # 100)
   + indicator (tokenSnifferChecked a) * (1 # 10)
   + indicator (goplusChecked (goplusResult a)) * (15 # 100)
   + indicator (creatorAnalyzed a) * (1 # 10))%Q.

(** ** Regular expressions of the pattern tables

    The patterns of [code-analyzer.js] use literals, [\s], [.], negated
    one-character classes, digit ranges, [*], [+] and [|], all with the flags
    [gi].  They are embedded as a regular-expression syntax matched with
    Brzozowski derivatives; [test r s] is "[s.match(r)] is not [null]", that
    is, some substring of [s] matches [r]. *)

Module Regex.

Inductive regex :=
| Empty
| Eps
| Chr (p : ascii -> bool)
| Cat (r1 r2 : regex)
| Alt (r1 r2 : regex)
| Star (r : regex).

Fixpoint nullable (r : regex) : bool :=
  match r with
  | Empty => false
  | Eps => true
  | Chr _ => false
  | Cat r1 r2 => nullable r1 && nullable r2
  | Alt r1 r2 => nullable r1 || nullable r2
  | Star _ => true
  end.

Fixpoint deriv (c : ascii) (r : regex) : regex :=
  match r with
  | Empty => Empty
  | Eps => Empty
  | Chr p => if p c then Eps else Empty
  | Cat r1 r2 =>
      if nullable r1
      then Alt (Cat (deriv c r1) r2) (deriv c r2)
      else Cat (deriv c r1) r2
  | Alt r1 r2 => Alt (deriv c r1) (deriv c r2)
  | Star r1 => Cat (deriv c r1) (Star r1)
  end.

(** the whole of [s] matches [r] *)
Fixpoint accepts (r : regex) (s : string) : bool :=
  match s with
  | EmptyString => nullable r
  | String c s' => accepts (deriv c r) s'
  end.

(** some prefix of [s] matches [r] *)
Fixpoint matchesPrefix (r : regex) (s : string) : bool :=
  nullable r
  || match s with
     | EmptyString => false
     | String c s' => matchesPrefix (deriv c r) s'
     end.

(** some substring of [s] matches [r] *)
Fixpoint test (r : regex) (s : string) : bool :=
  matchesPrefix r s
  || match s with
     | EmptyString => false
     | String _ s' => test r s'
     end.

(** The language of a regular expression: [Matches r s] when the whole of
    [s] is a match of [r]. *)
Inductive Matches : regex -> string -> Prop :=
| MEps : Matches Eps ""
| MChr p c : p c = true -> Matches (Chr p) (String c "")
| MCat r1 r2 s1 s2 :
    Matches r1 s1 -> Matches r2 s2 -> Matches (Cat r1 r2) (s1 +:+ s2)
| MAltL r1 r2 s : Matches r1 s -> Matches (Alt r1 r2) s
| MAltR r1 r2 s : Matches r2 s -> Matches (Alt r1 r2) s
| MStarNil r : Matches (Star r) ""
| MStarCons r s1 s2 :
    Matches r s1 -> Matches (Star r) s2 -> Matches (Star r) (s1 +:+ s2).

(** *** Pattern syntax *)

Definition eqb_ci (c x : ascii) : bool :=
  Ascii.eqb (toLowerCase_char x) (toLowerCase_char c).

(** a literal character under the [i] flag *)
Definition chr (c : ascii) : regex := Chr (eqb_ci c).

(** a literal string under the [i] flag *)
Fixpoint lit (s : string) : regex :=
  match s with
  | EmptyString => Eps
  | String c EmptyString => chr c
  | String c s' => Cat (chr c) (lit s')
  end.

Definition isSpace (c : ascii) : bool :=
  let n := N_of_ascii c in ((9 <=? n) && (n <=? 13) || (n =? 32))%N.

Definition isLineTerminator (c : ascii) : bool :=
  let n := N_of_ascii c in ((n =? 10) || (n =? 13))%N.

Definition inRange (lo hi : ascii) (c : ascii) : bool :=
  let n := N_of_ascii c in ((N_of_ascii lo <=? n) && (n <=? N_of_ascii hi))%N.

Definition ws : regex := Chr isSpace.                       (* \s *)
Definition dot : regex := Chr (fun c => negb (isLineTerminator c)). (* . *)
Definition notChr (c : ascii) : regex :=                    (* [^c] *)
  Chr (fun x => negb (eqb_ci c x)).
Definition range (lo hi : ascii) : regex := Chr (inRange lo hi).
Definition plus (r : regex) : regex := Cat r (Star r).

Fixpoint seq (rs : list regex) : regex :=
  match rs with
  | [] => Eps
  | [r] => r
  | r :: rs' => Cat r (seq rs')
  end.

End Regex.

Import Regex.

(** ** src/analyzers/code-analyzer.js *)

Record RedFlag := {
  rf_key : string;
  rf_patterns : list regex;
  rf_modifiers : list string;
  rf_severity : Severity;
  rf_score : number
}.

Definition mintPatterns : list regex :=
  [ seq [lit "function"; plus ws; lit "mint"; Star ws; chr "(";
         Star (notChr ")"); chr ")"; Star (notChr "{"); chr "{"];
    seq [lit "_mint"; Star ws; chr "("];
    seq [lit ".mint"; Star ws; chr "("] ].

Definition highTaxValue : regex :=
  Alt (Cat (range "1" "9") (range "0" "9")) (lit "100").

Definition commentLine (words : list string) : regex :=
  seq (lit "//" :: concat (map (fun w => [Star dot; lit w]) words)).

Definition commentBlock (words : list string) : regex :=
  seq (lit "/*" :: concat (map (fun w => [Star dot; lit w]) words) ++ [Star dot; lit "*/"]).

(** [RED_FLAG_PATTERNS], in the insertion order that [Object.entries]
    enumerates. *)
Definition RED_FLAG_PATTERNS : list RedFlag :=
  [ {| rf_key := "hiddenMint";
       rf_patterns := mintPatterns;
       rf_modifiers := ["onlyOwner"; "onlyAdmin"; "onlyMinter"];
       rf_severity := critical; rf_score := 15 |};
    {| rf_key := "selfDestruct";
       rf_patterns :=
         [ seq [lit "selfdestruct"; Star ws; chr "("];
           seq [lit "suicide"; Star ws; chr "("] ];
       rf_modifiers := []; rf_severity := critical; rf_score := 15 |};
    {| rf_key := "honeypot";
       rf_patterns :=
         [ seq [lit "blacklist"; Star ws; chr "["];
           lit "isBlacklisted";
           lit "_isExcluded";
           seq [lit "canSell"; Star ws; chr "("];
           seq [lit "canTransfer"; Star ws; chr "("] ];
       rf_modifiers := []; rf_severity := critical; rf_score := 15 |};
    {| rf_key := "delegatecall";
       rf_patterns :=
         [ seq [lit "delegatecall"; Star ws; chr "("];
           seq [lit ".delegatecall"; Star ws; chr "("] ];
       rf_modifiers := []; rf_severity := critical; rf_score := 15 |};
    {| rf_key := "pausable";
       rf_patterns :=
         [ seq [lit "function"; plus ws; lit "pause"; Star ws; chr "("];
           seq [lit "function"; plus ws; lit "unpause"; Star ws; chr "("];
           seq [lit "_pause"; Star ws; chr "("];
           lit "whenNotPaused" ];
       rf_modifiers := []; rf_severity := high; rf_score := 10 |};
    {| rf_key := "modifiableTax";
       rf_patterns :=
         [ lit "setTaxFee"; lit "setBuyFee"; lit "setSellFee";
           seq [lit "setFee"; Star ws; chr "("];
           lit "updateFee" ];
       rf_modifiers := []; rf_severity := high; rf_score := 10 |};
    {| rf_key := "highTax";
       rf_patterns :=
         [ seq [lit "_taxFee"; Star ws; chr "="; Star ws; highTaxValue];
           seq [lit "taxFee"; Star ws; chr "="; Star ws; highTaxValue];
           seq [lit "buyFee"; Star ws; chr "="; Star ws; highTaxValue];
           seq [lit "sellFee"; Star ws; chr "="; Star ws; highTaxValue] ];
       rf_modifiers := []; rf_severity := high; rf_score := 10 |};
    {| rf_key := "ownership";
       rf_patterns :=
         [ seq [lit "transferOwnership"; Star ws; chr "("];
           seq [lit "renounceOwnership"; Star ws; chr "("] ];
       rf_modifiers := []; rf_severity := medium; rf_score := 5 |};
    {| rf_key := "maxTransaction";
       rf_patterns :=
         [ lit "maxTxAmount"; lit "_maxTxAmount"; lit "setMaxTx";
           lit "maxTransactionAmount" ];
       rf_modifiers := []; rf_severity := medium; rf_score := 5 |};
    {| rf_key := "maxWallet";
       rf_patterns := [ lit "maxWallet"; lit "_maxWalletSize"; lit "maxWalletAmount" ];
       rf_modifiers := []; rf_severity := medium; rf_score := 5 |};
    {| rf_key := "antiBot";
       rf_patterns :=
         [ seq [lit "isBot"; Star ws; chr "["];
           seq [lit "bots"; Star ws; chr "["];
           seq [lit "addBot"; Star ws; chr "("];
           lit "antiBot" ];
       rf_modifiers := []; rf_severity := medium; rf_score := 5 |};
    {| rf_key := "cooldown";
       rf_patterns := [ lit "cooldown"; lit "buycooldown"; lit "sellcooldown" ];
       rf_modifiers := []; rf_severity := medium; rf_score := 5 |};
    {| rf_key := "scamKeywordsInCode";
       rf_patterns :=
         [ commentLine ["scam"]; commentBlock ["scam"];
           commentLine ["honeypot"]; commentBlock ["honeypot"];
           commentLine ["rug"]; commentBlock ["rug"];
           commentLine ["exit"; "scam"]; commentBlock ["exit"; "scam"];
           commentLine ["warning"; "do"; "not"; "buy"];
           commentBlock ["warning"; "do"; "not"; "buy"] ];
       rf_modifiers := []; rf_severity := critical; rf_score := 30 |} ].

Record SafePattern := {
  sp_key : string;
  sp_patterns : list regex;
  sp_score : number
}.

Definition SAFE_PATTERNS : list SafePattern :=
  [ {| sp_key := "renounceOwnership";
       sp_patterns :=
         [ seq [lit "renounceOwnership"; Star ws; chr "("; Star ws; chr ")"; Star ws;
                lit "public"];
           seq [lit "renounceOwnership"; Star ws; chr "("; Star ws; chr ")"; Star ws;
                lit "external"] ];
       sp_score := -10 |};
    {| sp_key := "timelockPresent";
       sp_patterns :=
         [ lit "timelock"; lit "TimelockController";
           seq [lit "delay"; Star ws; chr "="; Star ws; plus (range "0" "9"); Star ws;
                lit "days"] ];
       sp_score := -10 |};
    {| sp_key := "audited";
       sp_patterns := [ lit "@audit"; lit "audited by"; lit "security audit" ];
       sp_score := -5 |};
    {| sp_key := "openZeppelin";
       sp_patterns := [ seq [lit "import"; Star dot; lit "@openzeppelin"]; lit "OpenZeppelin" ];
       sp_score := -5 |} ].

(** [found] after the inner loop: some pattern of the entry matches. *)
Definition anyMatch (patterns : list regex) (sourceCode : string) : bool :=
  existsb (fun regex => test regex sourceCode) patterns.

Definition hasRestrictedModifier (modifiers : list string) (sourceCode : string) : bool :=
  existsb (fun modifier => includes (toLowerCase sourceCode) (toLowerCase modifier))
    modifiers.

(** One iteration of the red-flag loop: the vulnerability it pushes, if any;
    the score of that vulnerability is what the iteration adds to [score]. *)
Definition checkRedFlag (sourceCode : string) (isProxy : bool) (pattern : RedFlag)
  : option Finding :=
  let found := anyMatch (rf_patterns pattern) sourceCode in
  let found :=
    if String.eqb (rf_key pattern) "hiddenMint" && found then
      if negb (hasRestrictedModifier (rf_modifiers pattern) sourceCode) then false else found
    else found in
  if String.eqb (rf_key pattern) "delegatecall" && found && isProxy then
    Some {| f_type := rf_key pattern; f_severity := low; f_score := 2 |}
  else if found then
    Some {| f_type := rf_key pattern; f_severity := rf_severity pattern;
            f_score := rf_score pattern |}
  else None.

Definition checkSafePattern (sourceCode : string) (pattern : SafePattern)
  : option SafeMatch :=
  if anyMatch (sp_patterns pattern) sourceCode then
    Some {| sm_type := sp_key pattern; sm_score := sp_score pattern |}
  else None.

(** [xs.push(x); score += x.score] when the iteration reports something. *)
Definition record {A} (score : A -> number) (st : list A * number) (x : option A)
  : list A * number :=
  match x with
  | Some v => ((fst st ++ [v])%list, (snd st + score v)%Q)
  | None => st
  end.

(** [analyzeSourceCode] over given pattern tables. *)
Definition analyzeWith (redFlags : list RedFlag) (safeTable : list SafePattern)
    (sourceCode : option string) (isProxy : bool) : CodeAnalysis :=
  match sourceCode with
  | Some src =>
      if String.eqb src "" then
        {| ca_analyzed := false; ca_vulnerabilities := []; ca_safePatterns := [];
           ca_score := 0 |}
      else
        let '(vulnerabilities, score) :=
          fold_left (fun st pattern => record f_score st (checkRedFlag src isProxy pattern))
            redFlags ([], 0%Q) in
        let '(safePatterns, score) :=
          fold_left (fun st pattern => record sm_score st (checkSafePattern src pattern))
            safeTable ([], score) in
        {| ca_analyzed := true; ca_vulnerabilities := vulnerabilities;
           ca_safePatterns := safePatterns; ca_score := score |}
  | None =>
      {| ca_analyzed := false; ca_vulnerabilities := []; ca_safePatterns := [];
         ca_score := 0 |}
  end.

Definition analyzeSourceCode (sourceCode : option string) (isProxy : bool) : CodeAnalysis :=
  analyzeWith RED_FLAG_PATTERNS SAFE_PATTERNS sourceCode isProxy.

Definition proxyPatterns : list regex :=
  [ lit "upgradeTo"; lit "upgradeToAndCall";
    seq [lit "implementation"; Star ws; lit "()"];
    lit "_implementation"; lit "TransparentUpgradeableProxy"; lit "UUPSUpgradeable" ].

Definition isProxyContract (sourceCode : option string) : bool :=
  match sourceCode with
  | Some src => if String.eqb src "" then false else anyMatch proxyPatterns src
  | None => false
  end.



(** ** src/analyzers/liquidity.js *)

Definition KNOWN_LOCKERS : list string :=
  [ "0x663a5c229c09b049e36dcc11a9b0d4a8eb9db214";
    "0x71B5759d73262FBb223956913ecF4ecC51057641";
    "0x407993575c91ce7643a4d4cCACc9A98c36eE1BBE";
    "0x000000000000000000000000000000000000dead" ].

Definition zeroAddress : string := "0x0000000000000000000000000000000000000000".
Definition burnAddress : string := "0x000000000000000000000000000000000000dead".

(** [array.includes(x)] on strings *)
Definition Array_includes (xs : list string) (x : string) : bool :=
  existsb (String.eqb x) xs.

(** A token transfer as returned by [getTokenTransfers]; [value] is the
    [BigInt] the code builds from it. *)
Record Transfer := { tr_from : string; tr_to : string; tr_value : Z }.

(** A JS [Map] with string keys: insertion-ordered, [set] on an existing key
    keeps its position. *)
Module JSMap.
Definition t := list (string * Z).

Fixpoint get (m : t) (k : string) : option Z :=
  match m with
  | [] => None
  | (k', v) :: m' => if String.eqb k' k then Some v else get m' k
  end.

Fixpoint set (m : t) (k : string) (v : Z) : t :=
  match m with
  | [] => [(k, v)]
  | (k', v') :: m' => if String.eqb k' k then (k', v) :: m' else (k', v') :: set m' k v
  end.
End JSMap.

(** one iteration of the balance bookkeeping loop of [analyzeLiquidityPair] *)
Definition applyTransfer (balances : JSMap.t) (transfer : Transfer) : JSMap.t :=
  let from := toLowerCase (tr_from transfer) in
  let to := toLowerCase (tr_to transfer) in
  let value := tr_value transfer in
  let balances :=
    if negb (String.eqb from zeroAddress) then
      let currentFrom := default 0 (JSMap.get balances from) in
      JSMap.set balances from (currentFrom - value)
    else balances in
  let currentTo := default 0 (JSMap.get balances to) in
  JSMap.set balances to (currentTo + value).

Record PairAnalysis := {
  pa_locked : bool;
  pa_burned : bool;
  pa_holders : list LpHolder;
  pa_findings : list Finding
}.

(** [Number((balance * BigInt(10000)) / totalSupply) / 100] *)
Definition lpPercentage (balance totalSupply : Z) : number :=
  (inject_Z (Z.quot (balance * 10000) totalSupply) / 100)%Q.

(** One iteration of the holder loop.  [None] is the [RangeError] of a
    [BigInt] division by zero, which leaves the loop for the [catch]. *)
Definition classifyHolder (totalSupply : Z) (analysis : PairAnalysis)
    (entry : string * Z) : option PairAnalysis :=
  let '(address, balance) := entry in
  if balance <=? 0 then Some analysis
  else if totalSupply =? 0 then None
  else
    let percentage := lpPercentage balance totalSupply in
    if ltb percentage 1 then Some analysis
    else
      let isBurned := String.eqb address burnAddress || String.eqb address zeroAddress in
      let isLocker := Array_includes KNOWN_LOCKERS address in
      Some {| pa_locked := pa_locked analysis || isBurned || isLocker;
              pa_burned := pa_burned analysis || isBurned;
              pa_holders :=
                pa_holders analysis ++
                [ {| lh_address := address; lh_balance := balance;
                     lh_percentage := percentage;
                     lh_isLocker := isLocker; lh_isBurned := isBurned |} ];
              pa_findings := pa_findings analysis |}.

(** The loop over [balances.entries()]: the analysis reached, and whether
    the loop ran to its end ([false]: it threw). *)
Fixpoint classifyHolders (totalSupply : Z) (analysis : PairAnalysis)
    (entries : JSMap.t) : PairAnalysis * bool :=
  match entries with
  | [] => (analysis, true)
  | entry :: entries' =>
      match classifyHolder totalSupply analysis entry with
      | Some analysis' => classifyHolders totalSupply analysis' entries'
      | None => (analysis, false)
      end
  end.

(** [holders.sort((a, b) => Number(BigInt(b.balance) - BigInt(a.balance)))]:
    a stable sort by decreasing balance. *)
Fixpoint insertHolder (h : LpHolder) (sorted : list LpHolder) : list LpHolder :=
  match sorted with
  | [] => [h]
  | h' :: rest =>
      if lh_balance h' <=? lh_balance h then h :: sorted else h' :: insertHolder h rest
  end.

Definition sortHolders (holders : list LpHolder) : list LpHolder :=
  fold_right insertHolder [] holders.

Definition emptyPairAnalysis : PairAnalysis :=
  {| pa_locked := false; pa_burned := false; pa_holders := []; pa_findings := [] |}.

(** the [balances] map after the loop over [lpTransfers] *)
Definition lpBalances (lpTransfers : list Transfer) : JSMap.t :=
  fold_left applyTransfer lpTransfers [].

(** [analyzeLiquidityPair], given what the collaborators answer:
    [lpTransfers] from the explorer and [totalSupply] from the chain
    ([None]: the call throws). *)
Definition analyzeLiquidityPair (lpTransfers : list Transfer) (totalSupply : option Z)
  : PairAnalysis :=
  let balances := lpBalances lpTransfers in
  match totalSupply with
  | None => emptyPairAnalysis
  | Some totalSupply =>
      let '(analysis, completed) := classifyHolders totalSupply emptyPairAnalysis balances in
      if completed then
        {| pa_locked := pa_locked analysis; pa_burned := pa_burned analysis;
           pa_holders := sortHolders (pa_holders analysis);
           pa_findings := pa_findings analysis |}
      else analysis
  end.

(** What the collaborators answer about one liquidity pair. *)
Record PairResponse := {
  pr_address : string;
  pr_lpTransfers : list Transfer;
  pr_totalSupply : option Z
}.

Definition creatorHoldsLP (lpHolders : list LpHolder) (creator : option string) : bool :=
  existsb
    (fun holder =>
       match creator with
       | Some c => String.eqb (toLowerCase (lh_address holder)) (toLowerCase c)
       | None => false
       end
       && gtb (lh_percentage holder) 50)
    lpHolders.

(** the loop of [analyzeLiquidity] over the pairs *)
Definition liquidityLoop (pairs : list PairResponse) (analysis : LiquidityAnalysis)
  : LiquidityAnalysis :=
  fold_left
    (fun analysis pair =>
       let pairAnalysis :=
         analyzeLiquidityPair (pr_lpTransfers pair) (pr_totalSupply pair) in
       {| la_hasLiquidity := true;
          la_lpLocked := la_lpLocked analysis || pa_locked pairAnalysis;
          la_lpBurned := la_lpBurned analysis || pa_burned pairAnalysis;
          la_lpHolders := la_lpHolders analysis ++ pa_holders pairAnalysis;
          la_score := la_score analysis;
          la_findings := la_findings analysis ++ pa_findings pairAnalysis |})
    pairs analysis.

(** [analyzeLiquidity], given the pairs that [findLiquidityPairs] returns and
    the answers about each of them. *)
Definition analyzeLiquidity (pairs : list PairResponse) (creator : option string)
  : LiquidityAnalysis :=
  match pairs with
  | [] =>
      {| la_hasLiquidity := false; la_lpLocked := false; la_lpBurned := false;
         la_lpHolders := []; la_score := 0 + 5;
         la_findings :=
           [ {| f_type := "no_liquidity_found"; f_severity := medium; f_score := 5 |} ] |}
  | _ =>
      let analysis :=
        liquidityLoop pairs
          {| la_hasLiquidity := true; la_lpLocked := false; la_lpBurned := false;
             la_lpHolders := []; la_score := 0; la_findings := [] |} in
      let '(delta, finding) :=
        if la_lpLocked analysis || la_lpBurned analysis then
          ((-10)%Q, {| f_type := "liquidity_locked"; f_severity := safe; f_score := -10 |})
        else if creatorHoldsLP (la_lpHolders analysis) creator then
          (15%Q, {| f_type := "liquidity_not_locked"; f_severity := high; f_score := 15 |})
        else
          (10%Q, {| f_type := "liquidity_not_locked"; f_severity := high; f_score := 10 |}) in
      {| la_hasLiquidity := la_hasLiquidity analysis;
         la_lpLocked := la_lpLocked analysis;
         la_lpBurned := la_lpBurned analysis;
         la_lpHolders := la_lpHolders analysis;
         la_score := (la_score analysis + delta)%Q;
         la_findings := la_findings analysis ++ [finding] |}
  end.

(** *** Holder classification, for the statements about the lock checker *)

(** a holder entry is classified as locked or burned *)
Definition flagged (h : LpHolder) : bool := lh_isBurned h || lh_isLocker h.

(** the entries the holder loop keeps: a positive balance of at least 1% *)
Definition holderKept (h : LpHolder) : Prop :=
  0 < lh_balance h /\ (1 <= lh_percentage h)%Q.

(** the flags of a holder entry, at the level of the address strings *)
Definition holderFlagsOk (h : LpHolder) : Prop :=
  lh_isBurned h
  = (String.eqb (lh_address h) burnAddress || String.eqb (lh_address h) zeroAddress)
  /\ lh_isLocker h = Array_includes KNOWN_LOCKERS (lh_address h).

Definition pairFlagsOk (analysis : PairAnalysis) : Prop :=
  Forall (fun h => holderKept h /\ holderFlagsOk h) (pa_holders analysis)
  /\ pa_locked analysis = existsb flagged (pa_holders analysis)
  /\ pa_burned analysis = existsb lh_isBurned (pa_holders analysis).

Definition liquidityFlagsOk (analysis : LiquidityAnalysis) : Prop :=
  Forall (fun h => holderKept h /\ holderFlagsOk h) (la_lpHolders analysis)
  /\ la_lpLocked analysis = existsb flagged (la_lpHolders analysis)
  /\ la_lpBurned analysis = existsb lh_isBurned (la_lpHolders analysis).

Definition unicryptLocker : string := "0x663a5c229c09b049e36dcc11a9b0d4a8eb9db214".

(** The claim's reading of "locked": an address with a positive LP balance
    that is the burn address, the zero address or a member of the known-locker
    set.  This definition follows the claim, not the code. *)
Definition spec_isLockAddress (address : string) : bool :=
  String.eqb address burnAddress || String.eqb address zeroAddress
  || Array_includes KNOWN_LOCKERS address.

Definition spec_pairLocked (balances : JSMap.t) : bool :=
  existsb (fun entry => (0 <? snd entry) && spec_isLockAddress (fst entry)) balances.

(** The amended claim's reading of "the deployer holds a majority": on the
    balances that the transfers of a pair add up to, the balance of the
    deployer (its address compared without regard to letter case) is at least
    50.01% of the pair's total supply.  The code compares the share, cut to
    whole hundredths of a percent, with 50.  This definition follows the
    amended claim, not the code. *)
Definition deployerHoldsMajority (pairs : list PairResponse) (creator : option string) : bool :=
  match creator with
  | Some c =>
      existsb
        (fun pair =>
           match pr_totalSupply pair with
           | Some totalSupply =>
               existsb
                 (fun entry =>
                    String.eqb (toLowerCase (fst entry)) (toLowerCase c)
                    && (0 <? totalSupply)
                    && (5001 * totalSupply <=? 10000 * snd entry))
                 (lpBalances (pr_lpTransfers pair))
           | None => false
           end)
        pairs
  | None => false
  end.

(** ** src/services/fallback-analyzer.js *)

Record BytecodeFinding := {
  bf_pattern : string;
  bf_severity : Severity;
  bf_count : option nat
}.

(** [(code.match(/pat/g) || []).length] for a literal [pat]: the number of
    non-overlapping occurrences, scanning from the left. *)
Fixpoint countMatchesFrom (pat s : string) (skip : nat) : nat :=
  match s with
  | EmptyString => 0%nat
  | String _ s' =>
      match skip with
      | S k => countMatchesFrom pat s' k
      | O =>
          if String.prefix pat s
          then S (countMatchesFrom pat s' (String.length pat - 1))
          else countMatchesFrom pat s' 0
      end
  end.

Definition countMatches (pat s : string) : nat := countMatchesFrom pat s 0.

Definition analyzeBytecode (bytecode : string) : list BytecodeFinding :=
  let code := toLowerCase bytecode in
  let delegatecallCount := countMatches "f4" code in
  let selfdestructCount := countMatches "ff" code in
  let sizeKB := (inject_Z (Z.of_nat (String.length bytecode)) / 2 / 1024)%Q in
  let hasTransfer := includes code "a9059cbb" in
  let hasApprove := includes code "095ea7b3" in
  let hasBalanceOf := includes code "70a08231" in
  (if (2 <? delegatecallCount)%nat
   then [ {| bf_pattern := "delegatecall"; bf_severity := low;
             bf_count := Some delegatecallCount |} ]
   else [])
  ++ (if (0 <? selfdestructCount)%nat && (selfdestructCount <? 10)%nat
      then [ {| bf_pattern := "potential_selfdestruct"; bf_severity := medium;
                bf_count := Some selfdestructCount |} ]
      else [])
  ++ (if gtb sizeKB 24
      then [ {| bf_pattern := "large_contract"; bf_severity := low; bf_count := None |} ]
      else [])
  ++ (if hasTransfer && hasApprove && hasBalanceOf
      then [ {| bf_pattern := "erc20_standard"; bf_severity := info; bf_count := None |} ]
      else []).

Record Vulnerability := { v_type : string; v_severity : Severity }.

Record FallbackResult := { fr_score : Z; fr_vulnerabilities : list Vulnerability }.

(** [x > 10] for a possibly absent number; [undefined > 10] is false. *)
Definition taxAbove (x : option number) (n : number) : bool :=
  match x with Some t => gtb t n | None => false end.

(** [if (cond) { score += d; vulnerabilities.push(v) }] *)
Definition flag (cond : bool) (d : Z) (v : Vulnerability) (st : Z * list Vulnerability)
  : Z * list Vulnerability :=
  if cond then (fst st + d, (snd st ++ [v])%list) else st.

(** [vulnerabilities.push(v)] *)
Definition pushOnly (v : Vulnerability) (st : Z * list Vulnerability)
  : Z * list Vulnerability :=
  (fst st, (snd st ++ [v])%list).

(** [calculateRPCOnlyRiskScore]; its score is a sum of integer literals and
    is kept in [Z]; the body does not read [contractInfo]. *)
Definition calculateRPCOnlyRiskScore (contractInfo : ContractInfo)
    (goplusData : option GoPlusResult) (bytecodeFindings : list BytecodeFinding)
  : FallbackResult :=
  let st := (0, []) in
  let st := flag true 10 {| v_type := "unverified_source"; v_severity := medium |} st in
  let st :=
    fold_left
      (fun st finding =>
         if String.eqb (bf_pattern finding) "potential_selfdestruct" then
           pushOnly {| v_type := "potential_selfdestruct"; v_severity := low |} st
         else if String.eqb (bf_pattern finding) "delegatecall" then
           pushOnly {| v_type := "proxy_pattern"; v_severity := info |} st
         else if String.eqb (bf_pattern finding) "erc20_standard" then
           pushOnly {| v_type := "erc20_standard"; v_severity := info |} st
         else st)
      bytecodeFindings st in
  let st :=
    match goplusData with
    | Some g =>
        let st := flag (match gp_is_honeypot g with Some b => b | None => false end) 40
                    {| v_type := "honeypot"; v_severity := critical |} st in
        let st := flag (gp_hidden_owner g) 15
                    {| v_type := "hidden_owner"; v_severity := high |} st in
        let st := flag (taxAbove (gp_buy_tax g) 10 || taxAbove (gp_sell_tax g) 10) 15
                    {| v_type := "high_tax"; v_severity := medium |} st in
        flag (gp_cannot_sell_all g) 25
          {| v_type := "cannot_sell"; v_severity := critical |} st
    | None => st
    end in
  {| fr_score := Z.min (fst st) 100; fr_vulnerabilities := snd st |}.

(** ** src/database/cache.js *)

(** Values that [JSON.parse] produces. *)
#[local] Unset Elimination Schemes.
Inductive json :=
| JNull
| JBool (b : bool)
| JNumber (x : number)
| JString (s : string)
| JArray (xs : list json)
| JObject (fields : list (string * json)).
#[local] Set Elimination Schemes.

Record Row := { row_result : string; row_created_at : Z }.

(** The table [scan_results], keyed by its [UNIQUE(contract_address, chain,
    scan_depth)] columns.  [JSON.parse] and [JSON.stringify] are the
    runtime's; the cache is parametric in them ([None]: [SyntaxError]).
    Times are [Date.now()] milliseconds. *)
Module CacheDB.
Section WithJSON.
Variable JSON_parse : string -> option json.
Variable JSON_stringify : json -> string.

Definition key (contractAddress chain scanDepth : string) : string * string * string :=
  (toLowerCase contractAddress, toLowerCase chain, scanDepth).

Definition maxAge : Z := 60 * 60 * 1000.

Definition set (now : Z) (db : gmap (string * string * string) Row)
    (contractAddress chain scanDepth : string) (result : json)
  : gmap (string * string * string) Row :=
  let resultJson := JSON_stringify result in
  <[ key contractAddress chain scanDepth :=
       {| row_result := resultJson; row_created_at := now |} ]> db.

Definition delete (db : gmap (string * string * string) Row)
    (contractAddress chain scanDepth : string) : gmap (string * string * string) Row :=
  base.delete (key contractAddress chain scanDepth) db.

(** [get]: the value returned ([JNull] is [null], a miss) and the table
    after the read. *)
Definition get (now : Z) (db : gmap (string * string * string) Row)
    (contractAddress chain scanDepth : string)
  : json * gmap (string * string * string) Row :=
  match db !! key contractAddress chain scanDepth with
  | None => (JNull, db)
  | Some row =>
      let age := now - row_created_at row in
      if maxAge <? age then (JNull, delete db contractAddress chain scanDepth)
      else
        match JSON_parse (row_result row) with
        | Some value => (value, db)
        | None => (JNull, db)
        end
  end.

Definition cleanOldEntries (now : Z) (db : gmap (string * string * string) Row)
  : gmap (string * string * string) Row :=
  let cutoff := now - maxAge in
  filter (fun kv => negb (row_created_at (snd kv) <? cutoff) = true) db.

(** The conditions under which a read is a miss. *)
Definition missCondition (now : Z) (entry : option Row) : Prop :=
  match entry with
  | None => True
  | Some row =>
      3600 * 1000 < now - row_created_at row \/ JSON_parse (row_result row) = None
  end.
End WithJSON.
End CacheDB.

(** A parser for the JSON literals, enough to run the cache on examples. *)
Definition parseLiteral (text : string) : option json :=
  if String.eqb text "null" then Some JNull
  else if String.eqb text "true" then Some (JBool true)
  else if String.eqb text "false" then Some (JBool false)
  else None.

(** ** src/agent.js

    [analyzeContract] after a cache miss, as a function of what the
    collaborators answer during the run.  The record built at the end is
    restricted to the score, the level and the confidence. *)

Inductive ScanDepth := quick | deep.

Record SourcifyData := { sd_sourceCode : string; sd_verified : bool }.

Record TokenInfo := { ti_name : string; ti_symbol : string }.

(** The answers of the collaborators; for a call inside a [try], [None] is
    the exception. *)
Record Responses := {
  etherscan_getContractInfo : option ContractInfo;
  sourcify_getSourceCode : option SourcifyData;     (* [None]: returns [null] *)
  rpc_analyzeContractViaRPC : option ContractInfo;
  provider_getCode : option string;
  r_analyzeOwnership : option OwnershipAnalysis;
  r_findLiquidityPairs : list PairResponse;
  r_analyzeBehavior : BehaviorAnalysis;
  rpc_getTokenInfo : option TokenInfo;
  r_tokenSniffer : option (option TokenSnifferResult * RiskContribution);
  r_goplus : option (option GoPlusResult * RiskContribution);
  r_analyzeCreatorHistory : option CreatorHistoryAnalysis;
  r_analyzeHolderConcentration : option RiskContribution;
  r_analyzeCreatorHolding : option RiskContribution
}.

Record RiskRecord := {
  risk_score : Z;
  risk_level : RiskLevel;
  confidence : number
}.

(** [{ ...rpcInfo, verified: true, sourceCode: ..., fallbackMode: false }] *)
Definition mergeSourcify (rpcInfo : ContractInfo) (sourcifyData : SourcifyData) : ContractInfo :=
  {| ci_address := ci_address rpcInfo;
     ci_name := ci_name rpcInfo;
     ci_symbol := ci_symbol rpcInfo;
     ci_verified := true;
     ci_sourceCode := Some (sd_sourceCode sourcifyData);
     ci_isProxy := ci_isProxy rpcInfo;
     ci_creator := ci_creator rpcInfo;
     ci_creationTxHash := ci_creationTxHash rpcInfo;
     ci_ageInDays := ci_ageInDays rpcInfo;
     ci_transactionCount := ci_transactionCount rpcInfo;
     ci_fallbackMode := false |}.

(** Step 1, the data-source resolver: the contract info and [usingFallback];
    [None] when the run fails. *)
Definition resolve (r : Responses) : option (ContractInfo * bool) :=
  match etherscan_getContractInfo r with
  | Some contractInfo => Some (contractInfo, false)
  | None =>
      match sourcify_getSourceCode r with
      | Some sourcifyData =>
          if sd_verified sourcifyData then
            rpcInfo ← rpc_analyzeContractViaRPC r;
            Some (mergeSourcify rpcInfo sourcifyData, false)
          else
            contractInfo ← rpc_analyzeContractViaRPC r;
            Some (contractInfo, true)
      | None =>
          contractInfo ← rpc_analyzeContractViaRPC r;
          Some (contractInfo, true)
      end
  end.

Definition withIsProxy (isProxy : bool) (ci : ContractInfo) : ContractInfo :=
  {| ci_address := ci_address ci; ci_name := ci_name ci; ci_symbol := ci_symbol ci;
     ci_verified := ci_verified ci; ci_sourceCode := ci_sourceCode ci;
     ci_isProxy := isProxy;
     ci_creator := ci_creator ci; ci_creationTxHash := ci_creationTxHash ci;
     ci_ageInDays := ci_ageInDays ci; ci_transactionCount := ci_transactionCount ci;
     ci_fallbackMode := ci_fallbackMode ci |}.

(** [{ ...contractInfo, symbol: tokenInfo.symbol, name: tokenInfo.name }] *)
Definition withTokenInfo (tokenInfo : TokenInfo) (ci : ContractInfo) : ContractInfo :=
  {| ci_address := ci_address ci;
     ci_name := Some (ti_name tokenInfo); ci_symbol := Some (ti_symbol tokenInfo);
     ci_verified := ci_verified ci; ci_sourceCode := ci_sourceCode ci;
     ci_isProxy := ci_isProxy ci;
     ci_creator := ci_creator ci; ci_creationTxHash := ci_creationTxHash ci;
     ci_ageInDays := ci_ageInDays ci; ci_transactionCount := ci_transactionCount ci;
     ci_fallbackMode := ci_fallbackMode ci |}.

Definition defaultCodeAnalysis : CodeAnalysis :=
  {| ca_analyzed := false; ca_vulnerabilities := []; ca_safePatterns := []; ca_score := 0 |}.
Definition defaultOwnership : OwnershipAnalysis :=
  {| oa_hasOwner := false; oa_isRenounced := false; oa_score := 0 |}.
Definition defaultLiquidity : LiquidityAnalysis :=
  {| la_hasLiquidity := false; la_lpLocked := false; la_lpBurned := false;
     la_lpHolders := []; la_score := 0; la_findings := [] |}.
Definition defaultTokenInfo : TokenInfo := {| ti_name := "Unknown"; ti_symbol := "UNKNOWN" |}.
Definition noRisk : RiskContribution := {| rc_score := 0 |}.
Definition defaultCreatorHistory : CreatorHistoryAnalysis :=
  {| cha_analyzed := false; cha_score := 0 |}.

(** [{ codeAnalysis, ownershipAnalysis }], the object that [analyzeContract]
    hands to [calculateConfidence]. *)
Definition confidenceInputs (codeAnalysis : CodeAnalysis)
    (ownershipAnalysis : OwnershipAnalysis) : Analyses :=
  {| codeAnalysis := Some codeAnalysis;
     ownershipAnalysis := Some ownershipAnalysis;
     liquidityAnalysis := None; behaviorAnalysis := None; contractInfo := None;
     tokenSnifferRisk := None; tokenSnifferResult := None;
     goplusRisk := None; goplusResult := None;
     creatorHistoryAnalysis := None; holderAnalysis := None;
     creatorHoldingAnalysis := None |}.

Definition isDeep (scan_depth : ScanDepth) : bool :=
  match scan_depth with deep => true | quick => false end.

(** Step 2: source analysis when verified source is present, bytecode
    analysis in fallback mode; [None] when fetching the bytecode throws. *)
Definition analyzeCode (r : Responses) (contractInfo : ContractInfo) (usingFallback : bool)
  : option (CodeAnalysis * ContractInfo * list BytecodeFinding) :=
  if ci_verified contractInfo && truthy_string (ci_sourceCode contractInfo) then
    let isProxy := isProxyContract (ci_sourceCode contractInfo) in
    Some (analyzeSourceCode (ci_sourceCode contractInfo) isProxy,
          withIsProxy isProxy contractInfo, [])
  else if usingFallback then
    bytecode ← provider_getCode r;
    Some (defaultCodeAnalysis, contractInfo, analyzeBytecode bytecode)
  else Some (defaultCodeAnalysis, contractInfo, []).

(** Step 3.  When [analyzeOwnership] throws, the basic check in the [catch]
    evaluates [ethers.ZeroAddress]; [agent.js] does not import [ethers], so
    that check throws too and the default stays. *)
Definition ownershipStep (r : Responses) (usingFallback : bool) : OwnershipAnalysis :=
  if negb usingFallback then default defaultOwnership (r_analyzeOwnership r)
  else defaultOwnership.

(** External check 4: holder concentration, then creator holding. *)
Definition holderChecks (r : Responses) (contractInfo : ContractInfo)
    (usingFallback : bool) (scan_depth : ScanDepth)
  : RiskContribution * RiskContribution :=
  if negb usingFallback && isDeep scan_depth then
    match r_analyzeHolderConcentration r with
    | Some holderAnalysis =>
        (holderAnalysis,
         if truthy_string (ci_creator contractInfo)
         then default noRisk (r_analyzeCreatorHolding r)
         else noRisk)
    | None => (noRisk, noRisk)
    end
  else (noRisk, noRisk).

Definition analyzeContract (scan_depth : ScanDepth) (r : Responses) : option RiskRecord :=
  (* Step 1 *)
  '(contractInfo, usingFallback) ← resolve r;
  (* Step 2 *)
  '(codeAnalysis, contractInfo, bytecodeFindings) ← analyzeCode r contractInfo usingFallback;
  (* Step 3 *)
  let ownershipAnalysis := ownershipStep r usingFallback in
  (* Step 4 *)
  let liquidityAnalysis :=
    if isDeep scan_depth
    then analyzeLiquidity (r_findLiquidityPairs r) (ci_creator contractInfo)
    else defaultLiquidity in
  (* Step 5 *)
  let behaviorAnalysis := r_analyzeBehavior r in
  (* Step 6 *)
  let tokenInfo := default defaultTokenInfo (rpc_getTokenInfo r) in
  (* External checks *)
  let tokenSniffer := default (None, noRisk) (r_tokenSniffer r) in
  let goplus := default (None, noRisk) (r_goplus r) in
  let creatorHistoryAnalysis :=
    if truthy_string (ci_creator contractInfo) && isDeep scan_depth
    then default defaultCreatorHistory (r_analyzeCreatorHistory r)
    else defaultCreatorHistory in
  let holders := holderChecks r contractInfo usingFallback scan_depth in
  (* Step 7 *)
  let riskScore :=
    if usingFallback then
      fr_score (calculateRPCOnlyRiskScore contractInfo (fst goplus) bytecodeFindings)
    else
      calculateRiskScore
        {| codeAnalysis := Some codeAnalysis;
           ownershipAnalysis := Some ownershipAnalysis;
           liquidityAnalysis := Some liquidityAnalysis;
           behaviorAnalysis := Some behaviorAnalysis;
           contractInfo := Some (withTokenInfo tokenInfo contractInfo);
           tokenSnifferRisk := Some (snd tokenSniffer);
           tokenSnifferResult := fst tokenSniffer;
           goplusRisk := Some (snd goplus);
           goplusResult := fst goplus;
           creatorHistoryAnalysis := Some creatorHistoryAnalysis;
           holderAnalysis := Some (fst holders);
           creatorHoldingAnalysis := Some (snd holders) |} in
  let riskLevel := getRiskLevel riskScore in
  let confidence :=
    if usingFallback then (7 # 10)%Q
    else calculateConfidence (confidenceInputs codeAnalysis ownershipAnalysis) in
  Some {| risk_score := riskScore; risk_level := riskLevel; confidence := confidence |}.

(** ** Totals and views used by the statements about the analyzers *)

(** A printer for the JSON literals, inverse to [parseLiteral] on them. *)
Definition stringifyLiteral (value : json) : string :=
  match value with
  | JBool true => "true"
  | JBool false => "false"
  | _ => "null"
  end.

(** [xs.reduce((acc, x) => acc + score(x), 0)], for the statements that
    relate a total to the entries it was accumulated from. *)
Definition sumScores {A} (score : A -> number) (xs : list A) : number :=
  fold_right (fun x acc => (score x + acc)%Q) 0%Q xs.

(** The sum of the balances that a [balances] map holds. *)
Definition sumBalances (balances : JSMap.t) : Z :=
  fold_right (fun entry acc => snd entry + acc) 0 balances.

(** The LP tokens minted by a list of transfers: the values sent from the
    zero address. *)
Definition mintedValue (lpTransfers : list Transfer) : Z :=
  fold_right
    (fun transfer acc =>
       (if String.eqb (toLowerCase (tr_from transfer)) zeroAddress
        then tr_value transfer else 0) + acc)
    0 lpTransfers.

(** The penalties that [calculateRPCOnlyRiskScore] adds for the GoPlus
    answer, for the statements about the fallback score. *)
Definition goplusPenalty (goplusData : option GoPlusResult) : Z :=
  match goplusData with
  | Some g =>
      (if match gp_is_honeypot g with Some b => b | None => false end then 40 else 0)
      + (if gp_hidden_owner g then 15 else 0)
      + (if taxAbove (gp_buy_tax g) 10 || taxAbove (gp_sell_tax g) 10 then 15 else 0)
      + (if gp_cannot_sell_all g then 25 else 0)
  | None => 0
  end.

(** The answer of the GoPlus step replaced in [r]: the "otherwise identical
    run". *)
Definition withGoPlusAnswer (goplus : option (option GoPlusResult * RiskContribution))
    (r : Responses) : Responses :=
  {| etherscan_getContractInfo := etherscan_getContractInfo r;
     sourcify_getSourceCode := sourcify_getSourceCode r;
     rpc_analyzeContractViaRPC := rpc_analyzeContractViaRPC r;
     provider_getCode := provider_getCode r;
     r_analyzeOwnership := r_analyzeOwnership r;
     r_findLiquidityPairs := r_findLiquidityPairs r;
     r_analyzeBehavior := r_analyzeBehavior r;
     rpc_getTokenInfo := rpc_getTokenInfo r;
     r_tokenSniffer := r_tokenSniffer r;
     r_goplus := goplus;
     r_analyzeCreatorHistory := r_analyzeCreatorHistory r;
     r_analyzeHolderConcentration := r_analyzeHolderConcentration r;
     r_analyzeCreatorHolding := r_analyzeCreatorHolding r |}.

(** The answers that only a deep scan asks for, replaced in [r]. *)
Definition withDeepAnswers (pairs : list PairResponse)
    (creatorHistory : option CreatorHistoryAnalysis)
    (holderConcentration creatorHolding : option RiskContribution) (r : Responses)
  : Responses :=
  {| etherscan_getContractInfo := etherscan_getContractInfo r;
     sourcify_getSourceCode := sourcify_getSourceCode r;
     rpc_analyzeContractViaRPC := rpc_analyzeContractViaRPC r;
     provider_getCode := provider_getCode r;
     r_analyzeOwnership := r_analyzeOwnership r;
     r_findLiquidityPairs := pairs;
     r_analyzeBehavior := r_analyzeBehavior r;
     rpc_getTokenInfo := rpc_getTokenInfo r;
     r_tokenSniffer := r_tokenSniffer r;
     r_goplus := r_goplus r;
     r_analyzeCreatorHistory := creatorHistory;
     r_analyzeHolderConcentration := holderConcentration;
     r_analyzeCreatorHolding := creatorHolding |}.

(** ** src/middleware/rate-limit.js

    The in-memory rate limiter.  [requestCounts] is a module-level [Map] from
    the client IP to the object [{ count, windowStart }]; the middleware
    mutates the object stored in the map, so the table after a request holds
    the incremented count.  The order of the map plays no role (the clean-up
    loop visits every entry), so the table is a finite map.  Times are
    [Date.now()] milliseconds. *)

Record RateLimitData := { rl_count : Z; rl_windowStart : Z }.

Definition WINDOW_MS : Z := 60 * 1000.
Definition MAX_REQUESTS : Z := 30.

(** What the middleware answers: the 429 response with its [retry_after],
    or the call of [next()] with the [X-RateLimit-Remaining] header and the
    instant of [X-RateLimit-Reset]. *)
Inductive RateLimitAnswer :=
| tooManyRequests (retry_after : Z)
| passedOn (remaining reset : Z).

(** [c.req.header('x-forwarded-for') || c.req.header('x-real-ip') || 'unknown'] *)
Definition clientIp (forwardedFor realIp : option string) : string :=
  if truthy_string forwardedFor then orEmpty forwardedFor
  else if truthy_string realIp then orEmpty realIp
  else "unknown".

(** [Math.ceil(x / 1000)] for an integer [x] *)
Definition ceilSeconds (x : Z) : Z := - ((- x) / 1000).

Definition rateLimiter (now : Z) (ip : string) (requestCounts : gmap string RateLimitData)
  : RateLimitAnswer * gmap string RateLimitData :=
  (* Clean up old entries *)
  let requestCounts :=
    filter (fun entry => negb (WINDOW_MS <? now - rl_windowStart (snd entry)) = true)
      requestCounts in
  (* Get or create rate limit data for this IP *)
  let rateLimitData :=
    match requestCounts !! ip with
    | Some data =>
        if WINDOW_MS <? now - rl_windowStart data
        then {| rl_count := 0; rl_windowStart := now |}
        else data
    | None => {| rl_count := 0; rl_windowStart := now |}
    end in
  (* Increment request count *)
  let rateLimitData :=
    {| rl_count := rl_count rateLimitData + 1;
       rl_windowStart := rl_windowStart rateLimitData |} in
  let requestCounts := <[ ip := rateLimitData ]> requestCounts in
  if MAX_REQUESTS <? rl_count rateLimitData then
    (tooManyRequests (ceilSeconds (WINDOW_MS - (now - rl_windowStart rateLimitData))),
     requestCounts)
  else
    (passedOn (MAX_REQUESTS - rl_count rateLimitData)
       (rl_windowStart rateLimitData + WINDOW_MS),
     requestCounts).

(** The middleware serving a sequence of requests [(now, ip)], in order:
    the answers and the table at the end. *)
Fixpoint serve (requests : list (Z * string)) (requestCounts : gmap string RateLimitData)
  : list RateLimitAnswer * gmap string RateLimitData :=
  match requests with
  | [] => ([], requestCounts)
  | (now, ip) :: requests' =>
      let '(answer, requestCounts) := rateLimiter now ip requestCounts in
      let '(answers, requestCounts) := serve requests' requestCounts in
      (answer :: answers, requestCounts)
  end.

Definition isPassedOn (answer : RateLimitAnswer) : bool :=
  match answer with passedOn _ _ => true | tooManyRequests _ => false end.

(** The answers given to the requests of [ip], in order. *)
Fixpoint answersTo (ip : string) (requests : list (Z * string))
    (answers : list RateLimitAnswer) : list RateLimitAnswer :=
  match requests, answers with
  | (_, ip') :: requests', answer :: answers' =>
      if String.eqb ip' ip then answer :: answersTo ip requests' answers'
      else answersTo ip requests' answers'
  | _, _ => []
  end.

(** The number of requests of [ip] in a sequence. *)
Definition requestsFrom (ip : string) (requests : list (Z * string)) : nat :=
  length (filter (fun request => String.eqb (snd request) ip = true) requests).

(** ** Oracle adapters: src/services/goplus.js, src/services/token-sniffer.js *)

(** [{ score, findings }] as built by the [calculateRisk] methods. *)
Record OracleRisk := { or_score : number; or_findings : list Finding }.

(** [if (cond) { score += finding.score; findings.push(finding) }] *)
Definition report (cond : bool) (finding : Finding) (st : list Finding * number)
  : list Finding * number :=
  if cond then record f_score st (Some finding) else st.

Definition noOracleRisk : OracleRisk := {| or_score := 0; or_findings := [] |}.

(** *** GoPlus

    A token record of the GoPlus response, restricted to the fields that
    [calculateRisk] and the scorers read; GoPlus sends ["1"], ["0"] or
    nothing. *)
Record GoPlusTokenData := {
  td_is_honeypot : option string;
  td_honeypot_with_same_creator : option string;
  td_is_open_source : option string;
  td_is_proxy : option string;
  td_can_take_back_ownership : option string;
  td_owner_change_balance : option string;
  td_hidden_owner : option string;
  td_cannot_sell_all : option string;
  td_trading_cooldown : option string;
  td_is_blacklisted : option string;
  td_selfdestruct : option string;
  td_external_call : option string;
  td_transfer_pausable : option string;
  td_buy_tax : option string;
  td_sell_tax : option string;
  td_is_airdrop_scam : option string
}.

(** The body of the response: [code] and [result]; [result[key]] is the
    runtime's property lookup. *)
Record GoPlusResponse := {
  gr_code : Z;
  gr_result : option (string -> option GoPlusTokenData)
}.

(** The object that [parseResponse] builds when the token is found, with
    the same restriction. *)
Record GoPlusChecked := {
  gc_is_honeypot : bool;
  gc_honeypot_with_same_creator : bool;
  gc_is_open_source : bool;
  gc_is_proxy : bool;
  gc_can_take_back_ownership : bool;
  gc_owner_change_balance : bool;
  gc_hidden_owner : bool;
  gc_cannot_sell_all : bool;
  gc_trading_cooldown : bool;
  gc_is_blacklisted : bool;
  gc_selfdestruct : bool;
  gc_external_call : bool;
  gc_transfer_pausable : bool;
  gc_buy_tax : number;
  gc_sell_tax : number;
  gc_is_airdrop_scam : bool
}.

(** What [checkTokenSecurity] resolves to, when it is not [null]:
    [{ checked: false, error }] or the parsed record with [checked: true]. *)
Inductive GoPlusAnswer :=
| goplusUnchecked
| goplusChecked_ (data : GoPlusChecked).

(** [field === '1'] *)
Definition isOne (field : option string) : bool :=
  match field with Some s => String.eqb s "1" | None => false end.

Module GoPlusClient.
Section WithParseFloat.
(** The runtime's [parseFloat], on the tax strings GoPlus sends. *)
Variable parseFloat : string -> number.

(** [field ? parseFloat(field) : 0] *)
Definition taxOf (field : option string) : number :=
  if truthy_string field then parseFloat (orEmpty field) else 0%Q.

Definition parseResponse (data : GoPlusResponse) (address : string) : GoPlusAnswer :=
  if negb (gr_code data =? 1) || negb (isPresent (gr_result data)) then goplusUnchecked
  else
    match gr_result data ≫= (fun result => result (toLowerCase address)) with
    | Some tokenData =>
        goplusChecked_
          {| gc_is_honeypot := isOne (td_is_honeypot tokenData);
             gc_honeypot_with_same_creator :=
               isOne (td_honeypot_with_same_creator tokenData);
             gc_is_open_source := isOne (td_is_open_source tokenData);
             gc_is_proxy := isOne (td_is_proxy tokenData);
             gc_can_take_back_ownership :=
               isOne (td_can_take_back_ownership tokenData);
             gc_owner_change_balance := isOne (td_owner_change_balance tokenData);
             gc_hidden_owner := isOne (td_hidden_owner tokenData);
             gc_cannot_sell_all := isOne (td_cannot_sell_all tokenData);
             gc_trading_cooldown := isOne (td_trading_cooldown tokenData);
             gc_is_blacklisted := isOne (td_is_blacklisted tokenData);
             gc_selfdestruct := isOne (td_selfdestruct tokenData);
             gc_external_call := isOne (td_external_call tokenData);
             gc_transfer_pausable := isOne (td_transfer_pausable tokenData);
             gc_buy_tax := taxOf (td_buy_tax tokenData);
             gc_sell_tax := taxOf (td_sell_tax tokenData);
             gc_is_airdrop_scam := isOne (td_is_airdrop_scam tokenData) |}
    | None => goplusUnchecked
    end.
End WithParseFloat.

(** [calculateRisk(goplusResult)]; [None] is [null]. *)
Definition calculateRisk (goplusResult : option GoPlusAnswer) : OracleRisk :=
  match goplusResult with
  | Some (goplusChecked_ g) =>
      let st := ([], 0%Q) in
      let st := report (gc_is_honeypot g)
                  {| f_type := "honeypot_detected"; f_severity := critical; f_score := 30 |} st in
      let st := report (gc_cannot_sell_all g)
                  {| f_type := "cannot_sell_all"; f_severity := critical; f_score := 25 |} st in
      let st := report (gc_selfdestruct g)
                  {| f_type := "selfdestruct_goplus"; f_severity := critical; f_score := 20 |}
                  st in
      let st := report (gc_hidden_owner g)
                  {| f_type := "hidden_owner_goplus"; f_severity := high; f_score := 15 |} st in
      let st := report (gc_can_take_back_ownership g)
                  {| f_type := "ownership_takeback"; f_severity := high; f_score := 15 |} st in
      let st := report (gc_owner_change_balance g)
                  {| f_type := "owner_change_balance"; f_severity := high; f_score := 15 |}
                  st in
      let st := report (gtb (gc_buy_tax g) 10)
                  {| f_type := "high_buy_tax_goplus"; f_severity := high; f_score := 10 |} st in
      let st := report (gtb (gc_sell_tax g) 10)
                  {| f_type := "high_sell_tax_goplus"; f_severity := high; f_score := 10 |}
                  st in
      let st := report (gc_transfer_pausable g)
                  {| f_type := "transfer_pausable_goplus"; f_severity := medium; f_score := 8 |}
                  st in
      let st := report (gc_trading_cooldown g)
                  {| f_type := "trading_cooldown_goplus"; f_severity := medium; f_score := 5 |}
                  st in
      let st := report (gc_is_blacklisted g)
                  {| f_type := "blacklist_goplus"; f_severity := medium; f_score := 7 |} st in
      let st := report (gc_external_call g)
                  {| f_type := "external_call_risk"; f_severity := medium; f_score := 5 |} st in
      let st := report (gc_honeypot_with_same_creator g)
                  {| f_type := "creator_honeypot_history"; f_severity := high; f_score := 20 |}
                  st in
      let st := report (gc_is_airdrop_scam g)
                  {| f_type := "airdrop_scam"; f_severity := critical; f_score := 25 |} st in
      let st := report (gc_is_proxy g && negb (gc_is_open_source g))
                  {| f_type := "proxy_not_verified"; f_severity := medium; f_score := 5 |} st in
      {| or_score := snd st; or_findings := fst st |}
  | _ => noOracleRisk
  end.
End GoPlusClient.

(** The GoPlus answer as [scoring.js] and the fallback scorer read it: of an
    unchecked answer every field but [checked] is [undefined]. *)
Definition asGoPlusResult (answer : GoPlusAnswer) : GoPlusResult :=
  match answer with
  | goplusChecked_ g =>
      {| gp_checked := true;
         gp_is_honeypot := Some (gc_is_honeypot g);
         gp_hidden_owner := gc_hidden_owner g;
         gp_cannot_sell_all := gc_cannot_sell_all g;
         gp_buy_tax := Some (gc_buy_tax g);
         gp_sell_tax := Some (gc_sell_tax g) |}
  | goplusUnchecked =>
      {| gp_checked := false; gp_is_honeypot := None; gp_hidden_owner := false;
         gp_cannot_sell_all := false; gp_buy_tax := None; gp_sell_tax := None |}
  end.

(** *** Token Sniffer

    The result of [checkToken], when it is not [null]; [score] is [null] and
    [warnings], [exploits], [details] are absent in some of the answers. *)
Record SnifferDetails := { sd_is_honeypot : bool; sd_hidden_owner : bool }.

Record SnifferResult := {
  sr_checked : bool;
  sr_in_database : bool;
  sr_scam : bool;
  sr_score : option number;
  sr_warnings : option (list string);
  sr_exploits : option (list string);
  sr_details : option SnifferDetails
}.

Module TokenSnifferClient.
(** [xs && xs.length > 0] *)
Definition nonEmpty (xs : option (list string)) : bool :=
  match xs with Some (_ :: _) => true | _ => false end.

(** [snifferResult.score && snifferResult.score > n] *)
Definition scoreAbove (score : option number) (n : number) : bool :=
  match score with Some s => truthy_number s && gtb s n | None => false end.

Definition calculateRisk (snifferResult : option SnifferResult) : OracleRisk :=
  match snifferResult with
  | Some s =>
      if negb (sr_checked s) then noOracleRisk
      else if negb (sr_in_database s) then noOracleRisk
      else
        let st := ([], 0%Q) in
        let st := report (sr_scam s)
                    {| f_type := "scam_database_flagged"; f_severity := critical;
                       f_score := 25 |} st in
        let st :=
          if scoreAbove (sr_score s) 70 then
            report true {| f_type := "high_scam_score"; f_severity := high; f_score := 20 |} st
          else
            report (scoreAbove (sr_score s) 50)
              {| f_type := "moderate_scam_score"; f_severity := medium; f_score := 10 |} st in
        let st :=
          let warningScore :=
            Math_min (inject_Z (Z.of_nat (length (default [] (sr_warnings s)))) * 3) 15 in
          report (nonEmpty (sr_warnings s))
            {| f_type := "token_sniffer_warnings"; f_severity := medium;
               f_score := warningScore |} st in
        let st := report (nonEmpty (sr_exploits s))
                    {| f_type := "known_exploits"; f_severity := critical; f_score := 30 |}
                    st in
        let st :=
          match sr_details s with
          | Some details =>
              let st := report (sd_is_honeypot details)
                          {| f_type := "honeypot_token_sniffer"; f_severity := critical;
                             f_score := 25 |} st in
              report (sd_hidden_owner details)
                {| f_type := "hidden_owner_token_sniffer"; f_severity := high;
                   f_score := 15 |} st
          | None => st
          end in
        {| or_score := snd st; or_findings := fst st |}
  | None => noOracleRisk
  end.
End TokenSnifferClient.

(** ** src/utils/whitelist.js: the table of known tokens *)

Record KnownToken := {
  kt_name : string;
  kt_symbol : string;
  kt_type : string;
  kt_issuer : string;
  kt_allowCentralized : bool
}.

Definition KNOWN_TOKENS : gmap string KnownToken :=
  list_to_map
    [ ("0xa0b86991c6218b36c1d19d4a2e9eb0ce3606eb48",
       {| kt_name := "USD Coin"; kt_symbol := "USDC"; kt_type := "stablecoin";
          kt_issuer := "Circle"; kt_allowCentralized := true |});
      ("0xdac17f958d2ee523a2206206994597c13d831ec7",
       {| kt_name := "Tether USD"; kt_symbol := "USDT"; kt_type := "stablecoin";
          kt_issuer := "Tether"; kt_allowCentralized := true |});
      ("0x6b175474e89094c44da98b954eedeac495271d0f",
       {| kt_name := "Dai Stablecoin"; kt_symbol := "DAI"; kt_type := "stablecoin";
          kt_issuer := "MakerDAO"; kt_allowCentralized := false |});
      ("0x4fabb145d64652a948d72533023f6e7a623c7c53",
       {| kt_name := "Binance USD"; kt_symbol := "BUSD"; kt_type := "stablecoin";
          kt_issuer := "Binance/Paxos"; kt_allowCentralized := true |});
      ("0xc02aaa39b223fe8d0a0e5c4f27ead9083c756cc2",
       {| kt_name := "Wrapped Ether"; kt_symbol := "WETH"; kt_type := "wrapped";
          kt_issuer := "WETH9"; kt_allowCentralized := false |});
      ("0x2260fac5e5542a773aa44fbcfedf7c193bc2c599",
       {| kt_name := "Wrapped BTC"; kt_symbol := "WBTC"; kt_type := "wrapped";
          kt_issuer := "BitGo"; kt_allowCentralized := true |});
      ("0x514910771af9ca656af840dff83e8264ecf986ca",
       {| kt_name := "ChainLink Token"; kt_symbol := "LINK"; kt_type := "utility";
          kt_issuer := "Chainlink"; kt_allowCentralized := false |});
      ("0x7d1afa7b718fb893db30a3abc0cfc608aacfebb0",
       {| kt_name := "Polygon"; kt_symbol := "MATIC"; kt_type := "L2";
          kt_issuer := "Polygon"; kt_allowCentralized := false |});
      ("0x1f9840a85d5af5bf1d1762f925bdaddc4201f984",
       {| kt_name := "Uniswap"; kt_symbol := "UNI"; kt_type := "governance";
          kt_issuer := "Uniswap"; kt_allowCentralized := false |}) ].

(** What [KNOWN_TOKENS[normalized] || null] evaluates to.  [KNOWN_TOKENS] is
    an object literal, so besides its own entries the lookup finds the
    members it inherits from [Object.prototype]; of those only
    ["constructor"] and ["__proto__"] are spelled in lower case and can be
    hit by a lower-cased key.  They are truthy and have no
    [allowCentralized]. *)
Inductive KnownTokenLookup :=
| tokenEntry (token : KnownToken)
| inheritedMember
| noToken.

Definition isKnownToken (address : string) : KnownTokenLookup :=
  let normalized := toLowerCase address in
  match KNOWN_TOKENS !! normalized with
  | Some token => tokenEntry token
  | None =>
      if String.eqb normalized "constructor" || String.eqb normalized "__proto__"
      then inheritedMember
      else noToken
  end.

(** [allowsCentralizedOwnership], as the truth value its callers test: the
    [allowCentralized] of an inherited member is [undefined]. *)
Definition allowsCentralizedOwnership (address : string) : bool :=
  match isKnownToken address with
  | tokenEntry token => kt_allowCentralized token
  | inheritedMember => false
  | noToken => false
  end.

(** ** src/analyzers/ownership.js *)

(** What the chain and the explorer answer during [analyzeOwnership];
    [None] is an exception.  [own_getOwner]: the owner address or [null];
    [own_functionNames]: the [functionName] of each transaction that
    [getTransactions] lists. *)
Record OwnershipResponses := {
  own_getOwner : option (option string);
  own_isContract : option bool;
  own_isMultiSig : option bool;
  own_isTimelock : option bool;
  own_functionNames : option (list (option string))
}.

Record OwnershipChecks := {
  oc_hasOwner : bool;
  oc_ownerAddress : option string;
  oc_isRenounced : bool;
  oc_isMultiSig : bool;
  oc_isTimelock : bool;
  oc_isCentralized : bool;
  oc_score : number;
  oc_findings : list Finding
}.

(** [checks.findings.push(finding)] *)
Definition pushFinding (finding : Finding) (checks : OwnershipChecks) : OwnershipChecks :=
  {| oc_hasOwner := oc_hasOwner checks; oc_ownerAddress := oc_ownerAddress checks;
     oc_isRenounced := oc_isRenounced checks; oc_isMultiSig := oc_isMultiSig checks;
     oc_isTimelock := oc_isTimelock checks; oc_isCentralized := oc_isCentralized checks;
     oc_score := oc_score checks;
     oc_findings := oc_findings checks ++ [finding] |}.

(** [checks.score += d] *)
Definition addScore (d : number) (checks : OwnershipChecks) : OwnershipChecks :=
  {| oc_hasOwner := oc_hasOwner checks; oc_ownerAddress := oc_ownerAddress checks;
     oc_isRenounced := oc_isRenounced checks; oc_isMultiSig := oc_isMultiSig checks;
     oc_isTimelock := oc_isTimelock checks; oc_isCentralized := oc_isCentralized checks;
     oc_score := (oc_score checks + d)%Q;
     oc_findings := oc_findings checks |}.

(** [checks.isCentralized = false] *)
Definition decentralized (checks : OwnershipChecks) : OwnershipChecks :=
  {| oc_hasOwner := oc_hasOwner checks; oc_ownerAddress := oc_ownerAddress checks;
     oc_isRenounced := oc_isRenounced checks; oc_isMultiSig := oc_isMultiSig checks;
     oc_isTimelock := oc_isTimelock checks; oc_isCentralized := false;
     oc_score := oc_score checks;
     oc_findings := oc_findings checks |}.

(** The [catch] block. *)
Definition ownershipError (checks : OwnershipChecks) : OwnershipChecks :=
  pushFinding {| f_type := "analysis_error"; f_severity := info; f_score := 0 |} checks.

(** [analyzeOwnershipHistory]: the number of transactions whose function
    name contains "transferownership"; 0 when the explorer call throws. *)
Definition ownershipTransferCount (functionNames : option (list (option string))) : nat :=
  match functionNames with
  | Some names =>
      length
        (List.filter
           (fun functionName =>
              truthy_string functionName
              && includes (toLowerCase (orEmpty functionName)) "transferownership")
           names)
  | None => 0%nat
  end.

(** The last step of [analyzeOwnership]: the transfer history. *)
Definition ownershipHistoryStep (r : OwnershipResponses) (checks : OwnershipChecks)
  : OwnershipChecks :=
  if (0 <? ownershipTransferCount (own_functionNames r))%nat then
    addScore 3
      (pushFinding {| f_type := "ownership_transferred"; f_severity := medium; f_score := 3 |}
         checks)
  else checks.

Definition analyzeOwnership (r : OwnershipResponses) (contractAddress : string)
  : OwnershipChecks :=
  let checks :=
    {| oc_hasOwner := false; oc_ownerAddress := None; oc_isRenounced := false;
       oc_isMultiSig := false; oc_isTimelock := false; oc_isCentralized := true;
       oc_score := 0; oc_findings := [] |} in
  match own_getOwner r with
  | None => ownershipError checks
  | Some owner =>
      if negb (truthy_string owner) then
        decentralized
          (pushFinding {| f_type := "no_owner_function"; f_severity := info; f_score := 0 |}
             checks)
      else
        let checks :=
          {| oc_hasOwner := true; oc_ownerAddress := owner;
             oc_isRenounced := oc_isRenounced checks; oc_isMultiSig := oc_isMultiSig checks;
             oc_isTimelock := oc_isTimelock checks;
             oc_isCentralized := oc_isCentralized checks;
             oc_score := oc_score checks; oc_findings := oc_findings checks |} in
        if String.eqb (toLowerCase (orEmpty owner)) zeroAddress then
          pushFinding
            {| f_type := "ownership_renounced"; f_severity := safe; f_score := -10 |}
            (addScore (-10)
               {| oc_hasOwner := oc_hasOwner checks;
                  oc_ownerAddress := oc_ownerAddress checks;
                  oc_isRenounced := true; oc_isMultiSig := oc_isMultiSig checks;
                  oc_isTimelock := oc_isTimelock checks; oc_isCentralized := false;
                  oc_score := oc_score checks; oc_findings := oc_findings checks |})
        else
          match own_isContract r with
          | None => ownershipError checks
          | Some true =>
              match own_isMultiSig r with
              | None => ownershipError checks
              | Some isMultiSig =>
                  let checks :=
                    if isMultiSig then
                      pushFinding
                        {| f_type := "multisig_owner"; f_severity := safe; f_score := -5 |}
                        (addScore (-5)
                           {| oc_hasOwner := oc_hasOwner checks;
                              oc_ownerAddress := oc_ownerAddress checks;
                              oc_isRenounced := oc_isRenounced checks;
                              oc_isMultiSig := true;
                              oc_isTimelock := oc_isTimelock checks;
                              oc_isCentralized := false;
                              oc_score := oc_score checks;
                              oc_findings := oc_findings checks |})
                    else checks in
                  match own_isTimelock r with
                  | None => ownershipError checks
                  | Some isTimelock =>
                      let checks :=
                        if isTimelock then
                          pushFinding
                            {| f_type := "timelock_owner"; f_severity := safe;
                               f_score := -5 |}
                            (addScore (-5)
                               {| oc_hasOwner := oc_hasOwner checks;
                                  oc_ownerAddress := oc_ownerAddress checks;
                                  oc_isRenounced := oc_isRenounced checks;
                                  oc_isMultiSig := oc_isMultiSig checks;
                                  oc_isTimelock := true;
                                  oc_isCentralized := false;
                                  oc_score := oc_score checks;
                                  oc_findings := oc_findings checks |})
                        else checks in
                      let checks :=
                        if negb isMultiSig && negb isTimelock then
                          pushFinding
                            {| f_type := "contract_owner"; f_severity := info;
                               f_score := 0 |} checks
                        else checks in
                      ownershipHistoryStep r checks
                  end
              end
          | Some false =>
              let allowsCentralized := allowsCentralizedOwnership contractAddress in
              let knownToken :=
                match isKnownToken contractAddress with noToken => false | _ => true end in
              let checks :=
                if allowsCentralized && knownToken then
                  addScore 2
                    (pushFinding
                       {| f_type := "centralized_ownership_expected"; f_severity := low;
                          f_score := 2 |} checks)
                else
                  pushFinding
                    {| f_type := "centralized_ownership"; f_severity := high;
                       f_score := 10 |}
                    (addScore 10 checks) in
              ownershipHistoryStep r checks
          end
  end.

(** ** src/analyzers/creator-history.js *)

(** A transaction of the creator, as the explorer lists it; [timeStamp] is
    the integer that [parseInt] reads. *)
Record CreatorTx := {
  ctx_to : option string;
  ctx_contractAddress : option string;
  ctx_timeStamp : Z
}.

(** What the clock, the chain and the explorer answer while one deployed
    contract is looked at: the three readings of [Date.now()], the code
    ([None]: the call throws) and the time stamps of the recent
    transactions in the order the explorer lists them ([None]: the call
    throws). *)
Record DeployedResponses := {
  dr_now_age : Z;
  dr_getCode : option string;
  dr_recentTxs : option (list Z);
  dr_now_lastTx : Z;
  dr_now_recent : Z
}.

Record DeployedContract := {
  dc_address : string;
  dc_age_days : Z;
  dc_abandoned : bool;
  dc_has_code : bool;
  dc_transaction_count : Z
}.

Definition msPerDay : Z := 1000 * 60 * 60 * 24.

Definition analyzeDeployedContract (r : DeployedResponses) (contractAddress : string)
    (deploymentTimestamp : Z) : DeployedContract :=
  let age_days := (dr_now_age r - deploymentTimestamp * 1000) / msPerDay in
  match dr_getCode r with
  | None =>
      {| dc_address := contractAddress; dc_age_days := age_days; dc_abandoned := false;
         dc_has_code := false; dc_transaction_count := 0 |}
  | Some code =>
      let has_code := negb (String.eqb code "0x") in
      match dr_recentTxs r with
      | None =>
          {| dc_address := contractAddress; dc_age_days := age_days; dc_abandoned := false;
             dc_has_code := has_code; dc_transaction_count := 0 |}
      | Some recentTxs =>
          let transaction_count := Z.of_nat (length recentTxs) in
          let abandoned :=
            if 7 <? age_days then
              if transaction_count <? 10 then true
              else
                let lastTxTime := match recentTxs with t :: _ => t | [] => 0 end in
                let daysSinceLastTx := (dr_now_lastTx r - lastTxTime * 1000) / msPerDay in
                30 <? daysSinceLastTx
            else false in
          {| dc_address := contractAddress; dc_age_days := age_days;
             dc_abandoned := abandoned; dc_has_code := has_code;
             dc_transaction_count := transaction_count |}
      end
  end.

Record CreatorHistory := {
  ch_analyzed : bool;
  ch_total_contracts_deployed : Z;
  ch_contracts : list DeployedContract;
  ch_abandoned_contracts : Z;
  ch_recent_deployments : Z;
  ch_suspicious_pattern : bool;
  ch_pattern_type : option string;
  ch_score : number;
  ch_findings : list Finding
}.

(** [detectSuspiciousPatterns(analysis)] of the creator history: the flag
    and the type of the last pattern that applies. *)
Definition creatorSuspiciousPattern (total_contracts_deployed abandoned_contracts
    recent_deployments analyzedCount : Z) : bool * option string :=
  let st := (false, None) in
  let st := if 10 <=? total_contracts_deployed then (true, Some "serial_deployer") else st in
  let st := if 3 <=? abandoned_contracts then (true, Some "multiple_abandoned") else st in
  let st := if 5 <=? recent_deployments then (true, Some "rapid_deployment") else st in
  if 0 <? analyzedCount then
    let abandonmentRate := (inject_Z abandoned_contracts / inject_Z analyzedCount)%Q in
    if gtb abandonmentRate (5 # 10) && (5 <=? analyzedCount)
    then (true, Some "high_abandonment_rate") else st
  else st.

(** [calculateCreatorRiskScore(analysis)]: the findings and the score. *)
Definition calculateCreatorRiskScore (total_contracts_deployed abandoned_contracts
    recent_deployments analyzedCount : Z) : list Finding * number :=
  let st := ([], 0%Q) in
  let st :=
    if 10 <=? total_contracts_deployed then
      report true {| f_type := "serial_deployer"; f_severity := high; f_score := 15 |} st
    else
      report (5 <=? total_contracts_deployed)
        {| f_type := "multiple_deployments"; f_severity := medium; f_score := 8 |} st in
  let st :=
    if 5 <=? abandoned_contracts then
      report true
        {| f_type := "multiple_abandoned_contracts"; f_severity := critical; f_score := 25 |}
        st
    else
      report (3 <=? abandoned_contracts)
        {| f_type := "abandoned_contracts"; f_severity := high; f_score := 20 |} st in
  let st :=
    report (5 <=? recent_deployments)
      {| f_type := "rapid_deployment"; f_severity := high; f_score := 12 |} st in
  let st :=
    if 5 <=? analyzedCount then
      let abandonmentRate := (inject_Z abandoned_contracts / inject_Z analyzedCount)%Q in
      if gtb abandonmentRate (7 # 10) then
        report true
          {| f_type := "high_abandonment_rate"; f_severity := high; f_score := 20 |} st
      else
        report (gtb abandonmentRate (5 # 10))
          {| f_type := "moderate_abandonment_rate"; f_severity := medium; f_score := 10 |} st
    else st in
  (* the first-deployment note carries score 0 and leaves [score] as it is *)
  if total_contracts_deployed =? 1 then
    ((fst st ++ [ {| f_type := "first_deployment"; f_severity := info; f_score := 0 |} ])%list,
     snd st)
  else st.

(** [!tx.to || tx.to === '' || tx.to === '0x' || tx.contractAddress] *)
Definition isContractCreation (tx : CreatorTx) : bool :=
  negb (truthy_string (ctx_to tx))
  || String.eqb (orEmpty (ctx_to tx)) "0x"
  || truthy_string (ctx_contractAddress tx).

(** The loop over [recentCreations]: the contracts analysed and the two
    counters.  Each transaction comes with what is answered while the loop
    looks at the contract it created. *)
Definition creationLoop (recentCreations : list (CreatorTx * DeployedResponses))
  : list DeployedContract * Z * Z :=
  fold_left
    (fun '(contracts, abandoned_contracts, recent_deployments) '(tx, r) =>
       let contractAddress :=
         if truthy_string (ctx_contractAddress tx) then ctx_contractAddress tx
         else ctx_to tx in
       if negb (truthy_string contractAddress) then
         (contracts, abandoned_contracts, recent_deployments)
       else
         let contractAnalysis :=
           analyzeDeployedContract r (orEmpty contractAddress) (ctx_timeStamp tx) in
         let deploymentAge := dr_now_recent r - ctx_timeStamp tx * 1000 in
         ((contracts ++ [contractAnalysis])%list,
          (if dc_abandoned contractAnalysis then abandoned_contracts + 1
           else abandoned_contracts),
          (if deploymentAge <? 30 * 24 * 60 * 60 * 1000 then recent_deployments + 1
           else recent_deployments)))
    recentCreations ([], 0, 0).

(** [analyzeCreatorHistory]: [transactions] is the explorer's list of the
    creator's transactions ([None]: the call throws).  The early return for
    a missing creator builds an object with [analyzed], [score] and
    [findings] only; the other fields are shown here with their initial
    values. *)
Definition analyzeCreatorHistory (creatorAddress : option string)
    (transactions : option (list (CreatorTx * DeployedResponses))) : CreatorHistory :=
  let notAnalyzed :=
    {| ch_analyzed := false; ch_total_contracts_deployed := 0; ch_contracts := [];
       ch_abandoned_contracts := 0; ch_recent_deployments := 0;
       ch_suspicious_pattern := false; ch_pattern_type := None;
       ch_score := 0; ch_findings := [] |} in
  if negb (truthy_string creatorAddress) || String.eqb (orEmpty creatorAddress) zeroAddress
  then notAnalyzed
  else
    match transactions with
    | None => notAnalyzed
    | Some transactions =>
        let contractCreations :=
          List.filter (fun entry => isContractCreation (fst entry)) transactions in
        let total_contracts_deployed := Z.of_nat (length contractCreations) in
        let recentCreations := firstn 20 contractCreations in
        let '(contracts, abandoned_contracts, recent_deployments) :=
          creationLoop recentCreations in
        let analyzedCount := Z.of_nat (length contracts) in
        let pattern :=
          creatorSuspiciousPattern total_contracts_deployed abandoned_contracts
            recent_deployments analyzedCount in
        let risk :=
          calculateCreatorRiskScore total_contracts_deployed abandoned_contracts
            recent_deployments analyzedCount in
        {| ch_analyzed := true;
           ch_total_contracts_deployed := total_contracts_deployed;
           ch_contracts := contracts;
           ch_abandoned_contracts := abandoned_contracts;
           ch_recent_deployments := recent_deployments;
           ch_suspicious_pattern := fst pattern;
           ch_pattern_type := snd pattern;
           ch_score := snd risk;
           ch_findings := fst risk |}
    end.

(** The four charges that [calculateCreatorRiskScore] adds up, for the
    statements about the score. *)
Definition deployerCharge (total_contracts_deployed : Z) : number :=
  if 10 <=? total_contracts_deployed then 15
  else if 5 <=? total_contracts_deployed then 8 else 0.

Definition abandonedCharge (abandoned_contracts : Z) : number :=
  if 5 <=? abandoned_contracts then 25
  else if 3 <=? abandoned_contracts then 20 else 0.

Definition rapidCharge (recent_deployments : Z) : number :=
  if 5 <=? recent_deployments then 12 else 0.

Definition rateCharge (abandoned_contracts analyzedCount : Z) : number :=
  if 5 <=? analyzedCount then
    if gtb (inject_Z abandoned_contracts / inject_Z analyzedCount) (7 # 10) then 20
    else if gtb (inject_Z abandoned_contracts / inject_Z analyzedCount) (5 # 10) then 10
    else 0
  else 0.

(** ** src/analyzers/behavioral.js *)

(** A transaction as the explorer lists it: the function name, and the
    [BigInt] of [tx.value || 0]. *)
Record BehaviorTx := { btx_functionName : option string; btx_value : Z }.

(** What the explorer answers to the two calls of [getTransactions] that
    [analyzeBehavior] makes; [None] is an exception. *)
Record BehaviorResponses := {
  beh_activity : option (list BehaviorTx);
  beh_patterns : option (list BehaviorTx)
}.

Record BehaviorChecks := {
  bc_ageScore : number;
  bc_activityScore : number;
  bc_suspiciousActivity : list string;
  bc_score : number;
  bc_findings : list Finding
}.

(** [analyzeContractAge]; [contractInfo.ageInDays || 0] leaves an integer as
    it is. *)
Definition analyzeContractAge (contractInfo : ContractInfo) : list Finding * number :=
  let ageInDays := ci_ageInDays contractInfo in
  let st := ([], 0%Q) in
  if ageInDays <? 1 then
    report true {| f_type := "very_new_contract"; f_severity := high; f_score := 10 |} st
  else if ageInDays <? 7 then
    report true {| f_type := "new_contract"; f_severity := medium; f_score := 5 |} st
  else if ageInDays <? 30 then
    report true {| f_type := "recent_contract"; f_severity := medium; f_score := 3 |} st
  else
    report (365 <? ageInDays)
      {| f_type := "established_contract"; f_severity := safe; f_score := -5 |} st.

Definition analyzeActivity (transactions : option (list BehaviorTx))
  : list Finding * number :=
  let st := ([], 0%Q) in
  match transactions with
  | Some transactions =>
      let txCount := Z.of_nat (length transactions) in
      if txCount =? 0 then
        report true {| f_type := "no_activity"; f_severity := medium; f_score := 5 |} st
      else if txCount <? 10 then
        report true {| f_type := "low_activity"; f_severity := medium; f_score := 3 |} st
      else
        report (1000 <? txCount)
          {| f_type := "high_activity"; f_severity := safe; f_score := -5 |} st
  | None => ([], 0%Q)
  end.

(** [transactions.filter(tx => tx.functionName && keywords.some(k =>
    tx.functionName.toLowerCase().includes(k))).length] *)
Definition countCalls (keywords : list string) (transactions : list BehaviorTx) : Z :=
  Z.of_nat
    (length
       (List.filter
          (fun tx =>
             truthy_string (btx_functionName tx)
             && existsb (includes (toLowerCase (orEmpty (btx_functionName tx)))) keywords)
          transactions)).

(** [detectSuspiciousPatterns] of the behavioral analyzer: the findings and
    the score; the [patterns] it also returns are the types of the
    findings. *)
Definition detectTransactionPatterns (transactions : option (list BehaviorTx))
  : list Finding * number :=
  let st := ([], 0%Q) in
  match transactions with
  | Some transactions =>
      if Z.of_nat (length transactions) =? 0 then st
      else
        let st := report (0 <? countCalls ["settax"; "setfee"; "updatefee"] transactions)
                    {| f_type := "tax_modifications"; f_severity := medium; f_score := 5 |}
                    st in
        let st := report (0 <? countCalls ["blacklist"; "block"] transactions)
                    {| f_type := "blacklist_usage"; f_severity := medium; f_score := 5 |}
                    st in
        let st := report (0 <? countCalls ["pause"; "unpause"] transactions)
                    {| f_type := "pause_events"; f_severity := medium; f_score := 3 |} st in
        let largeTransfers :=
          Z.of_nat
            (length (List.filter (fun tx => 1000000000000000000 <? btx_value tx)
                       transactions)) in
        let st := report (5 <? largeTransfers)
                    {| f_type := "large_transfers"; f_severity := medium; f_score := 3 |}
                    st in
        let st := report (1 <? countCalls ["transferownership"] transactions)
                    {| f_type := "multiple_ownership_transfers"; f_severity := high;
                       f_score := 5 |} st in
        report (0 <? countCalls ["upgrade"; "setimplementation"] transactions)
          {| f_type := "contract_upgrades"; f_severity := high; f_score := 5 |} st
  | None => st
  end.

Definition analyzeBehavior (r : BehaviorResponses) (contractInfo : ContractInfo)
  : BehaviorChecks :=
  let ageAnalysis := analyzeContractAge contractInfo in
  let activityAnalysis := analyzeActivity (beh_activity r) in
  let suspiciousPatterns := detectTransactionPatterns (beh_patterns r) in
  {| bc_ageScore := snd ageAnalysis;
     bc_activityScore := snd activityAnalysis;
     bc_suspiciousActivity := map f_type (fst suspiciousPatterns);
     bc_score := (snd ageAnalysis + snd activityAnalysis + snd suspiciousPatterns)%Q;
     bc_findings := fst ageAnalysis ++ fst activityAnalysis ++ fst suspiciousPatterns |}.

(** ** src/analyzers/holder-analysis.js *)

(** What the chain and the explorer answer to [analyzeHolderConcentration]:
    the total supply ([None]: the call throws) and the [to] field of each
    listed transfer ([None]: the call throws; [Some None]: nothing is
    returned).  Of the object returned, the texts of [findings] are left
    out; [holderCount], absent when the total supply cannot be read, is
    shown as 0 there. *)
Record HolderResponses := {
  hr_totalSupply : option Z;
  hr_transfers : option (option (list (option string)))
}.

Record HolderAnalysis := {
  ha_analyzed : bool;
  ha_holderCount : Z;
  ha_score : number
}.

(** The [holders] map after the loop over the transfers: a set of
    lower-cased recipients. *)
Definition holdersOf (transfers : list (option string)) : gset string :=
  fold_left
    (fun holders to =>
       if truthy_string to && negb (String.eqb (orEmpty to) zeroAddress)
       then {[ toLowerCase (orEmpty to) ]} ∪ holders
       else holders)
    transfers ∅.

Definition analyzeHolderConcentration (r : HolderResponses) : HolderAnalysis :=
  match hr_totalSupply r with
  | None => {| ha_analyzed := false; ha_holderCount := 0; ha_score := 0 |}
  | Some _ =>
      let holders :=
        match hr_transfers r with
        | Some (Some transfers) => holdersOf transfers
        | _ => ∅
        end in
      let holderCount := Z.of_nat (size holders) in
      if holderCount =? 0 then
        {| ha_analyzed := false; ha_holderCount := 0; ha_score := 0 |}
      else
        let score :=
          if holderCount <? 10 then (0 + 20)%Q
          else if holderCount <? 50 then (0 + 10)%Q
          else if holderCount <? 100 then (0 + 5)%Q
          else 0%Q in
        {| ha_analyzed := true; ha_holderCount := holderCount; ha_score := score |}
  end.

(** ** src/services/fallback-analyzer.js: the contract info read over RPC *)

(** What the node answers to [analyzeContractViaRPC]; [None] is an
    exception. *)
Record RpcResponses := {
  rpcr_getCode : option string;
  rpcr_getTransactionCount : option Z;
  rpcr_getBlockNumber : option Z
}.

(** [analyzeContractViaRPC]; of the object it returns, [contractName] and
    [tokenInfo] are read by no scorer and are left out, and with them the
    call of [getTokenInfo]. *)
Definition analyzeContractViaRPC (r : RpcResponses) (address : string)
  : option ContractInfo :=
  code ← rpcr_getCode r;
  if String.eqb code "0x" then None
  else
    txCount ← rpcr_getTransactionCount r;
    let ageInDays :=
      match rpcr_getBlockNumber r with
      | Some currentBlock => (currentBlock * 12) / (60 * 60 * 24)
      | None => 0
      end in
    Some {| ci_address := Some address;
            ci_name := None;
            ci_symbol := None;
            ci_verified := false;
            ci_sourceCode := None;
            ci_isProxy := includes code "delegatecall";
            ci_creator := None;
            ci_creationTxHash := None;
            ci_ageInDays := Z.max ageInDays 1;
            ci_transactionCount := txCount;
            ci_fallbackMode := true |}.

(** ** Inputs of the examples, witnesses and counterexamples *)

(** A token called "SafeMoon HONEYPOT" at a known-safe address, verified,
    with every analyzer and oracle reporting a strongly negative score. *)
Definition honeypot_on_safe_address : Analyses :=
  {| codeAnalysis :=
       Some {| ca_analyzed := true; ca_vulnerabilities := [];
               ca_safePatterns := []; ca_score := -30 |};
     ownershipAnalysis :=
       Some {| oa_hasOwner := true; oa_isRenounced := true; oa_score := -10 |};
     liquidityAnalysis := None;
     behaviorAnalysis := Some {| ba_score := -10 |};
     contractInfo :=
       Some {| ci_address := Some "0xA0b86991c6218b36c1d19D4a2e9Eb0cE3606eB48";
               ci_name := Some "SafeMoon HONEYPOT";
               ci_symbol := Some "SAFE";
               ci_verified := true;
               ci_sourceCode := None;
               ci_isProxy := false;
               ci_creator := Some "0x95ba4cf87d6723ad9c0db21737d862be80e93911";
               ci_creationTxHash := Some "0xe7e0fe390354509cd08c9a0168536938600ddc552b3f7cb96030ebef62e75895";
               ci_ageInDays := 2000;
               ci_transactionCount := 1000000;
               ci_fallbackMode := false |};
     tokenSnifferRisk := Some {| rc_score := 0 |};
     tokenSnifferResult := Some {| ts_checked := true |};
     goplusRisk := Some {| rc_score := -20 |};
     goplusResult :=
       Some {| gp_checked := true; gp_is_honeypot := Some false;
               gp_hidden_owner := false; gp_cannot_sell_all := false;
               gp_buy_tax := Some 0%Q; gp_sell_tax := Some 0%Q |};
     creatorHistoryAnalysis := Some {| cha_analyzed := true; cha_score := 0 |};
     holderAnalysis := None;
     creatorHoldingAnalysis := None |}.

Definition mkContractInfo (address name symbol : string) (verified : bool)
    (ageInDays transactionCount : Z) : ContractInfo :=
  {| ci_address := Some address;
     ci_name := Some name;
     ci_symbol := Some symbol;
     ci_verified := verified;
     ci_sourceCode := None;
     ci_isProxy := false;
     ci_creator := Some "0x95ba4cf87d6723ad9c0db21737d862be80e93911";
     ci_creationTxHash := Some "0xe7e0fe390354509cd08c9a0168536938600ddc552b3f7cb96030ebef62e75895";
     ci_ageInDays := ageInDays;
     ci_transactionCount := transactionCount;
     ci_fallbackMode := false |}.


(** A verified contract, 400 days old with 100 transactions, for which every
    analyzer and oracle is neutral: only the low-activity finding (15) fires. *)
Definition old_quiet_contract : Analyses :=
  {| codeAnalysis :=
       Some {| ca_analyzed := true; ca_vulnerabilities := [];
               ca_safePatterns := []; ca_score := 0 |};
     ownershipAnalysis :=
       Some {| oa_hasOwner := false; oa_isRenounced := false; oa_score := 0 |};
     liquidityAnalysis := None;
     behaviorAnalysis := Some {| ba_score := 0 |};
     contractInfo :=
       Some (mkContractInfo "0x1111111111111111111111111111111111111111"
               "Quiet Token" "QT" true 400 100);
     tokenSnifferRisk := Some {| rc_score := 0 |};
     tokenSnifferResult := None;
     goplusRisk := Some {| rc_score := 0 |};
     goplusResult := None;
     creatorHistoryAnalysis := Some {| cha_analyzed := false; cha_score := 0 |};
     holderAnalysis := Some {| rc_score := 0 |};
     creatorHoldingAnalysis := Some {| rc_score := 0 |} |}.

Definition goplus_clean : GoPlusResult :=
  {| gp_checked := true; gp_is_honeypot := Some false;
     gp_hidden_owner := false; gp_cannot_sell_all := false;
     gp_buy_tax := Some 0%Q; gp_sell_tax := Some 0%Q |}.

Definition restricted_mint_source : string :=
  "function mint(address to, uint256 amount) public onlyOwner { _mint(to, amount); }".


(** All LP tokens of a pair are minted to the PinkLock locker (ETH). *)
Definition lp_in_pinklock : PairResponse :=
  {| pr_address := "0x3333333333333333333333333333333333333333";
     pr_lpTransfers :=
       [ {| tr_from := "0x0000000000000000000000000000000000000000";
            tr_to := "0x407993575c91ce7643a4d4cCACc9A98c36eE1BBE";
            tr_value := 1000000 |} ];
     pr_totalSupply := Some 1000000 |}.

(** 99.5% of the LP tokens sit with an ordinary holder, 0.5% were sent to
    the burn address. *)
Definition lp_dust_burned : PairResponse :=
  {| pr_address := "0x3333333333333333333333333333333333333333";
     pr_lpTransfers :=
       [ {| tr_from := "0x0000000000000000000000000000000000000000";
            tr_to := "0x6666666666666666666666666666666666666666";
            tr_value := 1000 |};
         {| tr_from := "0x6666666666666666666666666666666666666666";
            tr_to := "0x000000000000000000000000000000000000dEaD";
            tr_value := 5 |} ];
     pr_totalSupply := Some 1000 |}.

(** The deployer keeps the whole LP supply. *)
Definition lp_held_by_creator : PairResponse :=
  {| pr_address := "0x3333333333333333333333333333333333333333";
     pr_lpTransfers :=
       [ {| tr_from := "0x0000000000000000000000000000000000000000";
            tr_to := "0x95Ba4cF87D6723ad9C0Db21737D862bE80e93911";
            tr_value := 1000000 |} ];
     pr_totalSupply := Some 1000000 |}.

(** The deployer holds 50.001% of the LP supply, another account the
    rest. *)
Definition lp_barely_majority : PairResponse :=
  {| pr_address := "0x3333333333333333333333333333333333333333";
     pr_lpTransfers :=
       [ {| tr_from := "0x0000000000000000000000000000000000000000";
            tr_to := "0x95Ba4cF87D6723ad9C0Db21737D862bE80e93911";
            tr_value := 50001 |};
         {| tr_from := "0x0000000000000000000000000000000000000000";
            tr_to := "0x6666666666666666666666666666666666666666";
            tr_value := 49999 |} ];
     pr_totalSupply := Some 100000 |}.

(** The same with the Unicrypt locker, whose table entry is lower-case. *)
Definition lp_in_unicrypt : PairResponse :=
  {| pr_address := "0x3333333333333333333333333333333333333333";
     pr_lpTransfers :=
       [ {| tr_from := "0x0000000000000000000000000000000000000000";
            tr_to := "0x663A5C229c09b049E36dCc11a9B0d4a8Eb9db214";
            tr_value := 1000000 |} ];
     pr_totalSupply := Some 1000000 |}.

(** The explorer is down and Sourcify has nothing: the run ends in fallback
    mode.  GoPlus reports a honeypot with hidden owner. *)
Definition run_in_fallback : Responses :=
  {| etherscan_getContractInfo := None;
     sourcify_getSourceCode := None;
     rpc_analyzeContractViaRPC :=
       Some {| ci_address := Some "0x4444444444444444444444444444444444444444";
               ci_name := None; ci_symbol := None;
               ci_verified := false; ci_sourceCode := None; ci_isProxy := false;
               ci_creator := None; ci_creationTxHash := None;
               ci_ageInDays := 3000; ci_transactionCount := 1;
               ci_fallbackMode := true |};
     provider_getCode := Some "0x6080604052a9059cbb095ea7b370a08231ff";
     r_analyzeOwnership := None;
     r_findLiquidityPairs := [];
     r_analyzeBehavior := {| ba_score := 0 |};
     rpc_getTokenInfo := Some {| ti_name := "Some Token"; ti_symbol := "TKN" |};
     r_tokenSniffer := Some (Some {| ts_checked := true |}, {| rc_score := 25 |});
     r_goplus :=
       Some (Some {| gp_checked := true; gp_is_honeypot := Some true;
                     gp_hidden_owner := true; gp_cannot_sell_all := true;
                     gp_buy_tax := Some 50%Q; gp_sell_tax := Some 50%Q |},
             {| rc_score := 60 |});
     r_analyzeCreatorHistory := None;
     r_analyzeHolderConcentration := None;
     r_analyzeCreatorHolding := None |}.

(** The explorer answers: a verified source with a restricted mint. *)
Definition run_with_explorer : Responses :=
  {| etherscan_getContractInfo :=
       Some {| ci_address := Some "0x5555555555555555555555555555555555555555";
               ci_name := None; ci_symbol := None;
               ci_verified := true;
               ci_sourceCode := Some restricted_mint_source;
               ci_isProxy := false;
               ci_creator := Some "0x95ba4cf87d6723ad9c0db21737d862be80e93911";
               ci_creationTxHash := Some "0xe7e0fe390354509cd08c9a0168536938600ddc552b3f7cb96030ebef62e75895";
               ci_ageInDays := 100; ci_transactionCount := 5000;
               ci_fallbackMode := false |};
     sourcify_getSourceCode := None;
     rpc_analyzeContractViaRPC := None;
     provider_getCode := None;
     r_analyzeOwnership :=
       Some {| oa_hasOwner := true; oa_isRenounced := false; oa_score := 10 |};
     r_findLiquidityPairs := [lp_in_unicrypt];
     r_analyzeBehavior := {| ba_score := 5 |};
     rpc_getTokenInfo := Some {| ti_name := "Some Token"; ti_symbol := "TKN" |};
     r_tokenSniffer := None;
     r_goplus := Some (Some goplus_clean, {| rc_score := -10 |});
     r_analyzeCreatorHistory := Some {| cha_analyzed := true; cha_score := 8 |};
     r_analyzeHolderConcentration := Some {| rc_score := 10 |};
     r_analyzeCreatorHolding := Some {| rc_score := 0 |} |}.

Definition expired_entry : gmap (string * string * string) Row :=
  {[ CacheDB.key "0xA0b86991c6218b36c1d19D4a2e9Eb0cE3606eB48" "ethereum" "quick"
       := {| row_result := "true"; row_created_at := 1000 |} ]}.


(** [old_quiet_contract] with a GoPlus contribution of 30. *)
Definition old_quiet_contract_flagged : Analyses :=
  {| codeAnalysis := codeAnalysis old_quiet_contract;
     ownershipAnalysis := ownershipAnalysis old_quiet_contract;
     liquidityAnalysis := liquidityAnalysis old_quiet_contract;
     behaviorAnalysis := behaviorAnalysis old_quiet_contract;
     contractInfo := contractInfo old_quiet_contract;
     tokenSnifferRisk := tokenSnifferRisk old_quiet_contract;
     tokenSnifferResult := tokenSnifferResult old_quiet_contract;
     goplusRisk := Some {| rc_score := 30 |};
     goplusResult := goplusResult old_quiet_contract;
     creatorHistoryAnalysis := creatorHistoryAnalysis old_quiet_contract;
     holderAnalysis := holderAnalysis old_quiet_contract;
     creatorHoldingAnalysis := creatorHoldingAnalysis old_quiet_contract |}.

(** A proxy that forwards with [delegatecall]. *)
Definition delegatecall_in_proxy_source : string :=
  "address(impl).delegatecall(data); function upgradeTo(address a)".

(** Mints to two holders, a transfer between them and a partial burn. *)
Definition lp_moved_around : PairResponse :=
  {| pr_address := "0x3333333333333333333333333333333333333333";
     pr_lpTransfers :=
       [ {| tr_from := "0x0000000000000000000000000000000000000000";
            tr_to := "0x6666666666666666666666666666666666666666";
            tr_value := 600 |};
         {| tr_from := "0x0000000000000000000000000000000000000000";
            tr_to := "0x8888888888888888888888888888888888888888";
            tr_value := 400 |};
         {| tr_from := "0x6666666666666666666666666666666666666666";
            tr_to := "0x8888888888888888888888888888888888888888";
            tr_value := 300 |};
         {| tr_from := "0x8888888888888888888888888888888888888888";
            tr_to := "0x000000000000000000000000000000000000dEaD";
            tr_value := 200 |} ];
     pr_totalSupply := Some 1000 |}.

(** The explorer and the RPC analysis are both down. *)
Definition run_without_sources : Responses :=
  withDeepAnswers [] None None None
    {| etherscan_getContractInfo := None;
       sourcify_getSourceCode := None;
       rpc_analyzeContractViaRPC := None;
       provider_getCode := Some "0x";
       r_analyzeOwnership := None;
       r_findLiquidityPairs := [];
       r_analyzeBehavior := {| ba_score := 0 |};
       rpc_getTokenInfo := None;
       r_tokenSniffer := None;
       r_goplus := None;
       r_analyzeCreatorHistory := None;
       r_analyzeHolderConcentration := None;
       r_analyzeCreatorHolding := None |}.

(** Forty requests of one client within a second, among requests of
    another. *)
Definition burst : list (Z * string) :=
  flat_map
    (fun k => [ (1000 + Z.of_nat k, "203.0.113.7"); (1000 + Z.of_nat k, "198.51.100.2") ])
    (List.seq 0 40).

(** The window of a client opened at 1000 ms and has counted 30 requests. *)
Definition window_full : gmap string RateLimitData :=
  {[ "203.0.113.7" := {| rl_count := 30; rl_windowStart := 1000 |} ]}.

(** GoPlus found the token and raises every flag. *)
Definition goplus_all_flags : GoPlusAnswer :=
  goplusChecked_
    {| gc_is_honeypot := true; gc_honeypot_with_same_creator := true;
       gc_is_open_source := false; gc_is_proxy := true;
       gc_can_take_back_ownership := true; gc_owner_change_balance := true;
       gc_hidden_owner := true; gc_cannot_sell_all := true;
       gc_trading_cooldown := true; gc_is_blacklisted := true;
       gc_selfdestruct := true; gc_external_call := true;
       gc_transfer_pausable := true; gc_buy_tax := 50; gc_sell_tax := 50;
       gc_is_airdrop_scam := true |}.

(** An externally owned account owns the contract, and ownership has been
    transferred before. *)
Definition owned_by_account : OwnershipResponses :=
  {| own_getOwner := Some (Some "0x95ba4cf87d6723ad9c0db21737d862be80e93911");
     own_isContract := Some false;
     own_isMultiSig := Some false;
     own_isTimelock := Some false;
     own_functionNames :=
       Some [ Some "transfer(address to, uint256 value)";
              Some "transferOwnership(address newOwner)"; None ] |}.

(** A node that knows the contract: 20 million blocks, 1500 transactions. *)
Definition node_answers : RpcResponses :=
  {| rpcr_getCode := Some "0x6080604052a9059cbb095ea7b370a08231";
     rpcr_getTransactionCount := Some 1500;
     rpcr_getBlockNumber := Some 20000000 |}.

(** One recipient, and ten. *)
Definition one_holder : HolderResponses :=
  {| hr_totalSupply := Some 1000;
     hr_transfers := Some (Some [Some "0x6666666666666666666666666666666666666666"]) |}.

Definition ten_holders : HolderResponses :=
  {| hr_totalSupply := Some 1000;
     hr_transfers :=
       Some (Some (map (fun k => Some (String (ascii_of_nat (48 + k)) EmptyString))
                     (List.seq 0 10))) |}.

(** The explorer is down, Sourcify has the verified source, and the node
    answers. *)
Definition run_rescued_by_sourcify : Responses :=
  {| etherscan_getContractInfo := None;
     sourcify_getSourceCode :=
       Some {| sd_sourceCode := restricted_mint_source; sd_verified := true |};
     rpc_analyzeContractViaRPC :=
       analyzeContractViaRPC node_answers "0x5555555555555555555555555555555555555555";
     provider_getCode := rpcr_getCode node_answers;
     r_analyzeOwnership :=
       Some {| oa_hasOwner := true; oa_isRenounced := true; oa_score := -10 |};
     r_findLiquidityPairs := [lp_in_unicrypt];
     r_analyzeBehavior := {| ba_score := 0 |};
     rpc_getTokenInfo := Some {| ti_name := "Some Token"; ti_symbol := "TKN" |};
     r_tokenSniffer := None;
     r_goplus := Some (Some goplus_clean, {| rc_score := 0 |});
     r_analyzeCreatorHistory := None;
     r_analyzeHolderConcentration := None;
     r_analyzeCreatorHolding := None |}.

(** * Properties *)

Example isKnownSafeToken_USDC :
  isKnownSafeToken "0xA0b86991c6218b36c1d19D4a2e9Eb0cE3606eB48" = true.
Proof. vm_compute. reflexivity. Qed.

(** ** Strings *)

Lemma toLowerCase_app (a b : string) :
  toLowerCase (a +:+ b) = toLowerCase a +:+ toLowerCase b.
Proof. induction a as [|c a IH]; simpl; [reflexivity | now rewrite IH]. Qed.

Lemma prefix_app (k s t : string) :
  String.prefix k s = true -> String.prefix k (s +:+ t) = true.
Proof.
  revert s. induction k as [|c k IH]; intros s H.
  - now destruct (s +:+ t).
  - destruct s as [|d s]; simpl in *; [discriminate |].
    destruct (ascii_dec c d); [auto | discriminate].
Qed.

Lemma prefix_empty (k : string) : String.prefix k "" = true -> k = "".
Proof. destruct k; simpl; [reflexivity | discriminate]. Qed.

Lemma includes_empty (s : string) : includes s "" = true.
Proof. destruct s; reflexivity. Qed.

Lemma includes_app_l (s t k : string) :
  includes s k = true -> includes (s +:+ t) k = true.
Proof.
  induction s as [|c s IH]; simpl; intros H.
  - apply prefix_empty in H. subst k. apply includes_empty.
  - apply orb_true_iff in H. apply orb_true_iff. destruct H as [H | H].
    + left. exact (prefix_app k (String c s) t H).
    + right. auto.
Qed.

Lemma includes_app_r (s t k : string) :
  includes s k = true -> includes (t +:+ s) k = true.
Proof.
  intros H. induction t as [|c t IH]; simpl; [exact H |].
  rewrite IH. apply orb_true_r.
Qed.

(** ** Numbers *)

Lemma Math_min_le_r (x y : Q) : (Math_min x y <= y)%Q.
Proof.
  unfold Math_min. destruct (Qle_bool x y) eqn:E.
  - now apply Qle_bool_iff.
  - apply Qle_refl.
Qed.

Lemma Math_min_le_l (x y : Q) : (Math_min x y <= x)%Q.
Proof.
  unfold Math_min. destruct (Qle_bool x y) eqn:E.
  - apply Qle_refl.
  - apply Qlt_le_weak, Qnot_le_lt. intros H. apply Qle_bool_iff in H. congruence.
Qed.

Lemma Math_min_glb (x y z : Q) : (z <= x)%Q -> (z <= y)%Q -> (z <= Math_min x y)%Q.
Proof. unfold Math_min. now destruct (Qle_bool x y). Qed.

Lemma Math_max_ge_l (x y : Q) : (x <= Math_max x y)%Q.
Proof.
  unfold Math_max. destruct (Qle_bool x y) eqn:E.
  - now apply Qle_bool_iff.
  - apply Qle_refl.
Qed.

Lemma Math_max_lub (x y z : Q) : (x <= z)%Q -> (y <= z)%Q -> (Math_max x y <= z)%Q.
Proof. unfold Math_max. now destruct (Qle_bool x y). Qed.

Lemma Math_round_le (x : Q) (n : Z) : (x <= inject_Z n)%Q -> Math_round x <= n.
Proof.
  intros H. unfold Math_round.
  assert (Hn : Qfloor (inject_Z n + (1 # 2)) = n).
  { apply Z.le_antisymm.
    - apply Z.lt_succ_r. unfold Z.succ. rewrite Zlt_Qlt.
      apply Qle_lt_trans with (inject_Z n + (1 # 2))%Q; [apply Qfloor_le |].
      rewrite inject_Z_plus. apply Qplus_lt_r. reflexivity.
    - rewrite <- (Qfloor_Z n) at 1. apply Qfloor_resp_le.
      rewrite <- (Qplus_0_r (inject_Z n)) at 1. apply Qplus_le_r. discriminate. }
  rewrite <- Hn. apply Qfloor_resp_le. now apply Qplus_le_l.
Qed.

Lemma Math_round_ge (x : Q) (n : Z) : (inject_Z n <= x)%Q -> n <= Math_round x.
Proof.
  intros H. unfold Math_round. rewrite <- (Qfloor_Z n) at 1.
  apply Qfloor_resp_le. apply Qle_trans with x; [exact H |].
  rewrite <- (Qplus_0_r x) at 1. apply Qplus_le_r. discriminate.
Qed.

Lemma weightedScore_bounds (analyses : Analyses) :
  (0 <= weightedScore analyses <= 100)%Q.
Proof.
  unfold weightedScore. split.
  - apply Math_max_ge_l.
  - apply Math_max_lub; [discriminate | apply Math_min_le_l].
Qed.

Lemma Math_min_compat (x y z : Q) : (y == z)%Q -> (Math_min x y == Math_min x z)%Q.
Proof.
  intros H. unfold Math_min.
  destruct (Qle_bool x y) eqn:E1, (Qle_bool x z) eqn:E2; try reflexivity; try exact H.
  - apply Qle_bool_iff in E1. rewrite H in E1. apply Qle_bool_iff in E1. congruence.
  - apply Qle_bool_iff in E2. rewrite <- H in E2. apply Qle_bool_iff in E2. congruence.
Qed.

Lemma Math_max_compat (x y z : Q) : (y == z)%Q -> (Math_max x y == Math_max x z)%Q.
Proof.
  intros H. unfold Math_max.
  destruct (Qle_bool x y) eqn:E1, (Qle_bool x z) eqn:E2; try reflexivity; try exact H.
  - apply Qle_bool_iff in E1. rewrite H in E1. apply Qle_bool_iff in E1. congruence.
  - apply Qle_bool_iff in E2. rewrite <- H in E2. apply Qle_bool_iff in E2. congruence.
Qed.

Lemma Math_min_compat_l (x y z : Q) : (x == y)%Q -> (Math_min x z == Math_min y z)%Q.
Proof.
  intros H. unfold Math_min.
  destruct (Qle_bool x z) eqn:E1, (Qle_bool y z) eqn:E2; try reflexivity; try exact H.
  - apply Qle_bool_iff in E1. rewrite H in E1. apply Qle_bool_iff in E1. congruence.
  - apply Qle_bool_iff in E2. rewrite <- H in E2. apply Qle_bool_iff in E2. congruence.
Qed.

Lemma Math_round_compat (x y : Q) : (x == y)%Q -> Math_round x = Math_round y.
Proof. intros H. unfold Math_round. now rewrite H. Qed.

Lemma avgTxPerDay_lt_1 (transactionCount ageInDays : Z) :
  0 < ageInDays ->
  ltb (inject_Z transactionCount / inject_Z ageInDays) 1 = (transactionCount <? ageInDays).
Proof.
  intros Hpos.
  assert (Hq : (0 < inject_Z ageInDays)%Q) by (now rewrite <- (Zlt_Qlt 0)).
  assert (Hne : ~ (inject_Z ageInDays == 0)%Q) by lra.
  unfold ltb. destruct (Z.ltb_spec transactionCount ageInDays) as [Hlt | Hge].
  - apply negb_true_iff. destruct (Qle_bool _ _) eqn:E; [| reflexivity].
    apply Qle_bool_iff in E. exfalso.
    apply (Qmult_le_compat_r _ _ (inject_Z ageInDays)) in E; [| lra].
    rewrite Qmult_1_l in E. unfold Qdiv in E.
    rewrite <- Qmult_assoc, (Qmult_comm (/ _)), Qmult_inv_r, Qmult_1_r in E by exact Hne.
    rewrite <- Zle_Qle in E. lia.
  - apply negb_false_iff, Qle_bool_iff. apply Qle_shift_div_l; [exact Hq |].
    rewrite Qmult_1_l. now rewrite <- Zle_Qle.
Qed.

(** ** Obvious-scam short-circuit *)

Lemma scamKeywords_lower : Forall (fun k => toLowerCase k = k) scamKeywords.
Proof. repeat constructor. Qed.

Lemma detectScamKeywords_hit (name symbol : option string) (keyword : string) :
  In keyword scamKeywords ->
  containsCI (orEmpty name) keyword = true \/ containsCI (orEmpty symbol) keyword = true ->
  exists k, detectScamKeywords name symbol = Some k.
Proof.
  intros Hin Hc. unfold containsCI in Hc.
  rewrite (proj1 (Stdlib.Lists.List.Forall_forall _ _) scamKeywords_lower keyword Hin) in Hc.
  unfold detectScamKeywords.
  destruct (find _ scamKeywords) as [k|] eqn:E; [now exists k |].
  pose proof (find_none _ _ E keyword Hin) as Hf. cbv beta in Hf.
  rewrite !toLowerCase_app in Hf.
  destruct Hc as [Hc | Hc].
  - rewrite (includes_app_l _ _ _ Hc) in Hf. discriminate.
  - rewrite (includes_app_r _ _ _ (includes_app_r _ _ _ Hc)) in Hf. discriminate.
Qed.

Lemma scam_short_circuit (analyses : Analyses) (k : string) :
  detectScamKeywords (get_name (contractInfo analyses)) (get_symbol (contractInfo analyses))
    = Some k ->
  calculateRiskScore analyses = 95.
Proof. intros H. unfold calculateRiskScore. now rewrite H. Qed.

Lemma scam_keyword_gives_95 (analyses : Analyses) (ci : ContractInfo) (keyword : string) :
  contractInfo analyses = Some ci ->
  In keyword scamKeywords ->
  containsCI (orEmpty (ci_name ci)) keyword = true
    \/ containsCI (orEmpty (ci_symbol ci)) keyword = true ->
  calculateRiskScore analyses = 95.
Proof.
  intros Hci Hin Hc.
  destruct (detectScamKeywords_hit (ci_name ci) (ci_symbol ci) keyword Hin Hc) as [k Hk].
  apply (scam_short_circuit analyses k).
  now rewrite Hci.
Qed.

(** C1: whenever the token name or the symbol contains one of the fixed scam
    keywords (case-insensitive substring match), [calculateRiskScore] returns
    exactly 95, whatever the other inputs are. *)
Theorem C1_scam_keyword_scores_95
    (analyses : Analyses) (ci : ContractInfo) (keyword : string) :
  contractInfo analyses = Some ci ->
  In keyword scamKeywords ->
  containsCI (orEmpty (ci_name ci)) keyword = true
    \/ containsCI (orEmpty (ci_symbol ci)) keyword = true ->
  calculateRiskScore analyses = 95.
Proof. exact (scam_keyword_gives_95 analyses ci keyword). Qed.

Lemma C1_witness : calculateRiskScore honeypot_on_safe_address = 95.
Proof.
  eapply (C1_scam_keyword_scores_95 honeypot_on_safe_address _ "honeypot").
  - reflexivity.
  - simpl. tauto.
  - left. vm_compute. reflexivity.
Defined.

(** ** Known-safe override *)

Lemma isKnownSafeToken_spec (address : string) :
  isKnownSafeToken address = true <-> toLowerCase address ∈ KNOWN_SAFE_TOKENS.
Proof. unfold isKnownSafeToken. apply bool_decide_eq_true. Qed.

Lemma isKnownSafeToken_nonempty (address : string) :
  isKnownSafeToken address = true -> truthy_string (Some address) = true.
Proof. destruct address; [vm_compute; discriminate | reflexivity]. Qed.

Lemma addressIsKnownSafe_intro (ci : ContractInfo) (address : string) :
  ci_address ci = Some address ->
  isKnownSafeToken address = true ->
  addressIsKnownSafe (Some ci) = true.
Proof.
  intros Ha Hk. unfold addressIsKnownSafe, get_address.
  change (Some ci ≫= ci_address) with (ci_address ci). rewrite Ha.
  now rewrite Hk, (isKnownSafeToken_nonempty _ Hk).
Qed.

Lemma safe_override_cap (ci : ContractInfo) (address : string) (finalScore : Q) :
  ci_address ci = Some address ->
  isKnownSafeToken address = true ->
  Math_round (applyOverrides (Some ci) finalScore) <= 15.
Proof.
  intros Haddr Hk. unfold applyOverrides.
  rewrite (addressIsKnownSafe_intro ci address Haddr Hk).
  apply Math_round_le. apply Math_min_le_r.
Qed.

Lemma calculateRiskScore_no_scam (analyses : Analyses) :
  detectScamKeywords (get_name (contractInfo analyses)) (get_symbol (contractInfo analyses))
    = None ->
  calculateRiskScore analyses
  = Math_round (applyOverrides (contractInfo analyses) (weightedScore analyses)).
Proof. intros H. unfold calculateRiskScore, applyOverrides. now rewrite H. Qed.




(** C10: the scam short-circuit takes precedence over the known-safe
    override: for an allow-listed address whose name or symbol contains a scam
    keyword, [calculateRiskScore] returns 95, although the override step, had
    it been reached, would have capped the score at 15. *)
Theorem C10_scam_precedes_safe_cap
    (analyses : Analyses) (ci : ContractInfo) (address keyword : string) :
  contractInfo analyses = Some ci ->
  ci_address ci = Some address ->
  isKnownSafeToken address = true ->
  In keyword scamKeywords ->
  containsCI (orEmpty (ci_name ci)) keyword = true
    \/ containsCI (orEmpty (ci_symbol ci)) keyword = true ->
  calculateRiskScore analyses = 95
  /\ Math_round (applyOverrides (contractInfo analyses) (weightedScore analyses)) <= 15.
Proof.
  intros Hci Haddr Hk Hin Hc. split.
  - exact (scam_keyword_gives_95 analyses ci keyword Hci Hin Hc).
  - rewrite Hci. now apply (safe_override_cap ci address).
Qed.

Lemma C10_witness :
  calculateRiskScore honeypot_on_safe_address = 95
  /\ Math_round (applyOverrides (contractInfo honeypot_on_safe_address)
                   (weightedScore honeypot_on_safe_address)) <= 15.
Proof.
  eapply (C10_scam_precedes_safe_cap honeypot_on_safe_address _ _ "honeypot").
  - reflexivity.
  - reflexivity.
  - vm_compute. reflexivity.
  - simpl. tauto.
  - left. vm_compute. reflexivity.
Defined.

(** ** Weighted sum *)

Lemma addScores_total (acc : Q) (patterns : list Pattern) :
  (addScores acc patterns == acc + totalOf patterns)%Q.
Proof.
  unfold addScores. revert acc.
  induction patterns as [|p l IH]; intros acc; simpl.
  - ring.
  - rewrite IH. ring.
Qed.

Lemma addIfScore_scoreOf {A} (x : option A) (score : A -> Q) (acc : Q) :
  (addIfScore x score acc == acc + scoreOf x score)%Q.
Proof.
  destruct x as [r|]; simpl; [| ring].
  unfold truthy_number. destruct (Qeq_bool (score r) 0) eqn:E; simpl; [| reflexivity].
  apply Qeq_bool_iff in E. rewrite E. ring.
Qed.

Lemma addIfPresent_scoreOf {A} (x : option A) (score : A -> Q) (acc : Q) :
  (addIfPresent x score acc == acc + scoreOf x score)%Q.
Proof. destruct x; simpl; [reflexivity | ring]. Qed.

Lemma internalAdjustments_closed (a : Analyses) :
  (internalAdjustments a == code_internal a)%Q.
Proof.
  unfold internalAdjustments, code_internal.
  rewrite addScores_total, !addIfPresent_scoreOf.
  apply Qplus_inj_r. repeat apply Qplus_inj_r.
  unfold codeContribution.
  destruct (codeAnalysis a) as [ca|]; [destruct (ca_analyzed ca) |];
    destruct (get_verified (contractInfo a)); simpl; ring.
Qed.

Lemma externalAdjustments_closed (a : Analyses) :
  (externalAdjustments a == code_external a)%Q.
Proof.
  unfold externalAdjustments, code_external.
  rewrite addScores_total, !addIfScore_scoreOf. ring.
Qed.

Example old_quiet_contract_code : (weightedScore old_quiet_contract == 56)%Q.
Proof. vm_compute. reflexivity. Qed.

Example old_quiet_contract_spec : (spec_weightedScore old_quiet_contract == 59)%Q.
Proof. vm_compute. reflexivity. Qed.

Example old_quiet_contract_sums :
  (internalAdjustments old_quiet_contract == 15)%Q
  /\ (externalAdjustments old_quiet_contract == 0)%Q
  /\ map p_type (detectSuspiciousPatterns (contractInfo old_quiet_contract))
     = ["abandoned_or_suspicious"].
Proof. vm_compute. repeat split. Qed.

Example old_quiet_contract_score : calculateRiskScore old_quiet_contract = 56.
Proof. vm_compute. reflexivity. Qed.

(** C4, as stated, fails: the code adds the low-activity finding to the
    internal sum (weight 0.4), the claim puts it in the external sum
    (weight 0.6); on [old_quiet_contract] the code gives 56, the claim 59. *)
Lemma C4_counterexample :
  ~ (weightedScore old_quiet_contract == spec_weightedScore old_quiet_contract)%Q.
Proof. vm_compute. discriminate. Qed.

Lemma totalOf_suspicious (contractInfo : option ContractInfo) :
  (totalOf (detectSuspiciousPatterns contractInfo) == suspiciousPatternCharge contractInfo)%Q.
Proof.
  unfold detectSuspiciousPatterns, suspiciousPatternCharge, lowActivityOld, unverifiedOld.
  destruct (addressIsKnownSafe contractInfo); [reflexivity |].
  destruct contractInfo as [ci|].
  - cbn [get_verified ageInDays_gt].
    destruct (Z.ltb_spec 365 (ci_ageInDays ci)) as [Hage | Hage]; cbn [andb].
    + destruct (ci_transactionCount ci <? 5000); cbn [andb].
      * rewrite avgTxPerDay_lt_1 by lia.
        destruct (ci_transactionCount ci <? ci_ageInDays ci); cbn [andb];
          destruct (ci_verified ci); cbn [negb orb andb];
          destruct (ci_ageInDays ci <? 730); destruct (30 <? ci_ageInDays ci);
          reflexivity.
      * destruct (ci_verified ci); cbn [negb andb];
          destruct (30 <? ci_ageInDays ci); reflexivity.
    + destruct (ci_verified ci); cbn [negb andb];
        destruct (30 <? ci_ageInDays ci); reflexivity.
  - reflexivity.
Qed.

Lemma totalOf_apiNotFound (tokenSnifferResult : option TokenSnifferResult)
    (goplusResult : option GoPlusResult) (contractInfo : option ContractInfo) :
  (totalOf (detectAPINotFound tokenSnifferResult goplusResult contractInfo)
   == apiNotFoundCharge goplusResult contractInfo)%Q.
Proof.
  unfold detectAPINotFound, apiNotFoundCharge, contractNotFound, notInSecurityDatabases,
    noTradingData.
  destruct (_ || _); [reflexivity |].
  destruct goplusResult as [g|]; [| reflexivity].
  destruct (gp_checked g); cbn [negb andb];
    destruct (ageInDays_gt contractInfo 30); cbn [andb]; try reflexivity.
  destruct (gp_is_honeypot g), (gp_buy_tax g), (gp_sell_tax g); reflexivity.
Qed.

Lemma applyOverrides_compat (contractInfo : option ContractInfo) (x y : Q) :
  (x == y)%Q -> (applyOverrides contractInfo x == applyOverrides contractInfo y)%Q.
Proof.
  intros H. unfold applyOverrides.
  destruct (addressIsKnownSafe contractInfo); [now apply Math_min_compat_l |].
  destruct (_ && _); [now apply Math_min_compat_l | exact H].
Qed.

Lemma weightedScore_amended (a : Analyses) :
  (weightedScore a == amended_weightedScore a)%Q.
Proof.
  unfold weightedScore, amended_weightedScore.
  apply Math_max_compat, Math_min_compat.
  rewrite internalAdjustments_closed, externalAdjustments_closed.
  unfold code_internal, code_external, amended_internal, amended_external.
  rewrite totalOf_suspicious, totalOf_apiNotFound. ring.
Qed.

(** C4 (amended): the weighted sum with its derived findings spelled out.
    The internal sum of the code is the code contribution (the analysis
    score, or 15 for an unanalysed unverified contract) plus the ownership,
    liquidity and behavior scores plus the suspicious-pattern charge: nothing
    for a known-safe address, otherwise 15 for a contract older than a year
    with fewer than 5000 transactions, less than one a day, that is unverified
    or younger than two years, plus 20 for an unverified contract older than
    30 days.  The external sum is the Token Sniffer, GoPlus, creator-history,
    holder-concentration and creator-holding scores plus the API-not-found
    charge: 40 for a contract without creation data or without transactions,
    otherwise 10 when GoPlus did not check a contract older than 30 days, plus
    10 when GoPlus checked such a contract and defines neither the honeypot
    flag nor a tax.  The score before overrides and rounding is
    clamp(50 + 0.4 internal + 0.6 external, 0, 100), and for an ASCII name
    and symbol without scam keyword [calculateRiskScore] is that value after
    the overrides and the rounding. *)
Theorem C4_weighted_sum (a : Analyses) :
  (internalAdjustments a
   == codeContribution a
      + scoreOf (ownershipAnalysis a) oa_score
      + scoreOf (liquidityAnalysis a) la_score
      + scoreOf (behaviorAnalysis a) ba_score
      + suspiciousPatternCharge (contractInfo a))%Q
  /\ (externalAdjustments a
      == scoreOf (tokenSnifferRisk a) rc_score
         + scoreOf (goplusRisk a) rc_score
         + scoreOf (creatorHistoryAnalysis a) cha_score
         + scoreOf (holderAnalysis a) rc_score
         + scoreOf (creatorHoldingAnalysis a) rc_score
         + apiNotFoundCharge (goplusResult a) (contractInfo a))%Q
  /\ (weightedScore a
      == Math_max 0
           (Math_min 100
              (50 + (4 # 10) * amended_internal a + (6 # 10) * amended_external a)))%Q
  /\ (isAscii (orEmpty (get_name (contractInfo a))) = true ->
      isAscii (orEmpty (get_symbol (contractInfo a))) = true ->
      detectScamKeywords (get_name (contractInfo a)) (get_symbol (contractInfo a)) = None ->
      calculateRiskScore a
      = Math_round (applyOverrides (contractInfo a) (amended_weightedScore a))).
Proof.
  split; [| split; [| split]].
  - rewrite internalAdjustments_closed. unfold code_internal.
    now rewrite totalOf_suspicious.
  - rewrite externalAdjustments_closed. unfold code_external.
    now rewrite totalOf_apiNotFound.
  - apply weightedScore_amended.
  - intros _ _ Hscam. rewrite (calculateRiskScore_no_scam a Hscam).
    apply Math_round_compat, applyOverrides_compat, weightedScore_amended.
Qed.

Lemma C4_witness :
  calculateRiskScore old_quiet_contract = 56
  /\ (amended_internal old_quiet_contract == 15)%Q
  /\ (amended_external old_quiet_contract == 0)%Q.
Proof.
  split; [| split; reflexivity].
  rewrite (proj2 (proj2 (proj2 (C4_weighted_sum old_quiet_contract)))
             eq_refl eq_refl eq_refl).
  vm_compute. reflexivity.
Defined.

(** ** Confidence *)

Lemma addIf_indicator (b : bool) (d c : Q) : (addIf b d c == c + indicator b * d)%Q.
Proof. destruct b; simpl; ring. Qed.

Lemma calculateConfidence_closed (a : Analyses) :
  (calculateConfidence a == Math_min 1 (confidenceSum a))%Q.
Proof.
  unfold calculateConfidence, confidenceSum. apply Math_min_compat.
  rewrite !addIf_indicator.
  fold (sourceAnalyzed a) (olderThanAWeek a) (tokenSnifferChecked a)
       (goplusChecked (goplusResult a)) (creatorAnalyzed a).
  destruct (ownershipAnalysis a), (liquidityAnalysis a); reflexivity.
Qed.

Lemma indicator_range (b : bool) : (0 <= indicator b <= 1)%Q.
Proof. destruct b; simpl; split; discriminate. Qed.

Lemma confidenceSum_lower (a : Analyses) : ((1 # 2) <= confidenceSum a)%Q.
Proof.
  unfold confidenceSum.
  pose proof (indicator_range (sourceAnalyzed a)).
  pose proof (indicator_range (isPresent (ownershipAnalysis a))).
  pose proof (indicator_range (isPresent (liquidityAnalysis a))).
  pose proof (indicator_range (olderThanAWeek a)).
  pose proof (indicator_range (tokenSnifferChecked a)).
  pose proof (indicator_range (goplusChecked (goplusResult a))).
  pose proof (indicator_range (creatorAnalyzed a)).
  lra.
Qed.

Lemma calculateConfidence_range (a : Analyses) :
  ((1 # 2) <= calculateConfidence a <= 1)%Q.
Proof.
  rewrite calculateConfidence_closed. split.
  - apply Math_min_glb; [discriminate | apply confidenceSum_lower].
  - apply Math_min_le_l.
Qed.

Lemma confidenceSum_goplus (a : Analyses) (g : option GoPlusResult) :
  (confidenceSum (with_goplusResult g a)
   == confidenceSum (with_goplusResult None a) + indicator (goplusChecked g) * (15 # 100))%Q.
Proof.
  unfold confidenceSum, sourceAnalyzed, olderThanAWeek, tokenSnifferChecked,
    creatorAnalyzed, with_goplusResult.
  cbn [codeAnalysis ownershipAnalysis liquidityAnalysis contractInfo
       tokenSnifferResult goplusResult creatorHistoryAnalysis].
  change (indicator (goplusChecked None)) with 0%Q. ring.
Qed.

Lemma confidenceSum_unchecked (a : Analyses) (g : option GoPlusResult) :
  goplusChecked g = false ->
  (confidenceSum (with_goplusResult g a) == confidenceSum (with_goplusResult None a))%Q.
Proof. intros H. rewrite confidenceSum_goplus, H. simpl. ring. Qed.

Lemma Math_min_1_cases (x : Q) :
  ((x <= 1 /\ Math_min 1 x == x) \/ (1 < x /\ Math_min 1 x == 1))%Q.
Proof.
  unfold Math_min. destruct (Qle_bool 1 x) eqn:E.
  - apply Qle_bool_iff in E. destruct (Qlt_le_dec 1 x) as [L | L].
    + right. split; [exact L | reflexivity].
    + left. split; [exact L |]. apply Qle_antisym; assumption.
  - left. split; [| reflexivity].
    apply Qlt_le_weak, Qnot_le_lt. intros H. apply Qle_bool_iff in H. congruence.
Qed.

(** What [calculateConfidence] does with the [analyses] object it is given:
    0.5 plus 0.15 for verified and analysed source, 0.05 each for ownership
    data, liquidity data and an age above 7 days, 0.10 for a Token Sniffer
    check, 0.15 for a GoPlus check and 0.10 for an analysed creator history,
    capped at 1.0; a GoPlus-checked input never has lower confidence than the
    otherwise identical unchecked one, and has strictly higher confidence
    whenever the unchecked one is below 1.0. *)
Lemma calculateConfidence_signals_and_cap
    (a : Analyses) (unchecked checked : option GoPlusResult) :
  goplusChecked unchecked = false ->
  goplusChecked checked = true ->
  let c0 := calculateConfidence (with_goplusResult unchecked a) in
  let c1 := calculateConfidence (with_goplusResult checked a) in
  (calculateConfidence a == Math_min 1 (confidenceSum a))%Q
  /\ ((1 # 2) <= c0 <= 1)%Q
  /\ (c0 <= c1 <= 1)%Q
  /\ ((c0 < 1)%Q -> (c0 < c1)%Q).
Proof.
  intros Hu Hc c0 c1.
  split; [apply calculateConfidence_closed |].
  split; [apply calculateConfidence_range |].
  assert (E0 : (c0 == Math_min 1 (confidenceSum (with_goplusResult None a)))%Q).
  { unfold c0. rewrite calculateConfidence_closed.
    apply Math_min_compat. now apply confidenceSum_unchecked. }
  assert (E1 : (c1 == Math_min 1 (confidenceSum (with_goplusResult None a) + (15 # 100)))%Q).
  { unfold c1. rewrite calculateConfidence_closed.
    apply Math_min_compat. rewrite confidenceSum_goplus, Hc. simpl. ring. }
  pose proof (proj2 (calculateConfidence_range (with_goplusResult checked a))) as Hle.
  fold c1 in Hle.
  destruct (Math_min_1_cases (confidenceSum (with_goplusResult None a))) as [[L0 M0] | [L0 M0]];
    destruct (Math_min_1_cases (confidenceSum (with_goplusResult None a) + (15 # 100)))
      as [[L1 M1] | [L1 M1]];
    rewrite M0 in E0; rewrite M1 in E1; rewrite E0, E1;
    (split; [split; lra | intros Hlt; lra]).
Qed.

Example goplus_check_raises_calculateConfidence :
  (calculateConfidence (with_goplusResult None old_quiet_contract)
   < calculateConfidence (with_goplusResult (Some goplus_clean) old_quiet_contract))%Q.
Proof.
  apply (calculateConfidence_signals_and_cap old_quiet_contract None (Some goplus_clean)).
  - reflexivity.
  - reflexivity.
  - vm_compute. reflexivity.
Qed.

(** ** The derivative matcher decides the language of a pattern *)

Lemma app_eq_empty (s1 s2 : string) : s1 +:+ s2 = "" -> s1 = "" /\ s2 = "".
Proof. destruct s1; simpl; [auto | discriminate]. Qed.

Lemma app_eq_String (s1 s2 : string) (c : ascii) (s : string) :
  s1 +:+ s2 = String c s ->
  (s1 = "" /\ s2 = String c s) \/ (exists s1', s1 = String c s1' /\ s = s1' +:+ s2).
Proof.
  destruct s1 as [|d s1]; simpl; intros H.
  - left. auto.
  - right. injection H as -> <-. eauto.
Qed.

Lemma nullable_Matches (r : regex) : nullable r = true <-> Matches r "".
Proof.
  split.
  - induction r; simpl; intros H; try discriminate.
    + constructor.
    + apply andb_true_iff in H as [H1 H2].
      change "" with ("" +:+ ""). constructor; auto.
    + apply orb_true_iff in H as [H | H]; [apply MAltL | apply MAltR]; auto.
    + constructor.
  - intros H. remember "" as s eqn:Es.
    induction H; simpl; try reflexivity; try discriminate.
    + apply app_eq_empty in Es as [-> ->]. rewrite IHMatches1, IHMatches2; auto.
    + rewrite IHMatches; auto.
    + rewrite IHMatches; auto using orb_true_r.
Qed.

Lemma Matches_Star_cons (r0 : regex) (s0 : string) :
  Matches r0 s0 ->
  forall r c s, r0 = Star r -> s0 = String c s ->
  exists s1 s2, s = s1 +:+ s2 /\ Matches r (String c s1) /\ Matches (Star r) s2.
Proof.
  intros H.
  induction H as [ | p0 c0 Hp | ra rb sa sb Ha IHa Hb IHb | ra rb sa Ha IHa
                 | ra rb sa Hb IHb | r' | r' s1 s2 H1 IH1 H2 IH2 ];
    intros r c s Er Es; try discriminate.
  injection Er as ->.
  apply app_eq_String in Es as [[-> ->] | (s1' & -> & ->)].
  - apply (IH2 r c s); reflexivity.
  - exists s1', s2. auto.
Qed.

Lemma Matches_Empty_inv (s : string) : ~ Matches Empty s.
Proof. intros H. inversion H. Qed.

Lemma Matches_Eps_inv (s : string) : Matches Eps s -> s = "".
Proof. intros H. now inversion H. Qed.

Lemma Matches_Chr_inv (p : ascii -> bool) (s : string) :
  Matches (Chr p) s -> exists c, s = String c "" /\ p c = true.
Proof. intros H. inversion H; subst. eauto. Qed.

Lemma Matches_Cat_inv (r1 r2 : regex) (s : string) :
  Matches (Cat r1 r2) s ->
  exists s1 s2, s = s1 +:+ s2 /\ Matches r1 s1 /\ Matches r2 s2.
Proof. intros H. inversion H; subst. eauto. Qed.

Lemma Matches_Alt_inv (r1 r2 : regex) (s : string) :
  Matches (Alt r1 r2) s -> Matches r1 s \/ Matches r2 s.
Proof. intros H. inversion H; subst; auto. Qed.

Lemma Matches_cons_Cat (c : ascii) (r1 r2 : regex) (s1 s2 : string) :
  Matches r1 (String c s1) -> Matches r2 s2 -> Matches (Cat r1 r2) (String c (s1 +:+ s2)).
Proof.
  intros H1 H2. change (String c (s1 +:+ s2)) with (String c s1 +:+ s2).
  now constructor.
Qed.

Lemma deriv_sound (c : ascii) (r : regex) (s : string) :
  Matches (deriv c r) s -> Matches r (String c s).
Proof.
  revert s. induction r as [| | p | r1 IH1 r2 IH2 | r1 IH1 r2 IH2 | r IH];
    simpl; intros s H.
  - now apply Matches_Empty_inv in H.
  - now apply Matches_Empty_inv in H.
  - destruct (p c) eqn:E; [| now apply Matches_Empty_inv in H].
    apply Matches_Eps_inv in H as ->. now constructor.
  - destruct (nullable r1) eqn:N.
    + apply Matches_Alt_inv in H as [H | H].
      * apply Matches_Cat_inv in H as (s1 & s2 & -> & H1 & H2).
        apply Matches_cons_Cat; auto.
      * change (String c s) with ("" +:+ String c s).
        constructor; [now apply nullable_Matches | auto].
    + apply Matches_Cat_inv in H as (s1 & s2 & -> & H1 & H2).
      apply Matches_cons_Cat; auto.
  - apply Matches_Alt_inv in H as [H | H]; [apply MAltL | apply MAltR]; auto.
  - apply Matches_Cat_inv in H as (s1 & s2 & -> & H1 & H2).
    change (String c (s1 +:+ s2)) with (String c s1 +:+ s2).
    constructor; auto.
Qed.

Lemma deriv_complete (c : ascii) (r : regex) (s : string) :
  Matches r (String c s) -> Matches (deriv c r) s.
Proof.
  revert s. induction r as [| | p | r1 IH1 r2 IH2 | r1 IH1 r2 IH2 | r IH];
    simpl; intros s H.
  - now apply Matches_Empty_inv in H.
  - apply Matches_Eps_inv in H. discriminate.
  - apply Matches_Chr_inv in H as (c' & [= <- ->] & E). rewrite E. constructor.
  - apply Matches_Cat_inv in H as (s1 & s2 & Es & H1 & H2). symmetry in Es.
    apply app_eq_String in Es as [[-> ->] | (s1' & -> & ->)].
    + rewrite (proj2 (nullable_Matches r1) H1). apply MAltR. auto.
    + destruct (nullable r1); [apply MAltL |]; constructor; auto.
  - apply Matches_Alt_inv in H as [H | H]; [apply MAltL | apply MAltR]; auto.
  - destruct (Matches_Star_cons _ _ H r c s eq_refl eq_refl) as (s1 & s2 & -> & H1 & H2).
    constructor; auto.
Qed.

Lemma deriv_Matches (c : ascii) (r : regex) (s : string) :
  Matches (deriv c r) s <-> Matches r (String c s).
Proof. split; [apply deriv_sound | apply deriv_complete]. Qed.

Lemma accepts_Matches (r : regex) (s : string) : accepts r s = true <-> Matches r s.
Proof.
  revert r. induction s as [|c s IH]; intros r; simpl.
  - apply nullable_Matches.
  - rewrite IH. apply deriv_Matches.
Qed.

Lemma matchesPrefix_spec (r : regex) (s : string) :
  matchesPrefix r s = true <-> exists s1 s2, s = s1 +:+ s2 /\ Matches r s1.
Proof.
  revert r. induction s as [|c s IH]; intros r; simpl.
  - rewrite orb_false_r, nullable_Matches. split.
    + intros H. exists "", "". auto.
    + intros (s1 & s2 & E & H). symmetry in E. apply app_eq_empty in E as [-> _]. exact H.
  - rewrite orb_true_iff, nullable_Matches, IH. split.
    + intros [H | (s1 & s2 & -> & H)].
      * exists "", (String c s). auto.
      * exists (String c s1), s2. split; [reflexivity | now apply deriv_Matches].
    + intros (s1 & s2 & E & H). symmetry in E.
      apply app_eq_String in E as [[-> _] | (s1' & -> & ->)].
      * left. exact H.
      * right. exists s1', s2. split; [reflexivity | now apply deriv_Matches].
Qed.

Lemma test_unfold (r : regex) (s : string) :
  test r s
  = matchesPrefix r s
    || match s with
       | EmptyString => false
       | String _ s' => test r s'
       end.
Proof. destruct s; reflexivity. Qed.

(** [test r s] holds exactly when some substring of [s] is a match of [r]. *)
Lemma test_spec (r : regex) (s : string) :
  test r s = true <-> exists s0 s1 s2, s = s0 +:+ (s1 +:+ s2) /\ Matches r s1.
Proof.
  induction s as [|c s IH]; rewrite test_unfold, orb_true_iff, matchesPrefix_spec.
  - split.
    + intros [(s1 & s2 & E & H) | H]; [| discriminate]. exists "", s1, s2. auto.
    + intros (s0 & s1 & s2 & E & H). left. symmetry in E.
      apply app_eq_empty in E as [-> E]. exists s1, s2. auto.
  - rewrite IH. split.
    + intros [(s1 & s2 & E & H) | (s0 & s1 & s2 & -> & H)].
      * exists "", s1, s2. auto.
      * exists (String c s0), s1, s2. auto.
    + intros (s0 & s1 & s2 & E & H). destruct s0 as [|d s0]; simpl in E.
      * left. exists s1, s2. auto.
      * right. injection E as -> ->. exists s0, s1, s2. auto.
Qed.

(** ** Source pattern scanner *)

Example mint_restricted :
  map f_type (ca_vulnerabilities
    (analyzeSourceCode
       (Some "function mint(address to, uint256 amount) public onlyOwner { _mint(to, amount); }")
       false))
  = ["hiddenMint"].
Proof. vm_compute. reflexivity. Qed.

Example mint_pattern_spans_lines :
  anyMatch mintPatterns
    ("function  MINT (address to," +:+ String "010" "" +:+ "  uint256 amount)"
     +:+ String "010" "" +:+ "  external" +:+ String "010" "" +:+ "{")
  = true.
Proof. vm_compute. reflexivity. Qed.

Example comment_pattern_stays_on_line :
  test (commentLine ["exit"; "scam"]) "// exit now, scam" = true
  /\ test (commentLine ["exit"; "scam"])
       ("// exit" +:+ String "010" "" +:+ "scam") = false.
Proof. vm_compute. split; reflexivity. Qed.

Example high_tax_values :
  test (seq [lit "taxFee"; Star ws; chr "="; Star ws; highTaxValue]) "uint _taxFee = 25;" = true
  /\ test (seq [lit "taxFee"; Star ws; chr "="; Star ws; highTaxValue]) "uint _taxFee = 5;" = false.
Proof. vm_compute. split; reflexivity. Qed.

Example proxy_detected :
  isProxyContract (Some "function implementation () public view returns (address)") = true
  /\ isProxyContract (Some "contract Token is ERC20 { }") = false.
Proof. vm_compute. split; reflexivity. Qed.

Example delegatecall_in_proxy :
  map (fun v => (f_type v, f_severity v)) (ca_vulnerabilities
    (analyzeSourceCode (Some "address(impl).delegatecall(data); function upgradeTo(address a)") true))
  = [("delegatecall", low)].
Proof. vm_compute. reflexivity. Qed.

(** The modifier is looked for in the whole source, not in the mint
    function: an unrestricted [mint] next to an [onlyOwner] function is
    reported. *)
Example mint_modifier_elsewhere :
  map f_type (ca_vulnerabilities
    (analyzeSourceCode
       (Some "function mint(uint256 a) public { _mint(msg.sender, a); } function sweep() external onlyOwner { }")
       false))
  = ["hiddenMint"].
Proof. vm_compute. reflexivity. Qed.

Example mint_unrestricted :
  analyzeSourceCode
    (Some "function mint(address to, uint256 amount) public { _mint(to, amount); }") false
  = {| ca_analyzed := true; ca_vulnerabilities := []; ca_safePatterns := [];
       ca_score := 0 |}.
Proof. vm_compute. reflexivity. Qed.

Lemma fold_record_fst {A B} (score : B -> Q) (f : A -> option B) (l : list A)
    (st : list B * Q) :
  fst (fold_left (fun st x => record score st (f x)) l st) = (fst st ++ omap f l)%list.
Proof.
  revert st. induction l as [|x l IH]; intros st; simpl.
  - now rewrite app_nil_r.
  - rewrite IH. unfold record. destruct (f x) as [v|]; simpl; [| reflexivity].
    now rewrite <- app_assoc.
Qed.

Lemma analyzeWith_vulnerabilities (redFlags : list RedFlag) (safeTable : list SafePattern)
    (src : string) (isProxy : bool) :
  src <> "" ->
  ca_vulnerabilities (analyzeWith redFlags safeTable (Some src) isProxy)
  = omap (checkRedFlag src isProxy) redFlags.
Proof.
  intros Hne. unfold analyzeWith.
  destruct (String.eqb_spec src ""); [contradiction |].
  pose proof (fold_record_fst f_score (checkRedFlag src isProxy) redFlags ([], 0%Q)) as H.
  destruct (fold_left _ redFlags _) as [vs sc]. simpl in H.
  destruct (fold_left _ safeTable _) as [sf sc']. simpl. exact H.
Qed.

Lemma analyzeWith_empty (redFlags : list RedFlag) (safeTable : list SafePattern)
    (isProxy : bool) :
  ca_vulnerabilities (analyzeWith redFlags safeTable (Some "") isProxy) = []
  /\ ca_vulnerabilities (analyzeWith redFlags safeTable None isProxy) = [].
Proof. split; reflexivity. Qed.

Lemma checkRedFlag_type (src : string) (isProxy : bool) (pattern : RedFlag) (v : Finding) :
  checkRedFlag src isProxy pattern = Some v -> f_type v = rf_key pattern.
Proof.
  unfold checkRedFlag. intros H.
  repeat match type of H with
         | context [if ?b then _ else _] => destruct b
         end; inversion H; reflexivity.
Qed.








(** ** Liquidity-lock checker *)

Example unicrypt_locked :
  la_lpLocked (analyzeLiquidity [lp_in_unicrypt] None) = true
  /\ (la_score (analyzeLiquidity [lp_in_unicrypt] None) == -10)%Q.
Proof. vm_compute. split; reflexivity. Qed.


Lemma existsb_singleton {A} (f : A -> bool) (x : A) : existsb f [x] = f x.
Proof. simpl. apply orb_false_r. Qed.

Lemma ltb_false_le (x y : Q) : ltb x y = false -> (y <= x)%Q.
Proof.
  unfold ltb. intros H. apply Qle_bool_iff.
  now destruct (Qle_bool y x).
Qed.

Lemma classifyHolder_flags (totalSupply : Z) (analysis analysis' : PairAnalysis)
    (entry : string * Z) :
  pairFlagsOk analysis ->
  classifyHolder totalSupply analysis entry = Some analysis' ->
  pairFlagsOk analysis'.
Proof.
  intros (Hall & Hlocked & Hburned). unfold classifyHolder.
  destruct entry as [address balance].
  destruct (Z.leb_spec balance 0) as [Hb | Hb];
    [intros [= <-]; repeat split; assumption |].
  destruct (totalSupply =? 0); [discriminate |].
  destruct (ltb _ 1) eqn:Hp; [intros [= <-]; repeat split; assumption |].
  intros [= <-]. unfold pairFlagsOk. cbn [pa_holders pa_locked pa_burned].
  split; [| split].
  - apply Forall_app. split; [exact Hall |].
    constructor; [| constructor].
    split; [split; [exact Hb | now apply ltb_false_le] | split; reflexivity].
  - rewrite existsb_app, Hlocked, existsb_singleton. unfold flagged at 2.
    cbn [lh_isBurned lh_isLocker]. symmetry. apply orb_assoc.
  - rewrite existsb_app, Hburned, existsb_singleton. reflexivity.
Qed.

Lemma classifyHolders_flags (totalSupply : Z) (entries : JSMap.t) (analysis : PairAnalysis) :
  pairFlagsOk analysis ->
  pairFlagsOk (fst (classifyHolders totalSupply analysis entries)).
Proof.
  revert analysis. induction entries as [|entry entries IH]; intros analysis H; simpl.
  - exact H.
  - destruct (classifyHolder totalSupply analysis entry) as [analysis'|] eqn:E.
    + apply IH. eapply classifyHolder_flags; eassumption.
    + exact H.
Qed.

Lemma existsb_insertHolder (f : LpHolder -> bool) (h : LpHolder) (l : list LpHolder) :
  existsb f (insertHolder h l) = f h || existsb f l.
Proof.
  induction l as [|h' l IH]; simpl; [reflexivity |].
  destruct (lh_balance h' <=? lh_balance h); simpl; [reflexivity |].
  rewrite IH. now rewrite !orb_assoc, (orb_comm (f h') (f h)).
Qed.

Lemma existsb_sortHolders (f : LpHolder -> bool) (l : list LpHolder) :
  existsb f (sortHolders l) = existsb f l.
Proof.
  unfold sortHolders. induction l as [|h l IH]; simpl; [reflexivity |].
  now rewrite existsb_insertHolder, IH.
Qed.

Lemma Forall_insertHolder (P : LpHolder -> Prop) (h : LpHolder) (l : list LpHolder) :
  P h -> Forall P l -> Forall P (insertHolder h l).
Proof.
  intros Hh Hl. induction Hl as [|h' l Hh' Hl IH]; simpl.
  - repeat constructor. exact Hh.
  - destruct (lh_balance h' <=? lh_balance h); repeat constructor; assumption.
Qed.

Lemma Forall_sortHolders (P : LpHolder -> Prop) (l : list LpHolder) :
  Forall P l -> Forall P (sortHolders l).
Proof.
  unfold sortHolders. induction 1; simpl; [constructor |].
  now apply Forall_insertHolder.
Qed.

Lemma analyzeLiquidityPair_flags (lpTransfers : list Transfer) (totalSupply : option Z) :
  pairFlagsOk (analyzeLiquidityPair lpTransfers totalSupply).
Proof.
  assert (H0 : pairFlagsOk emptyPairAnalysis) by (repeat split; constructor).
  unfold analyzeLiquidityPair. destruct totalSupply as [ts|]; [| exact H0].
  pose proof (classifyHolders_flags ts (lpBalances lpTransfers) _ H0) as H.
  destruct (classifyHolders ts emptyPairAnalysis _) as [analysis completed].
  cbn [fst] in H. destruct completed; [| exact H].
  destruct H as (Hall & Hlocked & Hburned).
  unfold pairFlagsOk. cbn [pa_holders pa_locked pa_burned].
  rewrite !existsb_sortHolders. repeat split; try assumption.
  now apply Forall_sortHolders.
Qed.

Lemma liquidityLoop_inv (pairs : list PairResponse) (analysis : LiquidityAnalysis) :
  liquidityFlagsOk analysis ->
  liquidityFlagsOk (liquidityLoop pairs analysis)
  /\ la_score (liquidityLoop pairs analysis) = la_score analysis.
Proof.
  unfold liquidityLoop. revert analysis.
  induction pairs as [|pair pairs IH]; intros analysis H; [now split |].
  cbn [fold_left].
  destruct (analyzeLiquidityPair_flags (pr_lpTransfers pair) (pr_totalSupply pair))
    as (Pall & Plocked & Pburned).
  destruct H as (Hall & Hlocked & Hburned).
  match goal with
  | |- context [fold_left _ pairs ?a] => destruct (IH a) as [IH1 IH2]
  end.
  - unfold liquidityFlagsOk. cbn [la_lpHolders la_lpLocked la_lpBurned].
    rewrite !existsb_app, Hlocked, Hburned, Plocked, Pburned.
    repeat split. now apply Forall_app.
  - split; [exact IH1 | exact IH2].
Qed.

Lemma burned_is_flagged (holders : list LpHolder) :
  existsb flagged holders || existsb lh_isBurned holders = existsb flagged holders.
Proof.
  induction holders as [|h l IH]; [reflexivity |]. simpl. rewrite <- IH at 2.
  unfold flagged. destruct (lh_isBurned h), (lh_isLocker h), (existsb _ l), (existsb _ l);
    reflexivity.
Qed.

Lemma holderFlagsOk_locks (h : LpHolder) :
  holderFlagsOk h ->
  In (lh_address h) [burnAddress; zeroAddress; unicryptLocker] ->
  flagged h = true.
Proof.
  intros [Hb Hl] Hin. unfold flagged. rewrite Hb, Hl.
  destruct Hin as [<- | [<- | [<- | []]]]; reflexivity.
Qed.

Lemma holderFlagsOk_others (h : LpHolder) :
  holderFlagsOk h ->
  ~ In (toLowerCase (lh_address h)) (map toLowerCase (zeroAddress :: KNOWN_LOCKERS)) ->
  flagged h = false.
Proof.
  intros [Hb Hl] Hout. unfold flagged. rewrite Hb, Hl.
  assert (Hnot : forall x, In x (zeroAddress :: KNOWN_LOCKERS) ->
                           String.eqb (lh_address h) x = false).
  { intros x Hx. destruct (String.eqb_spec (lh_address h) x) as [E |]; [| reflexivity].
    exfalso. apply Hout. rewrite E. now apply in_map. }
  unfold Array_includes, KNOWN_LOCKERS in *. cbn [existsb].
  rewrite !Hnot; [reflexivity | | | | | |]; simpl; tauto.
Qed.

Lemma analyzeLiquidity_unfold (pairs : list PairResponse) (creator : option string) :
  pairs <> [] ->
  let loop :=
    liquidityLoop pairs
      {| la_hasLiquidity := true; la_lpLocked := false; la_lpBurned := false;
         la_lpHolders := []; la_score := 0; la_findings := [] |} in
  let analysis := analyzeLiquidity pairs creator in
  la_lpLocked analysis = la_lpLocked loop
  /\ la_lpBurned analysis = la_lpBurned loop
  /\ la_lpHolders analysis = la_lpHolders loop
  /\ (la_score analysis
      == la_score loop
         + (if la_lpLocked loop || la_lpBurned loop then -10
            else if creatorHoldsLP (la_lpHolders loop) creator then 15 else 10))%Q.
Proof.
  intros Hne. destruct pairs as [|pair pairs]; [contradiction |].
  cbv zeta. unfold analyzeLiquidity.
  destruct (liquidityLoop (pair :: pairs) _) as [hl locked burned holders score findings].
  cbn [la_lpLocked la_lpBurned la_lpHolders la_score].
  destruct (locked || burned); [| destruct (creatorHoldsLP holders creator)];
    cbn [la_lpLocked la_lpBurned la_lpHolders la_score]; repeat split; reflexivity.
Qed.

Lemma initial_liquidityFlagsOk :
  liquidityFlagsOk
    {| la_hasLiquidity := true; la_lpLocked := false; la_lpBurned := false;
       la_lpHolders := []; la_score := 0; la_findings := [] |}.
Proof. repeat split. constructor. Qed.

Lemma analyzeLiquidity_flags (pairs : list PairResponse) (creator : option string) :
  liquidityFlagsOk (analyzeLiquidity pairs creator).
Proof.
  destruct pairs as [|pair pairs]; [repeat split; constructor |].
  destruct (analyzeLiquidity_unfold (pair :: pairs) creator ltac:(discriminate))
    as (El & Eb & Eh & _).
  destruct (liquidityLoop_inv (pair :: pairs) _ initial_liquidityFlagsOk) as [H _].
  unfold liquidityFlagsOk. rewrite El, Eb, Eh. exact H.
Qed.

(** With at least one pair, the liquidity contribution is -10 when some
    kept holder is flagged, +15 when the deployer holds more than 50% of an
    unlocked pool, and +10 otherwise. *)
Lemma analyzeLiquidity_score (pairs : list PairResponse) (creator : option string) :
  pairs <> [] ->
  let analysis := analyzeLiquidity pairs creator in
  (la_score analysis
   == if existsb flagged (la_lpHolders analysis) then -10
      else if creatorHoldsLP (la_lpHolders analysis) creator then 15 else 10)%Q.
Proof.
  intros Hne.
  destruct (analyzeLiquidity_unfold pairs creator Hne) as (El & Eb & Eh & Es).
  destruct (liquidityLoop_inv pairs _ initial_liquidityFlagsOk) as [(_ & Hl & Hb) Hs].
  cbv zeta. rewrite Es, Eh, Hs, Hl, Hb, burned_is_flagged.
  cbn [la_score]. ring.
Qed.

(** Completeness of the holder loop: with a non-zero total supply the loop
    runs to its end and keeps every entry with a positive balance of at least
    1%. *)
Lemma classifyHolder_mono (totalSupply : Z) (analysis analysis' : PairAnalysis)
    (entry : string * Z) (h : LpHolder) :
  classifyHolder totalSupply analysis entry = Some analysis' ->
  In h (pa_holders analysis) -> In h (pa_holders analysis').
Proof.
  unfold classifyHolder. destruct entry as [address balance].
  destruct (balance <=? 0); [now intros [= <-] |].
  destruct (totalSupply =? 0); [discriminate |].
  destruct (ltb _ 1); [now intros [= <-] |].
  intros [= <-] Hin. cbn [pa_holders]. apply in_or_app. now left.
Qed.

Lemma classifyHolder_keeps (totalSupply : Z) (analysis : PairAnalysis)
    (address : string) (balance : Z) :
  totalSupply <> 0 ->
  0 < balance ->
  (1 <= lpPercentage balance totalSupply)%Q ->
  exists analysis' h,
    classifyHolder totalSupply analysis (address, balance) = Some analysis'
    /\ In h (pa_holders analysis')
    /\ lh_address h = address /\ lh_balance h = balance.
Proof.
  intros Hts Hb Hp. unfold classifyHolder.
  destruct (Z.leb_spec balance 0); [lia |].
  destruct (Z.eqb_spec totalSupply 0); [contradiction |].
  assert (E : ltb (lpPercentage balance totalSupply) 1 = false).
  { unfold ltb. apply Qle_bool_iff in Hp. now rewrite Hp. }
  rewrite E. eexists. eexists. split; [reflexivity |].
  cbn [pa_holders]. split; [apply in_or_app; right; left; reflexivity |].
  split; reflexivity.
Qed.

Lemma classifyHolder_total (totalSupply : Z) (analysis : PairAnalysis) (entry : string * Z) :
  totalSupply <> 0 -> exists analysis', classifyHolder totalSupply analysis entry = Some analysis'.
Proof.
  intros Hts. unfold classifyHolder. destruct entry as [address balance].
  destruct (balance <=? 0); [eauto |].
  destruct (Z.eqb_spec totalSupply 0); [contradiction |].
  destruct (ltb _ 1); eauto.
Qed.

Lemma classifyHolders_mono (totalSupply : Z) (entries : JSMap.t) (analysis : PairAnalysis)
    (h : LpHolder) :
  In h (pa_holders analysis) ->
  In h (pa_holders (fst (classifyHolders totalSupply analysis entries))).
Proof.
  revert analysis. induction entries as [|entry entries IH]; intros analysis Hin; simpl.
  - exact Hin.
  - destruct (classifyHolder totalSupply analysis entry) as [analysis'|] eqn:E.
    + apply IH. eapply classifyHolder_mono; eassumption.
    + exact Hin.
Qed.

Lemma classifyHolders_complete (totalSupply : Z) (entries : JSMap.t)
    (analysis : PairAnalysis) :
  totalSupply <> 0 ->
  snd (classifyHolders totalSupply analysis entries) = true
  /\ forall address balance,
       In (address, balance) entries ->
       0 < balance ->
       (1 <= lpPercentage balance totalSupply)%Q ->
       exists h,
         In h (pa_holders (fst (classifyHolders totalSupply analysis entries)))
         /\ lh_address h = address /\ lh_balance h = balance.
Proof.
  intros Hts. revert analysis.
  induction entries as [|entry entries IH]; intros analysis; simpl.
  - split; [reflexivity | intros ? ? []].
  - destruct (classifyHolder_total totalSupply analysis entry Hts) as [analysis' E].
    rewrite E. destruct (IH analysis') as [Hdone Hall]. split; [exact Hdone |].
    intros address balance [-> | Hin] Hb Hp.
    + destruct (classifyHolder_keeps totalSupply analysis address balance Hts Hb Hp)
        as (a2 & h & E2 & Hh & Ha & Hbal).
      rewrite E in E2. injection E2 as <-.
      exists h. split; [now apply classifyHolders_mono | split; assumption].
    + now apply Hall.
Qed.

Lemma In_insertHolder (h x : LpHolder) (l : list LpHolder) :
  In x (insertHolder h l) <-> x = h \/ In x l.
Proof.
  induction l as [|h' l IH]; simpl; [intuition |].
  destruct (lh_balance h' <=? lh_balance h); simpl; [intuition |].
  rewrite IH. intuition.
Qed.

Lemma In_sortHolders (x : LpHolder) (l : list LpHolder) :
  In x (sortHolders l) <-> In x l.
Proof.
  unfold sortHolders. induction l as [|h l IH]; simpl; [tauto |].
  rewrite In_insertHolder, IH. intuition.
Qed.

Lemma analyzeLiquidityPair_complete (lpTransfers : list Transfer) (totalSupply : Z)
    (address : string) (balance : Z) :
  totalSupply <> 0 ->
  In (address, balance) (lpBalances lpTransfers) ->
  0 < balance ->
  (1 <= lpPercentage balance totalSupply)%Q ->
  exists h,
    In h (pa_holders (analyzeLiquidityPair lpTransfers (Some totalSupply)))
    /\ lh_address h = address /\ lh_balance h = balance.
Proof.
  intros Hts Hin Hb Hp. unfold analyzeLiquidityPair.
  destruct (classifyHolders_complete totalSupply (lpBalances lpTransfers)
              emptyPairAnalysis Hts) as [Hdone Hall].
  destruct (Hall address balance Hin Hb Hp) as (h & Hh & Ha & Hbal).
  destruct (classifyHolders totalSupply emptyPairAnalysis _) as [analysis completed].
  cbn [fst snd] in *. subst completed. cbn [pa_holders].
  exists h. split; [now apply In_sortHolders | split; assumption].
Qed.

Lemma liquidityLoop_holders (pairs : list PairResponse) (analysis : LiquidityAnalysis)
    (h : LpHolder) :
  In h (la_lpHolders analysis)
  \/ (exists pair, In pair pairs
        /\ In h (pa_holders
                   (analyzeLiquidityPair (pr_lpTransfers pair) (pr_totalSupply pair)))) ->
  In h (la_lpHolders (liquidityLoop pairs analysis)).
Proof.
  unfold liquidityLoop. revert analysis.
  induction pairs as [|pair pairs IH]; intros analysis H; cbn [fold_left].
  - destruct H as [H | (pair & [] & _)]. exact H.
  - apply IH. cbn [la_lpHolders].
    destruct H as [H | (pair' & [<- | Hin] & Hh)].
    + left. apply in_or_app. now left.
    + left. apply in_or_app. now right.
    + right. eauto.
Qed.

(** What the code does for a holder at the PinkLock locker, an entry of
    [KNOWN_LOCKERS]: the table spells the address in mixed case, the holder
    addresses are lower-cased before the lookup, so the holder is not flagged
    and the pair counts as unlocked (+10).  The Unicrypt entry, spelled in
    lower case, is found. *)
Lemma pinklock_holder_not_flagged :
  In "0x407993575c91ce7643a4d4cCACc9A98c36eE1BBE" KNOWN_LOCKERS
  /\ (let analysis := analyzeLiquidity [lp_in_pinklock] None in
      map (fun h => (lh_address h, flagged h)) (la_lpHolders analysis)
      = [("0x407993575c91ce7643a4d4ccacc9a98c36ee1bbe", false)]
      /\ la_lpLocked analysis = false
      /\ (la_score analysis == 10)%Q
      /\ map f_type (la_findings analysis) = ["liquidity_not_locked"]).
Proof. vm_compute. intuition. Qed.

(** C6, as stated, fails: in [lp_dust_burned] the burn address holds LP
    tokens (0.5% of the supply), so a holder's address is the burn address,
    yet no holder is classified as locked, because the analyzer skips holders
    below 1%. *)
Lemma C6_counterexample :
  let balances := lpBalances (pr_lpTransfers lp_dust_burned) in
  let pair :=
    analyzeLiquidityPair (pr_lpTransfers lp_dust_burned) (pr_totalSupply lp_dust_burned) in
  JSMap.get balances burnAddress = Some 5
  /\ spec_pairLocked balances = true
  /\ pa_locked pair = false
  /\ pa_locked pair <> spec_pairLocked balances.
Proof. vm_compute. repeat split; discriminate. Qed.

Lemma lpPercentage_lt_1 (balance totalSupply : Z) :
  ltb (lpPercentage balance totalSupply) 1 = (Z.quot (balance * 10000) totalSupply <? 100).
Proof.
  unfold ltb, lpPercentage.
  set (q := Z.quot (balance * 10000) totalSupply).
  destruct (Z.ltb_spec q 100) as [H | H].
  - destruct (Qle_bool 1 (inject_Z q / 100)) eqn:E; [| reflexivity].
    apply Qle_bool_iff in E. exfalso.
    apply (Qmult_le_compat_r _ _ 100) in E; [| discriminate].
    assert (E' : (inject_Z q / 100 * 100 == inject_Z q)%Q) by (field; discriminate).
    rewrite E' in E. change (1 * 100)%Q with (inject_Z 100) in E.
    rewrite <- Zle_Qle in E. lia.
  - assert (E : Qle_bool 1 (inject_Z q / 100) = true); [| now rewrite E].
    apply Qle_bool_iff. apply Qle_shift_div_l; [reflexivity |].
    change (1 * 100)%Q with (inject_Z 100). rewrite <- Zle_Qle. exact H.
Qed.

Lemma lpPercentage_gt_50 (balance totalSupply : Z) :
  gtb (lpPercentage balance totalSupply) 50
  = (5000 <? Z.quot (balance * 10000) totalSupply).
Proof.
  unfold gtb, ltb, lpPercentage.
  set (q := Z.quot (balance * 10000) totalSupply).
  destruct (Z.ltb_spec 5000 q) as [H | H].
  - destruct (Qle_bool (inject_Z q / 100) 50) eqn:E; [| reflexivity].
    apply Qle_bool_iff in E. exfalso.
    apply (Qmult_le_compat_r _ _ 100) in E; [| discriminate].
    assert (E' : (inject_Z q / 100 * 100 == inject_Z q)%Q) by (field; discriminate).
    rewrite E' in E. change (50 * 100)%Q with (inject_Z 5000) in E.
    rewrite <- Zle_Qle in E. lia.
  - assert (E : Qle_bool (inject_Z q / 100) 50 = true); [| now rewrite E].
    apply Qle_bool_iff. apply Qle_shift_div_r; [reflexivity |].
    change (50 * 100)%Q with (inject_Z 5000). rewrite <- Zle_Qle. exact H.
Qed.

(** The entries that the holder loop keeps with a share above 50%, on the
    balance and the total supply. *)
Lemma majority_share (balance totalSupply : Z) :
  (0 <? balance) && negb (totalSupply =? 0)
  && negb (ltb (lpPercentage balance totalSupply) 1)
  && gtb (lpPercentage balance totalSupply) 50
  = (0 <? totalSupply) && (5001 * totalSupply <=? 10000 * balance).
Proof.
  rewrite lpPercentage_lt_1, lpPercentage_gt_50.
  destruct (Z.ltb_spec 0 balance) as [Hb | Hb]; cbn [andb].
  - destruct (Z.eqb_spec totalSupply 0) as [-> | Hts]; cbn [negb andb]; [reflexivity |].
    destruct (Z.ltb_spec 0 totalSupply) as [Hpos | Hneg]; cbn [andb].
    + rewrite Z.quot_div_nonneg by lia.
      destruct (Z.leb_spec (5001 * totalSupply) (10000 * balance)) as [H | H].
      * assert (5001 <= balance * 10000 / totalSupply)
          by (apply Z.div_le_lower_bound; lia).
        destruct (Z.ltb_spec (balance * 10000 / totalSupply) 100); [lia |].
        destruct (Z.ltb_spec 5000 (balance * 10000 / totalSupply)); [reflexivity | lia].
      * assert (balance * 10000 / totalSupply < 5001)
          by (apply Z.div_lt_upper_bound; lia).
        destruct (Z.ltb_spec 5000 (balance * 10000 / totalSupply)); [lia |].
        apply andb_false_r.
    + assert (Hq : Z.quot (balance * 10000) totalSupply <= 0).
      { replace totalSupply with (- (- totalSupply)) by lia.
        rewrite Z.quot_opp_r by lia.
        assert (0 <= Z.quot (balance * 10000) (- totalSupply)); [| lia].
        apply Z.quot_pos; lia. }
      destruct (Z.ltb_spec 5000 (Z.quot (balance * 10000) totalSupply)); [lia |].
      apply andb_false_r.
  - destruct (Z.ltb_spec 0 totalSupply) as [Hpos | Hneg]; cbn [andb]; [| reflexivity].
    destruct (Z.leb_spec (5001 * totalSupply) (10000 * balance)); [lia | reflexivity].
Qed.

Lemma existsb_false {A} (f : A -> bool) (l : list A) :
  (forall x, f x = false) -> existsb f l = false.
Proof. intros H. induction l as [|x l IH]; [reflexivity |]. cbn. now rewrite H, IH. Qed.

(** What the holder loop keeps, seen through a test on address and share. *)
Lemma classifyHolders_existsb (p : string -> Q -> bool) (totalSupply : Z)
    (entries : JSMap.t) (analysis : PairAnalysis) :
  existsb (fun h => p (lh_address h) (lh_percentage h))
    (pa_holders (fst (classifyHolders totalSupply analysis entries)))
  = existsb (fun h => p (lh_address h) (lh_percentage h)) (pa_holders analysis)
    || existsb
         (fun entry =>
            (0 <? snd entry) && negb (totalSupply =? 0)
            && negb (ltb (lpPercentage (snd entry) totalSupply) 1)
            && p (fst entry) (lpPercentage (snd entry) totalSupply))
         entries.
Proof.
  revert analysis. induction entries as [|[address balance] entries IH]; intros analysis.
  - cbn. now rewrite orb_false_r.
  - cbn [classifyHolders classifyHolder existsb fst snd].
    destruct (Z.leb_spec balance 0) as [Hb | Hb].
    + rewrite IH. destruct (Z.ltb_spec 0 balance); [lia |]. reflexivity.
    + destruct (Z.ltb_spec 0 balance); [| lia]. cbn [andb].
      destruct (Z.eqb_spec totalSupply 0) as [-> | Hts]; cbn [negb andb fst].
      * rewrite (existsb_false _ entries) by (intros [a b]; cbn; now destruct (0 <? b)).
        now rewrite orb_false_r.
      * destruct (ltb (lpPercentage balance totalSupply) 1) eqn:E; cbn [negb andb].
        -- apply IH.
        -- rewrite IH. cbn [pa_holders]. rewrite existsb_app, existsb_singleton.
           cbn [lh_address lh_percentage]. now rewrite orb_assoc.
Qed.

Lemma analyzeLiquidityPair_existsb (p : string -> Q -> bool)
    (lpTransfers : list Transfer) (totalSupply : option Z) :
  existsb (fun h => p (lh_address h) (lh_percentage h))
    (pa_holders (analyzeLiquidityPair lpTransfers totalSupply))
  = match totalSupply with
    | Some totalSupply =>
        existsb
          (fun entry =>
             (0 <? snd entry) && negb (totalSupply =? 0)
             && negb (ltb (lpPercentage (snd entry) totalSupply) 1)
             && p (fst entry) (lpPercentage (snd entry) totalSupply))
          (lpBalances lpTransfers)
    | None => false
    end.
Proof.
  unfold analyzeLiquidityPair. destruct totalSupply as [ts|]; [| reflexivity].
  pose proof (classifyHolders_existsb p ts (lpBalances lpTransfers) emptyPairAnalysis) as H.
  destruct (classifyHolders ts emptyPairAnalysis _) as [analysis completed].
  cbn [fst pa_holders emptyPairAnalysis existsb orb] in H.
  destruct completed; cbn [pa_holders]; [rewrite existsb_sortHolders |]; exact H.
Qed.

Lemma liquidityLoop_existsb (f : LpHolder -> bool) (pairs : list PairResponse)
    (analysis : LiquidityAnalysis) :
  existsb f (la_lpHolders (liquidityLoop pairs analysis))
  = existsb f (la_lpHolders analysis)
    || existsb
         (fun pair =>
            existsb f (pa_holders (analyzeLiquidityPair (pr_lpTransfers pair)
                                     (pr_totalSupply pair))))
         pairs.
Proof.
  unfold liquidityLoop. revert analysis.
  induction pairs as [|pair pairs IH]; intros analysis; cbn [fold_left existsb].
  - now rewrite orb_false_r.
  - rewrite IH. cbn [la_lpHolders]. rewrite existsb_app. now rewrite orb_assoc.
Qed.

(** The test of [analyzeLiquidity] on the deployer, on the balances and the
    total supply of the pairs. *)
Lemma creatorHoldsLP_majority (pairs : list PairResponse) (creator : option string) :
  creatorHoldsLP (la_lpHolders (analyzeLiquidity pairs creator)) creator
  = deployerHoldsMajority pairs creator.
Proof.
  destruct pairs as [|pair pairs]; [now destruct creator |].
  destruct (analyzeLiquidity_unfold (pair :: pairs) creator ltac:(discriminate))
    as (_ & _ & -> & _).
  unfold creatorHoldsLP, deployerHoldsMajority.
  generalize (pair :: pairs). intros pairs'.
  destruct creator as [c|].
  - rewrite (liquidityLoop_existsb
               (fun h => String.eqb (toLowerCase (lh_address h)) (toLowerCase c)
                         && gtb (lh_percentage h) 50)).
    cbn [la_lpHolders existsb orb].
    induction pairs' as [|pr prs IH]; [reflexivity |].
    cbn [existsb]. rewrite IH. f_equal.
    rewrite (analyzeLiquidityPair_existsb
               (fun address percentage =>
                  String.eqb (toLowerCase address) (toLowerCase c) && gtb percentage 50)).
    destruct (pr_totalSupply pr) as [ts|]; [| reflexivity].
    induction (lpBalances (pr_lpTransfers pr)) as [|[address balance] l IHl];
      [reflexivity |].
    cbn [existsb fst snd]. rewrite IHl. f_equal.
    destruct (String.eqb (toLowerCase address) (toLowerCase c)); cbn [andb];
      [apply majority_share | apply andb_false_r].
  - rewrite (liquidityLoop_existsb (fun h => false && gtb (lh_percentage h) 50)).
    cbn [la_lpHolders existsb orb].
    induction pairs' as [|pr prs IH]; [reflexivity |].
    cbn [existsb]. rewrite IH, orb_false_r.
    now apply existsb_false.
Qed.

Lemma lpPercentage_ge_1 (balance totalSupply : Z) :
  0 < totalSupply -> 0 < balance -> totalSupply <= 100 * balance ->
  (1 <= lpPercentage balance totalSupply)%Q.
Proof.
  intros Hts Hb H.
  pose proof (lpPercentage_lt_1 balance totalSupply) as E.
  rewrite Z.quot_div_nonneg in E by lia.
  assert (100 <= balance * 10000 / totalSupply) by (apply Z.div_le_lower_bound; lia).
  destruct (Z.ltb_spec (balance * 10000 / totalSupply) 100); [lia |].
  now apply ltb_false_le.
Qed.

(** C6 (amended): the analyzer keeps the LP holders with a positive balance
    of at least 1% of the pair's supply, and every such balance when the
    supply is positive.  A kept holder whose address is the burn address, the
    zero address or the Unicrypt locker is classified as locked; one whose
    address is neither the zero address nor, compared case-insensitively, an
    entry of the known-locker table is not.  The liquidity is locked or burned
    exactly when some kept holder is so classified; with at least one pair the
    contribution is then -10, and otherwise +15 when the balance of the
    deployer in some pair is at least 50.01% of that pair's supply (the code
    cuts the share to hundredths of a percent before it compares with 50, so
    50.001% does not count) and +10 when not.

    Left out, neither promised nor denied: a holder at one of the two PinkLock
    entries of [KNOWN_LOCKERS].  The table spells them in mixed case and the
    code looks up the lower-cased holder address, so it never recognises them
    (lemma [pinklock_holder_not_flagged]): a slip of the code, not a
    design. *)
Theorem C6_lock_classification (pairs : list PairResponse) (creator : option string) :
  let analysis := analyzeLiquidity pairs creator in
  let holders := la_lpHolders analysis in
  Forall
    (fun h =>
       holderKept h
       /\ (In (lh_address h) [burnAddress; zeroAddress; unicryptLocker] -> flagged h = true)
       /\ (~ In (toLowerCase (lh_address h)) (map toLowerCase (zeroAddress :: KNOWN_LOCKERS)) ->
           flagged h = false))
    holders
  /\ (forall pair totalSupply address balance,
        In pair pairs ->
        pr_totalSupply pair = Some totalSupply ->
        0 < totalSupply ->
        In (address, balance) (lpBalances (pr_lpTransfers pair)) ->
        0 < balance ->
        totalSupply <= 100 * balance ->
        exists h, In h holders /\ lh_address h = address /\ lh_balance h = balance)
  /\ la_lpLocked analysis || la_lpBurned analysis = existsb flagged holders
  /\ (pairs <> [] ->
      (la_score analysis
       == if existsb flagged holders then -10
          else if deployerHoldsMajority pairs creator then 15 else 10)%Q).
Proof.
  cbv zeta.
  destruct (analyzeLiquidity_flags pairs creator) as (Hall & Hl & Hb).
  split; [| split; [| split]].
  - eapply Forall_impl; [exact Hall |]. intros h [Hk Hf]. cbv beta.
    split; [exact Hk |].
    split; [apply holderFlagsOk_locks | apply holderFlagsOk_others]; exact Hf.
  - intros pair ts address balance Hin Hts Hpos Hbal Hb' Hpct.
    assert (Hne : ts <> 0) by lia.
    destruct (analyzeLiquidityPair_complete _ ts address balance Hne Hbal Hb'
                (lpPercentage_ge_1 balance ts Hpos Hb' Hpct))
      as (h & Hh & Ha & Hbh).
    exists h. split; [| split; assumption].
    assert (Hpairs : pairs <> []) by (intros ->; destruct Hin).
    destruct (analyzeLiquidity_unfold pairs creator Hpairs) as (_ & _ & -> & _).
    apply liquidityLoop_holders. right. exists pair. rewrite Hts. auto.
  - rewrite Hl, Hb. apply burned_is_flagged.
  - intros Hne. rewrite <- creatorHoldsLP_majority.
    now apply analyzeLiquidity_score.
Qed.

Lemma C6_witness :
  (la_score (analyzeLiquidity [lp_in_unicrypt] None) == -10)%Q
  /\ (la_score (analyzeLiquidity [lp_held_by_creator]
                  (Some "0x95ba4cf87d6723ad9c0db21737d862be80e93911")) == 15)%Q
  /\ (la_score (analyzeLiquidity [lp_barely_majority]
                  (Some "0x95ba4cf87d6723ad9c0db21737d862be80e93911")) == 10)%Q
  /\ (la_score (analyzeLiquidity [lp_held_by_creator] None) == 10)%Q
  /\ (exists h, In h (la_lpHolders (analyzeLiquidity [lp_in_unicrypt] None))
                /\ lh_address h = unicryptLocker /\ lh_balance h = 1000000).
Proof.
  split; [| split; [| split; [| split]]].
  - destruct (C6_lock_classification [lp_in_unicrypt] None) as (_ & _ & _ & Hs).
    rewrite (Hs ltac:(discriminate)). vm_compute. reflexivity.
  - destruct (C6_lock_classification [lp_held_by_creator]
                (Some "0x95ba4cf87d6723ad9c0db21737d862be80e93911")) as (_ & _ & _ & Hs).
    rewrite (Hs ltac:(discriminate)). vm_compute. reflexivity.
  - destruct (C6_lock_classification [lp_barely_majority]
                (Some "0x95ba4cf87d6723ad9c0db21737d862be80e93911")) as (_ & _ & _ & Hs).
    rewrite (Hs ltac:(discriminate)). vm_compute. reflexivity.
  - destruct (C6_lock_classification [lp_held_by_creator] None) as (_ & _ & _ & Hs).
    rewrite (Hs ltac:(discriminate)). vm_compute. reflexivity.
  - destruct (C6_lock_classification [lp_in_unicrypt] None) as (_ & Hc & _ & _).
    apply (Hc lp_in_unicrypt 1000000 unicryptLocker 1000000).
    + left. reflexivity.
    + reflexivity.
    + lia.
    + vm_compute. left. reflexivity.
    + lia.
    + lia.
Defined.

(** ** RPC-only scoring *)

Example bytecode_findings :
  map bf_pattern (analyzeBytecode "0x6080F4f4f4a9059cbb095ea7b370a08231FF")
  = ["delegatecall"; "potential_selfdestruct"; "erc20_standard"].
Proof. vm_compute. reflexivity. Qed.

Lemma bytecode_loop_score (findings : list BytecodeFinding) (st : Z * list Vulnerability) :
  fst (fold_left
         (fun st finding =>
            if String.eqb (bf_pattern finding) "potential_selfdestruct" then
              pushOnly {| v_type := "potential_selfdestruct"; v_severity := low |} st
            else if String.eqb (bf_pattern finding) "delegatecall" then
              pushOnly {| v_type := "proxy_pattern"; v_severity := info |} st
            else if String.eqb (bf_pattern finding) "erc20_standard" then
              pushOnly {| v_type := "erc20_standard"; v_severity := info |} st
            else st)
         findings st)
  = fst st.
Proof.
  revert st. induction findings as [|f l IH]; intros st; [reflexivity |].
  cbn [fold_left]. rewrite IH.
  repeat match goal with |- context [if ?b then _ else _] => destruct b end; reflexivity.
Qed.

Lemma flag_score (cond : bool) (d : Z) (v : Vulnerability) (st : Z * list Vulnerability) :
  fst (flag cond d v st) = fst st + (if cond then d else 0).
Proof. destruct cond; simpl; lia. Qed.

Lemma calculateRPCOnlyRiskScore_range (contractInfo : ContractInfo)
    (goplusData : option GoPlusResult) (bytecodeFindings : list BytecodeFinding) :
  10 <= fr_score (calculateRPCOnlyRiskScore contractInfo goplusData bytecodeFindings) <= 100.
Proof.
  unfold calculateRPCOnlyRiskScore. cbn [fr_score].
  split; [| apply Z.le_min_r].
  apply Z.min_glb; [| lia].
  destruct goplusData as [g|].
  - rewrite !flag_score, bytecode_loop_score. cbn [fst flag].
    repeat match goal with |- context [if ?b then _ else _] => destruct b end; lia.
  - rewrite bytecode_loop_score. cbn. lia.
Qed.

(** ** Scoring stage of the agent *)

Lemma calculateRiskScore_range (analyses : Analyses) :
  0 <= calculateRiskScore analyses <= 100.
Proof.
  unfold calculateRiskScore.
  destruct (detectScamKeywords _ _); [lia |].
  pose proof (weightedScore_bounds analyses) as [Hlo Hhi].
  fold (applyOverrides (contractInfo analyses) (weightedScore analyses)).
  assert (H : (0 <= applyOverrides (contractInfo analyses) (weightedScore analyses) <= 100)%Q).
  { unfold applyOverrides.
    repeat match goal with |- context [if ?b then _ else _] => destruct b end;
      (split; [try apply Math_min_glb; try assumption; discriminate
              | try (eapply Qle_trans; [apply Math_min_le_l |]); assumption]). }
  split; [apply (Math_round_ge _ 0) | apply (Math_round_le _ 100)]; apply H.
Qed.

Lemma analyzeContract_inv (scan_depth : ScanDepth) (r : Responses) (record : RiskRecord) :
  analyzeContract scan_depth r = Some record ->
  exists contractInfo usingFallback,
    resolve r = Some (contractInfo, usingFallback)
    /\ (if usingFallback
        then (exists ci g b, risk_score record = fr_score (calculateRPCOnlyRiskScore ci g b))
             /\ confidence record = (7 # 10)%Q
        else (exists a, risk_score record = calculateRiskScore a)
             /\ exists ca oa,
                 confidence record = calculateConfidence (confidenceInputs ca oa)).
Proof.
  unfold analyzeContract. intros H.
  destruct (resolve r) as [[contractInfo usingFallback]|]; [| discriminate].
  exists contractInfo, usingFallback. split; [reflexivity |].
  cbn [mbind option_bind] in H.
  destruct (analyzeCode r contractInfo usingFallback)
    as [[[codeAnalysis contractInfo'] bytecodeFindings]|]; [| discriminate].
  cbn [mbind option_bind] in H.
  injection H as <-. cbn [risk_score confidence].
  destruct usingFallback; split;
    [exists contractInfo'; eauto | reflexivity | eauto | eauto].
Qed.

Example run_in_fallback_record :
  analyzeContract deep run_in_fallback
  = Some {| risk_score := 100; risk_level := level_critical; confidence := 7 # 10 |}.
Proof. vm_compute. reflexivity. Qed.

Example run_with_explorer_record :
  option_map (fun record => (risk_score record, risk_level record))
    (analyzeContract deep run_with_explorer)
  = Some (63, level_high).
Proof. vm_compute. reflexivity. Qed.

(** C3: the risk score of both scoring paths ([calculateRiskScore], and
    [calculateRPCOnlyRiskScore] in fallback mode) is an integer between 0 and
    100, the confidence lies between 0 and 1, and so do the score and the
    confidence of every record that [analyzeContract] returns. *)
Theorem C3_score_and_confidence_ranges :
  (forall analyses, 0 <= calculateRiskScore analyses <= 100)
  /\ (forall contractInfo goplusData bytecodeFindings,
         0 <= fr_score (calculateRPCOnlyRiskScore contractInfo goplusData bytecodeFindings)
           <= 100)
  /\ (forall analyses, (0 <= calculateConfidence analyses <= 1)%Q)
  /\ (forall scan_depth r record,
         analyzeContract scan_depth r = Some record ->
         0 <= risk_score record <= 100 /\ (0 <= confidence record <= 1)%Q).
Proof.
  assert (Hconf : forall analyses, (0 <= calculateConfidence analyses <= 1)%Q).
  { intros a. destruct (calculateConfidence_range a) as [Hlo Hhi].
    split; [| exact Hhi]. eapply Qle_trans; [| exact Hlo]. discriminate. }
  assert (Hrpc : forall ci g b, 0 <= fr_score (calculateRPCOnlyRiskScore ci g b) <= 100).
  { intros ci g b. pose proof (calculateRPCOnlyRiskScore_range ci g b). lia. }
  split; [exact calculateRiskScore_range |].
  split; [exact Hrpc |].
  split; [exact Hconf |].
  intros scan_depth r record H.
  destruct (analyzeContract_inv scan_depth r record H) as (ci & uf & _ & Hrec).
  destruct uf.
  - destruct Hrec as [(ci' & g & b & ->) ->]. split; [apply Hrpc |].
    split; discriminate.
  - destruct Hrec as [(a & ->) (ca & oa & ->)]. split; [apply calculateRiskScore_range |].
    apply Hconf.
Qed.

Lemma C3_witness :
  exists record,
    analyzeContract deep run_with_explorer = Some record
    /\ 0 <= risk_score record <= 100 /\ (0 <= confidence record <= 1)%Q.
Proof.
  destruct (analyzeContract deep run_with_explorer) as [record|] eqn:E;
    [| vm_compute in E; discriminate].
  exists record. split; [reflexivity |].
  exact (proj2 (proj2 (proj2 C3_score_and_confidence_ranges)) deep run_with_explorer record E).
Defined.

(** C9: when the resolver ends with [usingFallback = true], the run either
    fails at fetching the bytecode or returns a record whose confidence is the
    constant 0.7, whatever the analyzers and oracles answered. *)
Theorem C9_fallback_confidence_is_constant
    (scan_depth : ScanDepth) (r : Responses) (contractInfo : ContractInfo) :
  resolve r = Some (contractInfo, true) ->
  match analyzeContract scan_depth r with
  | Some record => confidence record = (7 # 10)%Q
  | None => provider_getCode r = None
  end.
Proof.
  intros Hres. unfold analyzeContract. rewrite Hres. cbn [mbind option_bind].
  unfold analyzeCode.
  destruct (ci_verified contractInfo && truthy_string (ci_sourceCode contractInfo)).
  - reflexivity.
  - destruct (provider_getCode r); reflexivity.
Qed.

Lemma C9_witness :
  exists record,
    analyzeContract deep run_in_fallback = Some record
    /\ confidence record = (7 # 10)%Q.
Proof.
  pose proof (C9_fallback_confidence_is_constant deep run_in_fallback _ eq_refl) as H.
  destruct (analyzeContract deep run_in_fallback) as [record|] eqn:E;
    [| vm_compute in E; discriminate].
  exists record. split; [reflexivity | exact H].
Defined.

(** Outside fallback mode the agent hands only the code and ownership
    analyses to [calculateConfidence], so the confidence of the record does
    not depend on the oracles: it is 0.55. *)
Lemma analyzeContract_full_path_confidence
    (scan_depth : ScanDepth) (r : Responses) (contractInfo : ContractInfo) :
  resolve r = Some (contractInfo, false) ->
  exists record,
    analyzeContract scan_depth r = Some record
    /\ (confidence record == 55 # 100)%Q.
Proof.
  intros Hres. unfold analyzeContract. rewrite Hres. cbn [mbind option_bind].
  unfold analyzeCode.
  destruct (ci_verified contractInfo && truthy_string (ci_sourceCode contractInfo));
    cbn [mbind option_bind]; eexists; (split; [reflexivity |]); reflexivity.
Qed.

(** C5 (code defect): the confidence of a run misses the signals.
    [calculateConfidence] reads the liquidity analysis, the contract age and
    the three oracle results of the object it is given and adds 0.15 for a
    GoPlus check (lemma [calculateConfidence_signals_and_cap]), but the agent
    calls it with the code and ownership analyses only (agent.js:285).  So
    the deep run [run_with_explorer], in which GoPlus answered with
    [checked: true], and the otherwise identical run in which the GoPlus call
    failed both have confidence 0.55: the checked run is not strictly higher,
    and neither shows the increments for liquidity data, age or creator
    history. *)
Theorem C5_run_confidence_misses_the_signals :
  let checked_run := run_with_explorer in
  let unchecked_run := withGoPlusAnswer None run_with_explorer in
  (exists g risk, r_goplus checked_run = Some (Some g, risk) /\ gp_checked g = true)
  /\ r_goplus unchecked_run = None
  /\ exists with_check without_check,
       analyzeContract deep checked_run = Some with_check
       /\ analyzeContract deep unchecked_run = Some without_check
       /\ (confidence with_check == 55 # 100)%Q
       /\ (confidence without_check == 55 # 100)%Q
       /\ ~ (confidence without_check < confidence with_check)%Q.
Proof.
  cbv zeta. split; [| split; [reflexivity |]].
  - exists goplus_clean, {| rc_score := -10 |}. split; reflexivity.
  - destruct (analyzeContract deep run_with_explorer) as [r1|] eqn:E1;
      [| vm_compute in E1; discriminate].
    destruct (analyzeContract deep (withGoPlusAnswer None run_with_explorer)) as [r2|] eqn:E2;
      [| vm_compute in E2; discriminate].
    exists r1, r2. split; [reflexivity |]. split; [reflexivity |].
    vm_compute in E1. vm_compute in E2.
    injection E1 as <-. injection E2 as <-.
    vm_compute. repeat split; discriminate.
Qed.

(** ** Result cache *)

(** A record written at [now] is read back until the TTL has elapsed. *)
Lemma get_after_set
    (JSON_parse : string -> option json) (JSON_stringify : json -> string)
    (now later : Z) (db : gmap (string * string * string) Row)
    (contractAddress chain scanDepth : string) (result : json) :
  JSON_parse (JSON_stringify result) = Some result ->
  later - now <= 3600 * 1000 ->
  CacheDB.get JSON_parse later
    (CacheDB.set JSON_stringify now db contractAddress chain scanDepth result)
    contractAddress chain scanDepth
  = (result, CacheDB.set JSON_stringify now db contractAddress chain scanDepth result).
Proof.
  intros Hrt Hfresh. unfold CacheDB.get, CacheDB.set, CacheDB.maxAge.
  rewrite lookup_insert_eq. cbn [row_created_at row_result].
  destruct (Z.ltb_spec (60 * 60 * 1000) (later - now)); [lia |].
  now rewrite Hrt.
Qed.


(** C8: a read returns a miss ([null]) when no entry exists, when the
    entry is older than the TTL of 3600 seconds (3 600 000 ms), or when its
    payload does not parse; an entry older than the TTL is deleted by that
    read. *)
Theorem C8_cache_read_miss
    (JSON_parse : string -> option json) (now : Z)
    (db : gmap (string * string * string) Row)
    (contractAddress chain scanDepth : string) :
  CacheDB.missCondition JSON_parse now (db !! CacheDB.key contractAddress chain scanDepth) ->
  fst (CacheDB.get JSON_parse now db contractAddress chain scanDepth) = JNull
  /\ (forall row,
        db !! CacheDB.key contractAddress chain scanDepth = Some row ->
        3600 * 1000 < now - row_created_at row ->
        snd (CacheDB.get JSON_parse now db contractAddress chain scanDepth)
          = base.delete (CacheDB.key contractAddress chain scanDepth) db
        /\ snd (CacheDB.get JSON_parse now db contractAddress chain scanDepth)
             !! CacheDB.key contractAddress chain scanDepth = None).
Proof.
  unfold CacheDB.missCondition, CacheDB.get, CacheDB.delete, CacheDB.maxAge.
  intros Hmiss.
  destruct (db !! CacheDB.key contractAddress chain scanDepth) as [row|] eqn:E.
  - split.
    + destruct (Z.ltb_spec (60 * 60 * 1000) (now - row_created_at row)); [reflexivity |].
      destruct Hmiss as [Hold | Hparse]; [lia |]. now rewrite Hparse.
    + intros row' [= <-] Hold.
      destruct (Z.ltb_spec (60 * 60 * 1000) (now - row_created_at row)); [| lia].
      split; [reflexivity | apply lookup_delete_eq].
  - split; [reflexivity | intros row' [=]].
Qed.

Lemma C8_witness :
  fst (CacheDB.get parseLiteral 3601001 expired_entry
         "0xA0b86991c6218b36c1d19D4a2e9Eb0cE3606eB48" "Ethereum" "quick") = JNull
  /\ snd (CacheDB.get parseLiteral 3601001 expired_entry
            "0xA0b86991c6218b36c1d19D4a2e9Eb0cE3606eB48" "Ethereum" "quick")
       !! CacheDB.key "0xa0b86991c6218b36c1d19d4a2e9eb0ce3606eb48" "ethereum" "quick" = None.
Proof.
  assert (Hrow : expired_entry
                   !! CacheDB.key "0xA0b86991c6218b36c1d19D4a2e9Eb0cE3606eB48" "Ethereum" "quick"
                 = Some {| row_result := "true"; row_created_at := 1000 |}).
  { apply lookup_singleton_eq. }
  destruct (C8_cache_read_miss parseLiteral 3601001 expired_entry
              "0xA0b86991c6218b36c1d19D4a2e9Eb0cE3606eB48" "Ethereum" "quick")
    as [Hmiss Hdel].
  - rewrite Hrow. left. simpl. lia.
  - split; [exact Hmiss |].
    exact (proj2 (Hdel _ Hrow ltac:(simpl; lia))).
Defined.

(** ** Overrides and risk level *)

Lemma Math_min_mono (x x' y : Q) : (x <= x')%Q -> (Math_min x y <= Math_min x' y)%Q.
Proof.
  intros H. apply Math_min_glb.
  - eapply Qle_trans; [apply Math_min_le_l | exact H].
  - apply Math_min_le_r.
Qed.

Lemma Math_max_mono (x y y' : Q) : (y <= y')%Q -> (Math_max x y <= Math_max x y')%Q.
Proof.
  intros H. apply Math_max_lub.
  - apply Math_max_ge_l.
  - eapply Qle_trans; [exact H |]. unfold Math_max.
    destruct (Qle_bool x y') eqn:E; [apply Qle_refl |].
    apply Qlt_le_weak, Qnot_le_lt. intros Hc. apply Qle_bool_iff in Hc. congruence.
Qed.

Lemma Math_round_mono (x y : Q) : (x <= y)%Q -> Math_round x <= Math_round y.
Proof. intros H. unfold Math_round. apply Qfloor_resp_le. lra. Qed.

Lemma applyOverrides_mono (contractInfo : option ContractInfo) (x y : Q) :
  (x <= y)%Q -> (applyOverrides contractInfo x <= applyOverrides contractInfo y)%Q.
Proof.
  intros H. unfold applyOverrides.
  repeat match goal with |- context [if ?b then _ else _] => destruct b end;
    try apply Math_min_mono; exact H.
Qed.




(** X2: the score never decreases when the contributions grow: for two runs
    on the same contract info, larger internal and external adjustments give
    a final score that is at least as large. *)
Theorem calculateRiskScore_monotone (a b : Analyses) :
  contractInfo a = contractInfo b ->
  (internalAdjustments a <= internalAdjustments b)%Q ->
  (externalAdjustments a <= externalAdjustments b)%Q ->
  calculateRiskScore a <= calculateRiskScore b.
Proof.
  intros Hci Hi He. unfold calculateRiskScore. rewrite <- Hci.
  destruct (detectScamKeywords _ _); [lia |].
  fold (applyOverrides (contractInfo a) (weightedScore a)).
  fold (applyOverrides (contractInfo a) (weightedScore b)).
  apply Math_round_mono, applyOverrides_mono.
  unfold weightedScore. apply Math_max_mono, Math_min_glb.
  - apply Math_min_le_l.
  - eapply Qle_trans; [apply Math_min_le_r |]. lra.
Qed.

Lemma calculateRiskScore_monotone_witness :
  calculateRiskScore old_quiet_contract < calculateRiskScore old_quiet_contract_flagged
  /\ calculateRiskScore old_quiet_contract <= calculateRiskScore old_quiet_contract_flagged.
Proof.
  split; [vm_compute; reflexivity |].
  apply calculateRiskScore_monotone.
  - reflexivity.
  - vm_compute. discriminate.
  - vm_compute. discriminate.
Defined.

(** ** Derived findings *)

(** X3: [detectSuspiciousPatterns], decided on the integers of the contract
    info.  Off the allow-list, "abandoned or suspicious" (15) is reported
    exactly for a contract older than a year with fewer than 5000
    transactions and fewer transactions than days of age that is unverified
    or younger than 730 days; "unverified old contract" (20) exactly for an
    unverified contract older than 30 days.  On the allow-list, and without
    contract info, nothing is reported. *)
Theorem detectSuspiciousPatterns_spec (ci : ContractInfo) :
  let abandoned := {| p_type := "abandoned_or_suspicious"; p_score := 15 |} in
  let unverifiedOld := {| p_type := "unverified_old_contract"; p_score := 20 |} in
  let lowActivity :=
    (365 <? ci_ageInDays ci) && (ci_transactionCount ci <? 5000)
    && (ci_transactionCount ci <? ci_ageInDays ci)
    && (negb (ci_verified ci) || (ci_ageInDays ci <? 730)) in
  detectSuspiciousPatterns (Some ci)
  = (if addressIsKnownSafe (Some ci) then []
     else ((if lowActivity then [abandoned] else [])
           ++ (if negb (ci_verified ci) && (30 <? ci_ageInDays ci)
               then [unverifiedOld] else []))%list)
  /\ detectSuspiciousPatterns None = [].
Proof.
  cbv zeta. split; [| reflexivity].
  unfold detectSuspiciousPatterns.
  destruct (addressIsKnownSafe (Some ci)); [reflexivity |].
  change (get_verified (Some ci)) with (ci_verified ci).
  change (ageInDays_gt (Some ci) 30) with (30 <? ci_ageInDays ci).
  f_equal.
  destruct (Z.ltb_spec 365 (ci_ageInDays ci)) as [Hold | Hyoung]; [| reflexivity].
  rewrite avgTxPerDay_lt_1 by lia.
  cbn [andb].
  destruct (ci_transactionCount ci <? 5000); [| reflexivity].
  reflexivity.
Qed.

(** X4: [detectAPINotFound] reports at most one finding: "contract not
    found" (40) exactly when the contract info has neither creator nor
    creation transaction or counts zero transactions, and otherwise at most
    one of the two GoPlus findings (10 each); the Token Sniffer result never
    changes the outcome. *)
Theorem detectAPINotFound_at_most_one
    (tokenSnifferResult : option TokenSnifferResult) (goplusResult : option GoPlusResult)
    (contractInfo : option ContractInfo) :
  let findings := detectAPINotFound tokenSnifferResult goplusResult contractInfo in
  let missing :=
    negb (truthy_string (get_creator contractInfo))
    && negb (truthy_string (get_creationTxHash contractInfo))
    || transactionCount_is contractInfo 0 in
  (findings = [] \/ exists p, findings = [p] /\ (p_score p == 10 \/ p_score p == 40)%Q)
  /\ (In {| p_type := "contract_not_found"; p_score := 40 |} findings <-> missing = true)
  /\ (forall other, detectAPINotFound other goplusResult contractInfo = findings).
Proof.
  cbv zeta. unfold detectAPINotFound.
  destruct (_ || _).
  - split; [right; eexists; split; [reflexivity | right; reflexivity] |].
    split; [| reflexivity]. split; [reflexivity | intros _; now left].
  - split; [| split; [| reflexivity]].
    + destruct goplusResult as [g|]; [| now left].
      destruct (gp_checked g); cbn [negb andb].
      * destruct (ageInDays_gt contractInfo 30); [| now left].
        destruct (gp_is_honeypot g), (gp_buy_tax g), (gp_sell_tax g); cbn [app];
          try (now left); right; eexists; (split; [reflexivity | left; reflexivity]).
      * destruct (ageInDays_gt contractInfo 30); [| now left].
        right; eexists; (split; [reflexivity | left; reflexivity]).
    + split; [| discriminate]. intros Hin. exfalso.
      destruct goplusResult as [g|]; [| destruct Hin].
      destruct (gp_checked g), (ageInDays_gt contractInfo 30); cbn [negb andb app] in Hin;
        try destruct (gp_is_honeypot g); try destruct (gp_buy_tax g);
        try destruct (gp_sell_tax g); cbn in Hin;
        repeat (destruct Hin as [Hin | Hin]; try discriminate Hin); exact Hin.
Qed.

(** ** Result cache: writes, reads and clean-up *)

Lemma key_any_case (contractAddress contractAddress' chain chain' scanDepth : string) :
  toLowerCase contractAddress' = toLowerCase contractAddress ->
  toLowerCase chain' = toLowerCase chain ->
  CacheDB.key contractAddress' chain' scanDepth = CacheDB.key contractAddress chain scanDepth.
Proof. intros Ha Hc. unfold CacheDB.key. now rewrite Ha, Hc. Qed.

(** X5: round trip.  A result stored at [now] is returned by every read
    within the hour, under any upper/lower-case spelling of the address and
    of the chain, provided the runtime's [JSON.parse] inverts
    [JSON.stringify] on it; the read leaves the table as it is. *)
Theorem cache_round_trip
    (JSON_parse : string -> option json) (JSON_stringify : json -> string)
    (now later : Z) (db : gmap (string * string * string) Row)
    (contractAddress contractAddress' chain chain' scanDepth : string) (result : json) :
  JSON_parse (JSON_stringify result) = Some result ->
  toLowerCase contractAddress' = toLowerCase contractAddress ->
  toLowerCase chain' = toLowerCase chain ->
  later - now <= 3600 * 1000 ->
  CacheDB.get JSON_parse later
    (CacheDB.set JSON_stringify now db contractAddress chain scanDepth result)
    contractAddress' chain' scanDepth
  = (result, CacheDB.set JSON_stringify now db contractAddress chain scanDepth result).
Proof.
  intros Hrt Ha Hc Hfresh. unfold CacheDB.get, CacheDB.set, CacheDB.maxAge.
  rewrite (key_any_case _ _ _ _ scanDepth Ha Hc).
  rewrite lookup_insert_eq. cbn [row_created_at row_result].
  destruct (Z.ltb_spec (60 * 60 * 1000) (later - now)); [lia |].
  now rewrite Hrt.
Qed.

Lemma cache_round_trip_witness :
  CacheDB.get parseLiteral 3601000
    (CacheDB.set stringifyLiteral 1000 expired_entry
       "0xA0b86991c6218b36c1d19D4a2e9Eb0cE3606eB48" "ethereum" "quick" (JBool false))
    "0xa0b86991c6218b36c1d19d4a2e9eb0ce3606eb48" "Ethereum" "quick"
  = (JBool false,
     CacheDB.set stringifyLiteral 1000 expired_entry
       "0xA0b86991c6218b36c1d19D4a2e9Eb0cE3606eB48" "ethereum" "quick" (JBool false)).
Proof.
  apply cache_round_trip.
  - reflexivity.
  - reflexivity.
  - reflexivity.
  - lia.
Defined.

(** X6: a write is an upsert.  Writing again under the same key (up to the
    case of address and chain) leaves exactly the table that the second
    write alone would have produced: the earlier payload and its timestamp
    are gone, whether or not the earlier entry had expired. *)
Theorem cache_set_overwrites
    (JSON_stringify : json -> string)
    (now now' : Z) (db : gmap (string * string * string) Row)
    (contractAddress contractAddress' chain chain' scanDepth : string)
    (result result' : json) :
  toLowerCase contractAddress' = toLowerCase contractAddress ->
  toLowerCase chain' = toLowerCase chain ->
  CacheDB.set JSON_stringify now'
    (CacheDB.set JSON_stringify now db contractAddress chain scanDepth result)
    contractAddress' chain' scanDepth result'
  = CacheDB.set JSON_stringify now' db contractAddress chain scanDepth result'.
Proof.
  intros Ha Hc. unfold CacheDB.set.
  rewrite (key_any_case _ _ _ _ scanDepth Ha Hc).
  apply insert_insert_eq.
Qed.

Lemma cache_set_overwrites_witness :
  CacheDB.set stringifyLiteral 5000
    (CacheDB.set stringifyLiteral 1000 ∅
       "0xA0b86991c6218b36c1d19D4a2e9Eb0cE3606eB48" "ethereum" "quick" (JBool false))
    "0xa0b86991c6218b36c1d19d4a2e9eb0ce3606eb48" "Ethereum" "quick" (JBool true)
  = CacheDB.set stringifyLiteral 5000 ∅
      "0xA0b86991c6218b36c1d19D4a2e9Eb0cE3606eB48" "ethereum" "quick" (JBool true).
Proof. apply cache_set_overwrites; reflexivity. Defined.

(** X7: keys are independent.  A write or a delete under one key changes
    neither what a read under a different key returns nor what that read
    does to the table; scan depths are distinct keys, compared exactly. *)
Theorem cache_other_keys_untouched
    (JSON_parse : string -> option json) (JSON_stringify : json -> string)
    (now later : Z) (db : gmap (string * string * string) Row)
    (contractAddress contractAddress' chain chain' scanDepth scanDepth' : string)
    (result : json) :
  CacheDB.key contractAddress' chain' scanDepth'
    <> CacheDB.key contractAddress chain scanDepth ->
  let read db := CacheDB.get JSON_parse later db contractAddress' chain' scanDepth' in
  read (CacheDB.set JSON_stringify now db contractAddress chain scanDepth result)
  = (fst (read db),
     CacheDB.set JSON_stringify now (snd (read db)) contractAddress chain scanDepth result)
  /\ read (CacheDB.delete db contractAddress chain scanDepth)
     = (fst (read db), CacheDB.delete (snd (read db)) contractAddress chain scanDepth).
Proof.
  intros Hne. cbv zeta. unfold CacheDB.get, CacheDB.set, CacheDB.delete.
  rewrite lookup_insert_ne by congruence.
  rewrite lookup_delete_ne by congruence.
  destruct (db !! CacheDB.key contractAddress' chain' scanDepth') as [row|];
    [| split; reflexivity].
  destruct (CacheDB.maxAge <? later - row_created_at row).
  - cbn [fst snd]. split; f_equal.
    + apply delete_insert_ne. congruence.
    + apply delete_delete.
  - destruct (JSON_parse (row_result row)); split; reflexivity.
Qed.

Lemma cache_other_keys_untouched_witness :
  fst (CacheDB.get parseLiteral 2000
         (CacheDB.set stringifyLiteral 1500 expired_entry
            "0xA0b86991c6218b36c1d19D4a2e9Eb0cE3606eB48" "ethereum" "deep" (JBool false))
         "0xA0b86991c6218b36c1d19D4a2e9Eb0cE3606eB48" "ethereum" "quick")
  = JBool true.
Proof.
  pose proof (cache_other_keys_untouched parseLiteral stringifyLiteral 1500 2000
                expired_entry
                "0xA0b86991c6218b36c1d19D4a2e9Eb0cE3606eB48"
                "0xA0b86991c6218b36c1d19D4a2e9Eb0cE3606eB48"
                "ethereum" "ethereum" "deep" "quick" (JBool false)) as H.
  cbv zeta in H. destruct H as [H _]; [vm_compute; congruence |].
  rewrite H. reflexivity.
Defined.

Lemma cleanOldEntries_lookup (now : Z) (db : gmap (string * string * string) Row)
    (k : string * string * string) :
  CacheDB.cleanOldEntries now db !! k
  = match db !! k with
    | Some row => if CacheDB.maxAge <? now - row_created_at row then None else Some row
    | None => None
    end.
Proof.
  unfold CacheDB.cleanOldEntries. rewrite map_lookup_filter.
  destruct (db !! k) as [row|]; [| reflexivity].
  cbn [mbind option_bind snd].
  destruct (Z.ltb_spec CacheDB.maxAge (now - row_created_at row)) as [Hold | Hfresh].
  - rewrite option_guard_False; [reflexivity |].
    destruct (Z.ltb_spec (row_created_at row) (now - CacheDB.maxAge)); cbn; [congruence | lia].
  - rewrite option_guard_True; [reflexivity |].
    destruct (Z.ltb_spec (row_created_at row) (now - CacheDB.maxAge)); cbn; [lia | reflexivity].
Qed.

(** X8: the clean-up removes exactly the rows that a read at the same
    instant would treat as expired.  So cleaning never changes what a read
    returns, every row it keeps is at most an hour old, and it removes rows
    only. *)
Theorem cleanOldEntries_agrees_with_get
    (JSON_parse : string -> option json) (now : Z)
    (db : gmap (string * string * string) Row) :
  (forall contractAddress chain scanDepth,
      fst (CacheDB.get JSON_parse now (CacheDB.cleanOldEntries now db)
             contractAddress chain scanDepth)
      = fst (CacheDB.get JSON_parse now db contractAddress chain scanDepth))
  /\ (forall k row,
         CacheDB.cleanOldEntries now db !! k = Some row
         <-> db !! k = Some row /\ now - row_created_at row <= 3600 * 1000).
Proof.
  split.
  - intros contractAddress chain scanDepth. unfold CacheDB.get.
    rewrite cleanOldEntries_lookup.
    destruct (db !! CacheDB.key contractAddress chain scanDepth) as [row|]; [| reflexivity].
    destruct (CacheDB.maxAge <? now - row_created_at row) eqn:E; [reflexivity |].
    rewrite E. now destruct (JSON_parse (row_result row)).
  - intros k row. rewrite cleanOldEntries_lookup. unfold CacheDB.maxAge.
    destruct (db !! k) as [row'|]; [| split; [discriminate | intros [[=] _]]].
    destruct (Z.ltb_spec (60 * 60 * 1000) (now - row_created_at row')).
    + split; [discriminate | intros [[= ->] Hle]; lia].
    + split; [intros [= ->]; split; [reflexivity | lia] | intros [[= ->] _]; reflexivity].
Qed.

(** ** Source pattern scanner: score and report *)

Lemma fold_record_snd {A B} (score : B -> Q) (f : A -> option B) (l : list A)
    (st : list B * Q) :
  (snd (fold_left (fun st x => record score st (f x)) l st)
   == snd st + sumScores score (omap f l))%Q.
Proof.
  revert st. induction l as [|x l IH]; intros st; cbn [fold_left omap list_omap].
  - cbn. ring.
  - rewrite IH. unfold record. change (omap f (x :: l)) with
      (match f x with Some v => v :: omap f l | None => omap f l end).
    destruct (f x) as [v|]; cbn [snd sumScores fold_right]; [| reflexivity].
    fold (sumScores score (omap f l)). ring.
Qed.

Lemma analyzeWith_components (redFlags : list RedFlag) (safeTable : list SafePattern)
    (src : string) (isProxy : bool) :
  src <> "" ->
  let analysis := analyzeWith redFlags safeTable (Some src) isProxy in
  ca_analyzed analysis = true
  /\ ca_vulnerabilities analysis = omap (checkRedFlag src isProxy) redFlags
  /\ ca_safePatterns analysis = omap (checkSafePattern src) safeTable
  /\ (ca_score analysis
      == sumScores f_score (omap (checkRedFlag src isProxy) redFlags)
         + sumScores sm_score (omap (checkSafePattern src) safeTable))%Q.
Proof.
  intros Hne. cbv zeta. unfold analyzeWith.
  destruct (String.eqb_spec src ""); [contradiction |].
  pose proof (fold_record_fst f_score (checkRedFlag src isProxy) redFlags ([], 0%Q)) as Hv.
  pose proof (fold_record_snd f_score (checkRedFlag src isProxy) redFlags ([], 0%Q)) as Hs.
  destruct (fold_left _ redFlags _) as [vs sc]. cbn [fst snd app] in Hv, Hs.
  pose proof (fold_record_fst sm_score (checkSafePattern src) safeTable ([], sc)) as Hv'.
  pose proof (fold_record_snd sm_score (checkSafePattern src) safeTable ([], sc)) as Hs'.
  destruct (fold_left _ safeTable _) as [sf sc']. cbn [fst snd app] in Hv', Hs'.
  cbn [ca_analyzed ca_vulnerabilities ca_safePatterns ca_score].
  repeat split; try assumption.
  rewrite Hs', Hs. ring.
Qed.

Lemma checkSafePattern_type (src : string) (pattern : SafePattern) (m : SafeMatch) :
  checkSafePattern src pattern = Some m ->
  sm_type m = sp_key pattern /\ sm_score m = sp_score pattern.
Proof.
  unfold checkSafePattern. destruct (anyMatch _ _); [| discriminate].
  intros [= <-]. split; reflexivity.
Qed.

Lemma omap_sublist_keys {A B} (f : A -> option B) (key : A -> string) (type : B -> string)
    (l : list A) :
  (forall x v, f x = Some v -> type v = key x) ->
  sublist (map type (omap f l)) (map key l).
Proof.
  intros Hk. induction l as [|x l IH]; [constructor |].
  change (omap f (x :: l)) with
    (match f x with Some v => v :: omap f l | None => omap f l end).
  destruct (f x) as [v|] eqn:E; cbn [map].
  - rewrite (Hk x v E). now apply sublist_skip.
  - now apply sublist_cons.
Qed.

(** X9: every entry of the pattern tables is reported at most once and in
    the order of the tables: the types of the reported vulnerabilities form a
    sub-sequence of the keys of [RED_FLAG_PATTERNS], and the types of the
    reported safe patterns a sub-sequence of the keys of [SAFE_PATTERNS]. *)
Theorem analyzeSourceCode_reports_in_table_order
    (sourceCode : option string) (isProxy : bool) :
  let analysis := analyzeSourceCode sourceCode isProxy in
  sublist (map f_type (ca_vulnerabilities analysis)) (map rf_key RED_FLAG_PATTERNS)
  /\ sublist (map sm_type (ca_safePatterns analysis)) (map sp_key SAFE_PATTERNS)
  /\ NoDup (map f_type (ca_vulnerabilities analysis))
  /\ NoDup (map sm_type (ca_safePatterns analysis)).
Proof.
  cbv zeta.
  assert (H : sublist (map f_type (ca_vulnerabilities (analyzeSourceCode sourceCode isProxy)))
                (map rf_key RED_FLAG_PATTERNS)
              /\ sublist (map sm_type (ca_safePatterns (analyzeSourceCode sourceCode isProxy)))
                   (map sp_key SAFE_PATTERNS)).
  { unfold analyzeSourceCode.
    destruct sourceCode as [src|]; [| split; apply sublist_nil_l].
    destruct (String.eqb_spec src "") as [-> | Hne]; [split; apply sublist_nil_l |].
    destruct (analyzeWith_components RED_FLAG_PATTERNS SAFE_PATTERNS src isProxy Hne)
      as (_ & Hv & Hp & _).
    rewrite Hv, Hp. split; apply omap_sublist_keys.
    - apply checkRedFlag_type.
    - intros x v E. exact (proj1 (checkSafePattern_type src x v E)). }
  destruct H as [Hv Hp]. repeat split; try assumption.
  - refine (sublist_NoDup _ _ _ Hv). apply (bool_decide_unpack _). vm_compute. reflexivity.
  - refine (sublist_NoDup _ _ _ Hp). apply (bool_decide_unpack _). vm_compute. reflexivity.
Qed.

Lemma checkRedFlag_entry (src : string) (isProxy : bool) (pattern : RedFlag) (v : Finding) :
  checkRedFlag src isProxy pattern = Some v ->
  f_type v = rf_key pattern
  /\ (if String.eqb (rf_key pattern) "delegatecall" && isProxy
      then f_severity v = low /\ f_score v = 2%Q
      else f_severity v = rf_severity pattern /\ f_score v = rf_score pattern).
Proof.
  unfold checkRedFlag. intros H.
  destruct (anyMatch (rf_patterns pattern) src),
    (hasRestrictedModifier (rf_modifiers pattern) src),
    (String.eqb (rf_key pattern) "hiddenMint"),
    (String.eqb (rf_key pattern) "delegatecall"), isProxy;
    cbn in H; inversion H; repeat split; reflexivity.
Qed.

(** X10: what a reported vulnerability carries.  Every vulnerability that
    [analyzeSourceCode] reports stems from an entry of [RED_FLAG_PATTERNS]
    and has the severity and score of that entry, except [delegatecall] in a
    proxy contract, which is reported with severity low and score 2 instead
    of critical and 15. *)
Theorem analyzeSourceCode_reported_entry
    (sourceCode : option string) (isProxy : bool) (v : Finding) :
  In v (ca_vulnerabilities (analyzeSourceCode sourceCode isProxy)) ->
  exists pattern,
    In pattern RED_FLAG_PATTERNS
    /\ f_type v = rf_key pattern
    /\ (if String.eqb (f_type v) "delegatecall" && isProxy
        then f_severity v = low /\ f_score v = 2%Q
        else f_severity v = rf_severity pattern /\ f_score v = rf_score pattern).
Proof.
  unfold analyzeSourceCode. intros Hin.
  destruct sourceCode as [src|]; [| destruct Hin].
  destruct (String.eqb_spec src "") as [-> | Hne]; [destruct Hin |].
  rewrite analyzeWith_vulnerabilities in Hin by exact Hne.
  apply list_elem_of_In, list_elem_of_omap in Hin. destruct Hin as (p & Hp & Hv).
  exists p. split; [now apply list_elem_of_In |].
  destruct (checkRedFlag_entry src isProxy p v Hv) as [Hty Hrest].
  split; [exact Hty |]. now rewrite Hty.
Qed.

Lemma analyzeSourceCode_reported_entry_witness :
  exists v,
    In v (ca_vulnerabilities (analyzeSourceCode (Some delegatecall_in_proxy_source) true))
    /\ f_type v = "delegatecall" /\ f_severity v = low /\ f_score v = 2%Q.
Proof.
  exists {| f_type := "delegatecall"; f_severity := low; f_score := 2 |}.
  assert (Hin : In {| f_type := "delegatecall"; f_severity := low; f_score := 2 |}
                  (ca_vulnerabilities
                     (analyzeSourceCode (Some delegatecall_in_proxy_source) true))).
  { vm_compute. left. reflexivity. }
  split; [exact Hin |].
  destruct (analyzeSourceCode_reported_entry _ _ _ Hin) as (p & _ & _ & H).
  cbn in H. split; [reflexivity | exact H].
Defined.

Lemma sumScores_omap_between {A B} (score : B -> Q) (f : A -> option B) (lo hi : A -> Q)
    (l : list A) :
  Forall (fun x => (lo x <= 0 <= hi x)%Q
                   /\ forall v, f x = Some v -> (lo x <= score v <= hi x)%Q) l ->
  (sumScores lo l <= sumScores score (omap f l) <= sumScores hi l)%Q.
Proof.
  induction 1 as [|x l [H0 Hx] _ IH]; [split; apply Qle_refl |].
  change (omap f (x :: l)) with
    (match f x with Some v => v :: omap f l | None => omap f l end).
  destruct (f x) as [v|]; cbn [sumScores fold_right].
  - specialize (Hx v eq_refl). fold (sumScores lo l) (sumScores hi l)
      (sumScores score (omap f l)). lra.
  - fold (sumScores lo l) (sumScores hi l). fold (sumScores score (omap f l)) in IH. lra.
Qed.

(** X11: the score of the source scan.  The score of [analyzeSourceCode] is
    the sum of the scores of the vulnerabilities and of the safe patterns it
    reports, so the two lists account for the whole score; it lies between
    -30 (all four safe patterns, no red flag) and 145 (all thirteen red
    flags, no safe pattern); and the source counts as analyzed exactly when
    it is a non-empty text. *)
Theorem analyzeSourceCode_score (sourceCode : option string) (isProxy : bool) :
  let analysis := analyzeSourceCode sourceCode isProxy in
  (ca_score analysis
   == sumScores f_score (ca_vulnerabilities analysis)
      + sumScores sm_score (ca_safePatterns analysis))%Q
  /\ (-30 <= ca_score analysis <= 145)%Q
  /\ ca_analyzed analysis = truthy_string sourceCode.
Proof.
  cbv zeta. unfold analyzeSourceCode.
  destruct sourceCode as [src|];
    [| split; [reflexivity | split; [split; discriminate | reflexivity]]].
  destruct (String.eqb_spec src "") as [-> | Hne];
    [split; [reflexivity | split; [split; discriminate | reflexivity]] |].
  destruct (analyzeWith_components RED_FLAG_PATTERNS SAFE_PATTERNS src isProxy Hne)
    as (Ha & Hv & Hp & Hs).
  split; [rewrite Hv, Hp; exact Hs |].
  split; [| rewrite Ha; cbn [truthy_string]; now destruct (String.eqb_spec src "")].
  rewrite Hs.
  assert (Hred : (sumScores (fun _ => 0) RED_FLAG_PATTERNS
                  <= sumScores f_score (omap (checkRedFlag src isProxy) RED_FLAG_PATTERNS)
                  <= sumScores rf_score RED_FLAG_PATTERNS)%Q).
  { apply sumScores_omap_between.
    assert (Htable : Forall (fun p => (2 <= rf_score p)%Q) RED_FLAG_PATTERNS)
      by (repeat constructor; discriminate).
    eapply Forall_impl; [exact Htable |].
    intros p Hp'. cbv beta in Hp'. split; [lra |].
    intros v Hv'. destruct (checkRedFlag_entry src isProxy p v Hv') as [_ H].
    destruct (_ && _); destruct H as [_ ->]; lra. }
  assert (Hsafe : (sumScores sp_score SAFE_PATTERNS
                   <= sumScores sm_score (omap (checkSafePattern src) SAFE_PATTERNS)
                   <= sumScores (fun _ => 0) SAFE_PATTERNS)%Q).
  { apply sumScores_omap_between.
    assert (Htable : Forall (fun p => (sp_score p <= 0)%Q) SAFE_PATTERNS)
      by (repeat constructor; discriminate).
    eapply Forall_impl; [exact Htable |].
    intros p Hp'. cbv beta in Hp'. split; [lra |].
    intros v Hv'. destruct (checkSafePattern_type src p v Hv') as [_ ->]. lra. }
  assert (E1 : (sumScores (fun _ : RedFlag => 0) RED_FLAG_PATTERNS == 0)%Q) by reflexivity.
  assert (E2 : (sumScores rf_score RED_FLAG_PATTERNS == 145)%Q) by reflexivity.
  assert (E3 : (sumScores sp_score SAFE_PATTERNS == -30)%Q) by reflexivity.
  assert (E4 : (sumScores (fun _ : SafePattern => 0) SAFE_PATTERNS == 0)%Q) by reflexivity.
  lra.
Qed.

(** ** Liquidity analysis: balances, holders and lockers *)

Lemma JSMap_sum_set (m : JSMap.t) (k : string) (v : Z) :
  sumBalances (JSMap.set m k v) = sumBalances m - default 0 (JSMap.get m k) + v.
Proof.
  induction m as [|[k' v'] m IH]; cbn [JSMap.set JSMap.get sumBalances fold_right snd].
  - cbn. lia.
  - destruct (String.eqb k' k); cbn [sumBalances fold_right snd default from_option id].
    + fold (sumBalances m). lia.
    + fold (sumBalances m) (sumBalances (JSMap.set m k v)). rewrite IH. lia.
Qed.

Lemma JSMap_keys_set (m : JSMap.t) (k : string) (v : Z) :
  map fst (JSMap.set m k v)
  = if existsb (String.eqb k) (map fst m) then map fst m else (map fst m ++ [k])%list.
Proof.
  induction m as [|[k' v'] m IH]; cbn [JSMap.set map fst existsb app]; [reflexivity |].
  rewrite (String.eqb_sym k k').
  destruct (String.eqb k' k); cbn [map fst orb]; [reflexivity |].
  rewrite IH. now destruct (existsb _ _).
Qed.

Lemma JSMap_set_keys_ok (m : JSMap.t) (k : string) (v : Z) :
  toLowerCase k = k ->
  NoDup (map fst m) /\ Forall (fun a => toLowerCase a = a) (map fst m) ->
  NoDup (map fst (JSMap.set m k v))
  /\ Forall (fun a => toLowerCase a = a) (map fst (JSMap.set m k v)).
Proof.
  intros Hk [Hnd Hlow]. rewrite JSMap_keys_set.
  destruct (existsb _ _) eqn:E; [now split |].
  split.
  - apply NoDup_app. split; [exact Hnd |]. split; [| apply NoDup_singleton].
    intros x Hx Hx'. apply list_elem_of_singleton in Hx'. subst x.
    assert (Ht : existsb (String.eqb k) (map fst m) = true).
    { apply existsb_exists. exists k. split; [now apply list_elem_of_In | apply String.eqb_refl]. }
    congruence.
  - apply Forall_app. split; [exact Hlow |]. now repeat constructor.
Qed.

Lemma toLowerCase_char_idem (c : ascii) :
  toLowerCase_char (toLowerCase_char c) = toLowerCase_char c.
Proof.
  destruct c as [[] [] [] [] [] [] [] []]; reflexivity.
Qed.

Lemma toLowerCase_idem (s : string) : toLowerCase (toLowerCase s) = toLowerCase s.
Proof.
  induction s as [|c s IH]; [reflexivity |].
  cbn [toLowerCase]. now rewrite toLowerCase_char_idem, IH.
Qed.

Lemma applyTransfer_sum (balances : JSMap.t) (transfer : Transfer) :
  sumBalances (applyTransfer balances transfer)
  = sumBalances balances
    + (if String.eqb (toLowerCase (tr_from transfer)) zeroAddress
       then tr_value transfer else 0).
Proof.
  unfold applyTransfer.
  destruct (String.eqb (toLowerCase (tr_from transfer)) zeroAddress); cbn [negb].
  - rewrite JSMap_sum_set. lia.
  - rewrite !JSMap_sum_set. lia.
Qed.

Lemma applyTransfer_keys_ok (balances : JSMap.t) (transfer : Transfer) :
  NoDup (map fst balances) /\ Forall (fun a => toLowerCase a = a) (map fst balances) ->
  NoDup (map fst (applyTransfer balances transfer))
  /\ Forall (fun a => toLowerCase a = a) (map fst (applyTransfer balances transfer)).
Proof.
  intros H. unfold applyTransfer.
  apply JSMap_set_keys_ok; [apply toLowerCase_idem |].
  destruct (negb _); [| exact H].
  apply JSMap_set_keys_ok; [apply toLowerCase_idem | exact H].
Qed.

Lemma lpBalances_from (lpTransfers : list Transfer) (balances : JSMap.t) :
  NoDup (map fst balances) /\ Forall (fun a => toLowerCase a = a) (map fst balances) ->
  let result := fold_left applyTransfer lpTransfers balances in
  sumBalances result = sumBalances balances + mintedValue lpTransfers
  /\ NoDup (map fst result)
  /\ Forall (fun a => toLowerCase a = a) (map fst result).
Proof.
  revert balances. induction lpTransfers as [|t l IH]; intros balances H; cbv zeta.
  - cbn [fold_left mintedValue fold_right]. split; [lia | exact H].
  - cbn [fold_left mintedValue fold_right].
    destruct (IH (applyTransfer balances t) (applyTransfer_keys_ok _ t H)) as (Hs & Hk).
    split; [| exact Hk]. rewrite Hs, applyTransfer_sum.
    fold (mintedValue l). lia.
Qed.

(** X12: the balance bookkeeping of [analyzeLiquidityPair] conserves
    tokens.  After replaying any list of transfers, the balances add up to
    the amount minted (sent from the zero address), and the map has one entry
    per address, spelled in lower case. *)
Theorem lpBalances_conservation (lpTransfers : list Transfer) :
  let balances := lpBalances lpTransfers in
  sumBalances balances = mintedValue lpTransfers
  /\ NoDup (map fst balances)
  /\ Forall (fun address => toLowerCase address = address) (map fst balances).
Proof.
  cbv zeta. unfold lpBalances.
  destruct (lpBalances_from lpTransfers []) as (Hs & Hk).
  - split; constructor.
  - split; [| exact Hk]. rewrite Hs. reflexivity.
Qed.

Example lp_moved_around_balances :
  lpBalances (pr_lpTransfers lp_moved_around)
  = [ ("0x6666666666666666666666666666666666666666", 300);
      ("0x8888888888888888888888888888888888888888", 500);
      ("0x000000000000000000000000000000000000dead", 200) ].
Proof. vm_compute. reflexivity. Qed.

Lemma insertHolder_sorted (h : LpHolder) (l : list LpHolder) :
  StronglySorted (fun a b => lh_balance b <= lh_balance a) l ->
  StronglySorted (fun a b => lh_balance b <= lh_balance a) (insertHolder h l).
Proof.
  induction 1 as [|h' l Hs IH Hall]; cbn [insertHolder].
  - repeat constructor.
  - destruct (Z.leb_spec (lh_balance h') (lh_balance h)) as [Hle | Hgt].
    + constructor; [now constructor |].
      constructor; [exact Hle |].
      eapply Forall_impl; [exact Hall |]. intros x Hx. cbv beta in *. lia.
    + constructor; [exact IH |].
      apply Forall_insertHolder; [lia | exact Hall].
Qed.

Lemma sortHolders_sorted (l : list LpHolder) :
  StronglySorted (fun a b => lh_balance b <= lh_balance a) (sortHolders l).
Proof.
  unfold sortHolders. induction l as [|h l IH]; cbn [fold_right]; [constructor |].
  now apply insertHolder_sorted.
Qed.

Lemma insertHolder_perm (h : LpHolder) (l : list LpHolder) : insertHolder h l ≡ₚ h :: l.
Proof.
  induction l as [|h' l IH]; cbn [insertHolder]; [reflexivity |].
  destruct (lh_balance h' <=? lh_balance h); [reflexivity |].
  rewrite IH. apply Permutation_swap.
Qed.

Lemma sortHolders_perm (l : list LpHolder) : sortHolders l ≡ₚ l.
Proof.
  unfold sortHolders. induction l as [|h l IH]; cbn [fold_right]; [reflexivity |].
  now rewrite insertHolder_perm, IH.
Qed.

Lemma classifyHolders_zero_supply (analysis : PairAnalysis) (entries : JSMap.t) :
  fst (classifyHolders 0 analysis entries) = analysis.
Proof.
  induction entries as [|[address balance] entries IH]; [reflexivity |].
  cbn [classifyHolders classifyHolder].
  destruct (balance <=? 0); [exact IH | reflexivity].
Qed.

(** X13: the holders that [analyzeLiquidityPair] returns are always in
    order of decreasing balance, and the sort neither drops nor duplicates a
    holder: the list is a permutation of the entries the holder loop kept. *)
Theorem analyzeLiquidityPair_holders_sorted
    (lpTransfers : list Transfer) (totalSupply : option Z) :
  let holders := pa_holders (analyzeLiquidityPair lpTransfers totalSupply) in
  StronglySorted (fun a b => lh_balance b <= lh_balance a) holders
  /\ match totalSupply with
     | Some supply =>
         holders
         ≡ₚ pa_holders (fst (classifyHolders supply emptyPairAnalysis
                               (lpBalances lpTransfers)))
     | None => holders = []
     end.
Proof.
  cbv zeta. unfold analyzeLiquidityPair.
  destruct totalSupply as [supply|]; [| split; [constructor | reflexivity]].
  destruct (Z.eq_dec supply 0) as [-> | Hne].
  - pose proof (classifyHolders_zero_supply emptyPairAnalysis (lpBalances lpTransfers)) as H.
    destruct (classifyHolders 0 emptyPairAnalysis _) as [analysis completed].
    cbn [fst] in H. subst analysis.
    destruct completed; cbn [pa_holders emptyPairAnalysis]; split; (constructor || reflexivity).
  - destruct (classifyHolders_complete supply (lpBalances lpTransfers) emptyPairAnalysis Hne)
      as [Hdone _].
    destruct (classifyHolders supply emptyPairAnalysis _) as [analysis completed].
    cbn [fst snd] in *. subst completed. cbn [pa_holders].
    split; [apply sortHolders_sorted | apply sortHolders_perm].
Qed.

(** X14: a pair whose total supply cannot be read, or is zero, yields the
    empty analysis: no holders are listed and the pair counts as neither
    locked nor burned, whatever the transfers say. *)
Theorem analyzeLiquidityPair_without_supply
    (lpTransfers : list Transfer) (totalSupply : option Z) :
  totalSupply = None \/ totalSupply = Some 0 ->
  analyzeLiquidityPair lpTransfers totalSupply = emptyPairAnalysis.
Proof.
  intros [-> | ->]; [reflexivity |]. unfold analyzeLiquidityPair.
  pose proof (classifyHolders_zero_supply emptyPairAnalysis (lpBalances lpTransfers)) as H.
  destruct (classifyHolders 0 emptyPairAnalysis _) as [analysis completed].
  cbn [fst] in H. subst analysis. now destruct completed.
Qed.

Lemma analyzeLiquidityPair_without_supply_witness :
  analyzeLiquidityPair (pr_lpTransfers lp_in_unicrypt) (Some 0) = emptyPairAnalysis
  /\ pa_locked (analyzeLiquidityPair (pr_lpTransfers lp_in_unicrypt)
                  (pr_totalSupply lp_in_unicrypt)) = true.
Proof.
  split; [| vm_compute; reflexivity].
  apply analyzeLiquidityPair_without_supply. now right.
Defined.

Lemma classifyHolder_addresses (P : string -> Prop) (totalSupply : Z)
    (analysis analysis' : PairAnalysis) (entry : string * Z) :
  P (fst entry) ->
  Forall (fun h => P (lh_address h)) (pa_holders analysis) ->
  classifyHolder totalSupply analysis entry = Some analysis' ->
  Forall (fun h => P (lh_address h)) (pa_holders analysis').
Proof.
  intros Hp Hall. unfold classifyHolder. destruct entry as [address balance].
  destruct (balance <=? 0); [now intros [= <-] |].
  destruct (totalSupply =? 0); [discriminate |].
  destruct (ltb _ 1); [now intros [= <-] |].
  intros [= <-]. cbn [pa_holders]. apply Forall_app. split; [exact Hall |].
  repeat constructor. exact Hp.
Qed.

Lemma classifyHolders_addresses (P : string -> Prop) (totalSupply : Z)
    (entries : JSMap.t) (analysis : PairAnalysis) :
  Forall P (map fst entries) ->
  Forall (fun h => P (lh_address h)) (pa_holders analysis) ->
  Forall (fun h => P (lh_address h))
    (pa_holders (fst (classifyHolders totalSupply analysis entries))).
Proof.
  revert analysis. induction entries as [|entry entries IH]; intros analysis He Ha;
    cbn [classifyHolders]; [exact Ha |].
  apply Forall_cons in He. destruct He as [He1 He2].
  destruct (classifyHolder totalSupply analysis entry) as [analysis'|] eqn:E; [| exact Ha].
  apply IH; [exact He2 |]. eapply classifyHolder_addresses; eassumption.
Qed.

Lemma analyzeLiquidityPair_addresses (lpTransfers : list Transfer) (totalSupply : option Z) :
  Forall (fun h => toLowerCase (lh_address h) = lh_address h)
    (pa_holders (analyzeLiquidityPair lpTransfers totalSupply)).
Proof.
  unfold analyzeLiquidityPair. destruct totalSupply as [supply|]; [| constructor].
  assert (Hlow : Forall (fun a => toLowerCase a = a) (map fst (lpBalances lpTransfers))).
  { apply (lpBalances_from lpTransfers []). split; constructor. }
  pose proof (classifyHolders_addresses (fun a => toLowerCase a = a) supply
                (lpBalances lpTransfers) emptyPairAnalysis Hlow ltac:(constructor)) as H.
  destruct (classifyHolders supply emptyPairAnalysis _) as [analysis completed].
  cbn [fst] in H. destruct completed; [| exact H].
  cbn [pa_holders]. now apply Forall_sortHolders.
Qed.

Lemma liquidityLoop_addresses (P : string -> Prop) (pairs : list PairResponse)
    (analysis : LiquidityAnalysis) :
  (forall pair, Forall (fun h => P (lh_address h))
                  (pa_holders (analyzeLiquidityPair (pr_lpTransfers pair)
                                 (pr_totalSupply pair)))) ->
  Forall (fun h => P (lh_address h)) (la_lpHolders analysis) ->
  Forall (fun h => P (lh_address h)) (la_lpHolders (liquidityLoop pairs analysis)).
Proof.
  intros Hpair. unfold liquidityLoop. revert analysis.
  induction pairs as [|pair pairs IH]; intros analysis H; cbn [fold_left]; [exact H |].
  apply IH. cbn [la_lpHolders]. apply Forall_app. split; [exact H | apply Hpair].
Qed.

Lemma lowerCase_locker (address : string) :
  toLowerCase address = address ->
  Array_includes KNOWN_LOCKERS address = true
  <-> address = unicryptLocker \/ address = burnAddress.
Proof.
  intros Hlow. unfold Array_includes, KNOWN_LOCKERS. cbn [existsb].
  repeat match goal with
         | |- context [String.eqb address ?x] => destruct (String.eqb_spec address x)
         end; subst; cbn [orb];
    try (vm_compute in Hlow; discriminate Hlow);
    (split; [intros H; try discriminate H; auto | intros [H | H]; auto]).
Qed.

(** X15: which lockers are recognised.  Every holder that [analyzeLiquidity]
    lists has a lower-case address, and the locker test compares it exactly
    with the entries of [KNOWN_LOCKERS]; so a holder is marked as a locker
    exactly when it is the Unicrypt locker or the burn address.  The two
    PinkLock entries, spelled in mixed case, never match. *)
Theorem recognised_lockers (pairs : list PairResponse) (creator : option string)
    (h : LpHolder) :
  In h (la_lpHolders (analyzeLiquidity pairs creator)) ->
  toLowerCase (lh_address h) = lh_address h
  /\ (lh_isLocker h = true
      <-> lh_address h = unicryptLocker \/ lh_address h = burnAddress).
Proof.
  intros Hin.
  assert (Hlow : Forall (fun h => toLowerCase (lh_address h) = lh_address h)
                   (la_lpHolders (analyzeLiquidity pairs creator))).
  { destruct pairs as [|pair pairs]; [constructor |].
    destruct (analyzeLiquidity_unfold (pair :: pairs) creator ltac:(discriminate))
      as (_ & _ & -> & _).
    apply (liquidityLoop_addresses (fun a => toLowerCase a = a)); [| constructor].
    intros p. apply analyzeLiquidityPair_addresses. }
  destruct (analyzeLiquidity_flags pairs creator) as (Hall & _ & _).
  pose proof (proj1 (Stdlib.Lists.List.Forall_forall _ _) Hlow h Hin) as Hl.
  pose proof (proj1 (Stdlib.Lists.List.Forall_forall _ _) Hall h Hin) as [_ [_ Hk]].
  cbv beta in Hl. split; [exact Hl |].
  rewrite Hk. now apply lowerCase_locker.
Qed.

Lemma recognised_lockers_witness :
  In "0x407993575c91ce7643a4d4cCACc9A98c36eE1BBE" KNOWN_LOCKERS
  /\ exists h,
       In h (la_lpHolders (analyzeLiquidity [lp_in_pinklock] None))
       /\ lh_address h = "0x407993575c91ce7643a4d4ccacc9a98c36ee1bbe"
       /\ lh_isLocker h <> true.
Proof.
  split; [vm_compute; tauto |].
  assert (Hin : In {| lh_address := "0x407993575c91ce7643a4d4ccacc9a98c36ee1bbe";
                      lh_balance := 1000000; lh_percentage := lpPercentage 1000000 1000000;
                      lh_isLocker := false; lh_isBurned := false |}
                  (la_lpHolders (analyzeLiquidity [lp_in_pinklock] None))).
  { vm_compute. left. reflexivity. }
  eexists. split; [exact Hin |]. split; [reflexivity |].
  intros Hc. apply (recognised_lockers [lp_in_pinklock] None _ Hin) in Hc.
  destruct Hc as [Hc | Hc]; vm_compute in Hc; discriminate Hc.
Defined.

(** ** Fallback scoring and the runs of the agent *)

Lemma calculateRPCOnlyRiskScore_closed (contractInfo : ContractInfo)
    (goplusData : option GoPlusResult) (bytecodeFindings : list BytecodeFinding) :
  fr_score (calculateRPCOnlyRiskScore contractInfo goplusData bytecodeFindings)
  = Z.min (10 + goplusPenalty goplusData) 100.
Proof.
  unfold calculateRPCOnlyRiskScore, goplusPenalty. cbn [fr_score]. f_equal.
  destruct goplusData as [g|].
  - rewrite !flag_score, bytecode_loop_score. cbn [fst flag]. lia.
  - rewrite bytecode_loop_score. reflexivity.
Qed.

(** X16: in fallback mode the record is determined by the GoPlus answer
    alone: the score is 10 (unverified source) plus the GoPlus penalties
    (honeypot 40, hidden owner 15, a tax above 10% 15, cannot sell all 25),
    capped at 100; the level is read off that score and the confidence is
    0.7.  The bytecode findings, the contract info and every other analyzer
    and oracle add nothing. *)
Theorem analyzeContract_fallback_record
    (scan_depth : ScanDepth) (r : Responses) (contractInfo : ContractInfo)
    (record : RiskRecord) :
  resolve r = Some (contractInfo, true) ->
  analyzeContract scan_depth r = Some record ->
  let score :=
    Z.min (10 + goplusPenalty (fst (default (None, noRisk) (r_goplus r)))) 100 in
  record = {| risk_score := score; risk_level := getRiskLevel score;
              confidence := 7 # 10 |}.
Proof.
  intros Hres. unfold analyzeContract. rewrite Hres. cbn [mbind option_bind].
  destruct (analyzeCode r contractInfo true) as [[[codeAnalysis ci'] findings]|];
    [| discriminate].
  cbv beta iota delta [mbind option_bind].
  rewrite !calculateRPCOnlyRiskScore_closed. now intros [= <-].
Qed.

Lemma analyzeContract_fallback_record_witness :
  analyzeContract deep run_in_fallback
  = Some {| risk_score := 100; risk_level := level_critical; confidence := 7 # 10 |}.
Proof.
  destruct (analyzeContract deep run_in_fallback) as [record|] eqn:E;
    [| vm_compute in E; discriminate].
  rewrite (analyzeContract_fallback_record deep run_in_fallback _ record eq_refl E).
  reflexivity.
Defined.

(** X17: a quick scan never looks at the answers that only a deep scan asks
    for: the liquidity pairs, the creator history and the two holder
    analyses can be replaced by anything without changing the record. *)
Theorem analyzeContract_quick_ignores_deep_answers
    (r : Responses) (pairs : list PairResponse)
    (creatorHistory : option CreatorHistoryAnalysis)
    (holderConcentration creatorHolding : option RiskContribution) :
  analyzeContract quick
    (withDeepAnswers pairs creatorHistory holderConcentration creatorHolding r)
  = analyzeContract quick r.
Proof.
  unfold analyzeContract.
  change (resolve (withDeepAnswers pairs creatorHistory holderConcentration creatorHolding r))
    with (resolve r).
  destruct (resolve r) as [[contractInfo usingFallback]|]; [| reflexivity].
  cbn [mbind option_bind].
  change (analyzeCode (withDeepAnswers pairs creatorHistory holderConcentration
                         creatorHolding r) contractInfo usingFallback)
    with (analyzeCode r contractInfo usingFallback).
  destruct (analyzeCode r contractInfo usingFallback) as [[[codeAnalysis ci'] findings]|];
    [| reflexivity].
  cbn [mbind option_bind]. unfold holderChecks. cbn [isDeep andb].
  rewrite !andb_false_r. reflexivity.
Qed.

(** X18: when a run fails.  [analyzeContract] returns no record exactly when
    the explorer and the RPC analysis both fail, or when the run is in
    fallback mode without verified source and the bytecode cannot be fetched.
    The failure of any other analyzer or oracle is absorbed. *)
Theorem analyzeContract_failure (scan_depth : ScanDepth) (r : Responses) :
  analyzeContract scan_depth r = None
  <-> etherscan_getContractInfo r = None
      /\ (rpc_analyzeContractViaRPC r = None
          \/ exists contractInfo,
               resolve r = Some (contractInfo, true)
               /\ ci_verified contractInfo
                  && truthy_string (ci_sourceCode contractInfo) = false
               /\ provider_getCode r = None).
Proof.
  unfold analyzeContract. split.
  - intros H. destruct (resolve r) as [[contractInfo usingFallback]|] eqn:Hres.
    + cbn [mbind option_bind] in H.
      destruct (analyzeCode r contractInfo usingFallback)
        as [[[codeAnalysis ci'] findings]|] eqn:Hcode; [discriminate H |].
      unfold analyzeCode in Hcode.
      destruct (ci_verified contractInfo && truthy_string (ci_sourceCode contractInfo))
        eqn:Hv; [discriminate |].
      destruct usingFallback; [| discriminate].
      destruct (provider_getCode r) eqn:Hget; [discriminate |].
      unfold resolve in Hres.
      destruct (etherscan_getContractInfo r); [discriminate |].
      split; [reflexivity |]. right. exists contractInfo. unfold resolve.
      repeat split; assumption.
    + unfold resolve in Hres.
      destruct (etherscan_getContractInfo r); [discriminate |].
      split; [reflexivity |]. left.
      destruct (rpc_analyzeContractViaRPC r); [| reflexivity].
      destruct (sourcify_getSourceCode r) as [sd|]; [destruct (sd_verified sd) |];
        discriminate.
  - intros [He [Hrpc | (contractInfo & Hres & Hv & Hget)]].
    + unfold resolve. rewrite He, Hrpc.
      destruct (sourcify_getSourceCode r) as [sd|]; [destruct (sd_verified sd) |];
        reflexivity.
    + rewrite Hres. cbn [mbind option_bind]. unfold analyzeCode.
      rewrite Hv, Hget. reflexivity.
Qed.

Example run_without_sources_fails : analyzeContract deep run_without_sources = None.
Proof. reflexivity. Qed.

(** X19: outside fallback mode a run always produces a record: no failure
    of an analyzer or oracle stops it.  The level of the record is read off
    its score, and its confidence is 0.55 whatever the analyzers and oracles
    answered, because the agent hands only the code and ownership analyses
    to [calculateConfidence]. *)
Theorem analyzeContract_full_path_record
    (scan_depth : ScanDepth) (r : Responses) (contractInfo : ContractInfo) :
  resolve r = Some (contractInfo, false) ->
  exists record,
    analyzeContract scan_depth r = Some record
    /\ risk_level record = getRiskLevel (risk_score record)
    /\ (confidence record == 55 # 100)%Q.
Proof.
  intros Hres. unfold analyzeContract. rewrite Hres. cbn [mbind option_bind].
  unfold analyzeCode.
  destruct (ci_verified contractInfo && truthy_string (ci_sourceCode contractInfo));
    cbn [mbind option_bind]; eexists; (split; [reflexivity |]);
    (split; [reflexivity |]); reflexivity.
Qed.

Lemma analyzeContract_full_path_record_witness :
  exists record,
    analyzeContract deep run_with_explorer = Some record
    /\ risk_level record = getRiskLevel (risk_score record)
    /\ (confidence record == 55 # 100)%Q.
Proof.
  exact (analyzeContract_full_path_record deep run_with_explorer _ eq_refl).
Defined.

(** ** Rate limiter *)

Lemma rateLimiter_cleanup_lookup (now : Z) (requestCounts : gmap string RateLimitData)
    (k : string) :
  filter (fun entry => negb (WINDOW_MS <? now - rl_windowStart (snd entry)) = true)
    requestCounts !! k
  = match requestCounts !! k with
    | Some data => if WINDOW_MS <? now - rl_windowStart data then None else Some data
    | None => None
    end.
Proof.
  rewrite map_lookup_filter.
  destruct (requestCounts !! k) as [data|]; [| reflexivity].
  cbn [mbind option_bind snd].
  destruct (WINDOW_MS <? now - rl_windowStart data); cbn [negb].
  - now rewrite option_guard_False.
  - now rewrite option_guard_True.
Qed.

(** The entry of the client after its own request. *)
Lemma rateLimiter_own (now : Z) (ip : string) (requestCounts : gmap string RateLimitData) :
  let live :=
    match requestCounts !! ip with
    | Some data => if WINDOW_MS <? now - rl_windowStart data then None else Some data
    | None => None
    end in
  let data := default {| rl_count := 0; rl_windowStart := now |} live in
  snd (rateLimiter now ip requestCounts) !! ip
  = Some {| rl_count := rl_count data + 1; rl_windowStart := rl_windowStart data |}
  /\ isPassedOn (fst (rateLimiter now ip requestCounts)) = (rl_count data + 1 <=? MAX_REQUESTS).
Proof.
  cbv zeta. unfold rateLimiter. rewrite rateLimiter_cleanup_lookup.
  destruct (requestCounts !! ip) as [data|]; cbn [default from_option id].
  - destruct (WINDOW_MS <? now - rl_windowStart data) eqn:E; cbn [default from_option id].
    + cbn [rl_count rl_windowStart].
      destruct (Z.ltb_spec MAX_REQUESTS (0 + 1)); cbn [fst snd isPassedOn];
        (split; [apply lookup_insert_eq | ]);
        [destruct (Z.leb_spec (0 + 1) MAX_REQUESTS); [lia | reflexivity]
        | destruct (Z.leb_spec (0 + 1) MAX_REQUESTS); [reflexivity | lia]].
    + rewrite E. cbn [rl_count rl_windowStart].
      destruct (Z.ltb_spec MAX_REQUESTS (rl_count data + 1)); cbn [fst snd isPassedOn];
        (split; [apply lookup_insert_eq | ]);
        [destruct (Z.leb_spec (rl_count data + 1) MAX_REQUESTS); [lia | reflexivity]
        | destruct (Z.leb_spec (rl_count data + 1) MAX_REQUESTS); [reflexivity | lia]].
  - cbn [rl_count rl_windowStart].
    destruct (Z.ltb_spec MAX_REQUESTS (0 + 1)); cbn [fst snd isPassedOn];
      (split; [apply lookup_insert_eq | ]);
      [destruct (Z.leb_spec (0 + 1) MAX_REQUESTS); [lia | reflexivity]
      | destruct (Z.leb_spec (0 + 1) MAX_REQUESTS); [reflexivity | lia]].
Qed.

(** The entry of a client after the request of another client. *)
Lemma rateLimiter_other (now : Z) (ip other : string)
    (requestCounts : gmap string RateLimitData) :
  other <> ip ->
  snd (rateLimiter now other requestCounts) !! ip
  = match requestCounts !! ip with
    | Some data => if WINDOW_MS <? now - rl_windowStart data then None else Some data
    | None => None
    end.
Proof.
  intros Hne. unfold rateLimiter.
  match goal with
  | |- context [if ?b then _ else _] => destruct b
  end; cbn [snd]; rewrite lookup_insert_ne by exact Hne; apply rateLimiter_cleanup_lookup.
Qed.

Lemma serve_cons (now : Z) (ip : string) (requests : list (Z * string))
    (requestCounts : gmap string RateLimitData) :
  serve ((now, ip) :: requests) requestCounts
  = (fst (rateLimiter now ip requestCounts)
       :: fst (serve requests (snd (rateLimiter now ip requestCounts))),
     snd (serve requests (snd (rateLimiter now ip requestCounts)))).
Proof.
  cbn [serve]. destruct (rateLimiter now ip requestCounts) as [answer st]. cbn [fst snd].
  now destruct (serve requests st).
Qed.

Lemma seq_flags (c : Z) (n : nat) :
  map (fun k => c + 1 + Z.of_nat k <=? MAX_REQUESTS) (List.seq 1 n)
  = map (fun k => c + Z.of_nat k <=? MAX_REQUESTS) (List.seq 2 n).
Proof.
  rewrite <- (seq_shift n 1), map_map. apply map_ext. intros k. f_equal. lia.
Qed.

(** While the window of a client lasts, its requests are counted one by
    one, whatever the other clients do. *)
Lemma serve_in_window (ip : string) (t0 : Z) (requests : list (Z * string)) :
  Forall (fun request => fst request - t0 <= WINDOW_MS) requests ->
  forall (c : Z) (requestCounts : gmap string RateLimitData),
    requestCounts !! ip = Some {| rl_count := c; rl_windowStart := t0 |} ->
    map isPassedOn (answersTo ip requests (fst (serve requests requestCounts)))
    = map (fun k => c + Z.of_nat k <=? MAX_REQUESTS)
        (List.seq 1 (requestsFrom ip requests)).
Proof.
  induction 1 as [|[now ip'] requests Hnow _ IH]; intros c requestCounts Hc; [reflexivity |].
  cbn [fst] in Hnow. rewrite serve_cons. cbn [fst answersTo].
  assert (Hlive : (WINDOW_MS <? now - t0) = false) by (apply Z.ltb_ge; exact Hnow).
  unfold requestsFrom. cbn [filter list_filter snd].
  destruct (String.eqb_spec ip' ip) as [-> | Hne].
  - destruct (rateLimiter_own now ip requestCounts) as [Hentry Hflag].
    rewrite Hc in Hentry, Hflag. cbn [rl_windowStart] in Hentry, Hflag.
    rewrite Hlive in Hentry, Hflag. cbn [default from_option id rl_count rl_windowStart]
      in Hentry, Hflag.
    rewrite decide_True by reflexivity.
    cbn [map length List.seq]. rewrite Hflag, (IH (c + 1) _ Hentry), seq_flags.
    reflexivity.
  - rewrite decide_False by discriminate.
    apply IH. rewrite (rateLimiter_other now ip ip' requestCounts Hne), Hc.
    cbn [rl_windowStart]. now rewrite Hlive.
Qed.

(** X20: at most 30 requests per client and window.  From the request that
    opens a window of a client, and as long as the requests arrive within
    60 seconds of it, the k-th request of that client is passed on exactly
    when k <= 30 and answered with 429 otherwise, whatever the other clients
    send in between. *)
Theorem rateLimiter_admits_30_per_window
    (ip : string) (t0 : Z) (rest : list (Z * string))
    (requestCounts : gmap string RateLimitData) :
  match requestCounts !! ip with
  | Some data => WINDOW_MS < t0 - rl_windowStart data
  | None => True
  end ->
  Forall (fun request => fst request - t0 <= WINDOW_MS) rest ->
  let requests := (t0, ip) :: rest in
  map isPassedOn (answersTo ip requests (fst (serve requests requestCounts)))
  = map (fun k => Z.of_nat k <=? MAX_REQUESTS) (List.seq 1 (requestsFrom ip requests)).
Proof.
  intros Hnew Hrest. cbv zeta. rewrite serve_cons. cbn [fst answersTo].
  rewrite String.eqb_refl.
  unfold requestsFrom. cbn [filter list_filter snd]. rewrite String.eqb_refl.
  rewrite decide_True by reflexivity. cbn [map length List.seq].
  destruct (rateLimiter_own t0 ip requestCounts) as [Hentry Hflag].
  assert (Hdata : default {| rl_count := 0; rl_windowStart := t0 |}
                    match requestCounts !! ip with
                    | Some data =>
                        if WINDOW_MS <? t0 - rl_windowStart data then None else Some data
                    | None => None
                    end
                  = {| rl_count := 0; rl_windowStart := t0 |}).
  { destruct (requestCounts !! ip) as [data|]; [| reflexivity].
    destruct (Z.ltb_spec WINDOW_MS (t0 - rl_windowStart data)); [reflexivity | lia]. }
  rewrite Hdata in Hentry, Hflag. cbn [rl_count rl_windowStart] in Hentry, Hflag.
  rewrite Hflag. f_equal.
  rewrite (serve_in_window ip t0 rest Hrest (0 + 1) _ Hentry).
  rewrite <- (seq_flags 0). apply map_ext. intros k. f_equal.
Qed.

Lemma rateLimiter_admits_30_per_window_witness :
  map isPassedOn (answersTo "203.0.113.7" burst (fst (serve burst ∅)))
  = (repeat true 30 ++ repeat false 10)%list.
Proof.
  change burst with ((1000, "203.0.113.7") :: tl burst).
  rewrite rateLimiter_admits_30_per_window.
  - vm_compute. reflexivity.
  - rewrite lookup_empty. exact I.
  - apply (bool_decide_unpack _). vm_compute. reflexivity.
Defined.

(** X21: the table and the 429 answer.  After a request at [now] the table
    holds no entry whose window has expired by [now]; a 429 is only given to
    a client whose live window already counted 30 requests, and its
    [retry_after] is not negative, and at most 60 seconds when the clock has
    not run backwards since the window opened. *)
Theorem rateLimiter_table_and_retry
    (now : Z) (ip : string) (requestCounts : gmap string RateLimitData) :
  (forall client data,
      snd (rateLimiter now ip requestCounts) !! client = Some data ->
      now - rl_windowStart data <= WINDOW_MS)
  /\ (forall retry_after,
         fst (rateLimiter now ip requestCounts) = tooManyRequests retry_after ->
         exists data,
           requestCounts !! ip = Some data
           /\ now - rl_windowStart data <= WINDOW_MS
           /\ MAX_REQUESTS <= rl_count data
           /\ 0 <= retry_after
           /\ (rl_windowStart data <= now -> retry_after <= 60)).
Proof.
  split.
  - intros client data. destruct (String.eqb_spec client ip) as [-> | Hne].
    + destruct (rateLimiter_own now ip requestCounts) as [-> _]. intros [= <-].
      cbn [rl_windowStart].
      destruct (requestCounts !! ip) as [d|]; cbn [default from_option id rl_windowStart].
      * destruct (Z.ltb_spec WINDOW_MS (now - rl_windowStart d));
          cbn [default from_option id rl_windowStart]; unfold WINDOW_MS in *; lia.
      * unfold WINDOW_MS. lia.
    + rewrite (rateLimiter_other now client ip requestCounts) by congruence.
      destruct (requestCounts !! client) as [d|]; [| discriminate].
      destruct (Z.ltb_spec WINDOW_MS (now - rl_windowStart d)); [discriminate |].
      now intros [= <-].
  - intros retry_after. unfold rateLimiter. rewrite rateLimiter_cleanup_lookup.
    destruct (requestCounts !! ip) as [data|].
    + destruct (Z.ltb_spec WINDOW_MS (now - rl_windowStart data)) as [Hold | Hlive].
      * cbn [rl_count rl_windowStart]. destruct (Z.ltb_spec MAX_REQUESTS (0 + 1));
          [unfold MAX_REQUESTS in *; lia | discriminate].
      * destruct (Z.ltb_spec WINDOW_MS (now - rl_windowStart data)); [lia |].
        cbn [rl_count rl_windowStart].
        destruct (Z.ltb_spec MAX_REQUESTS (rl_count data + 1)); [| discriminate].
        intros [= <-]. exists data. split; [reflexivity |].
        split; [exact Hlive |]. split; [lia |].
        unfold ceilSeconds, WINDOW_MS in *.
        split.
        -- assert (- (60 * 1000 - (now - rl_windowStart data)) / 1000 <= 0); [| lia].
           apply Z.div_le_upper_bound; lia.
        -- intros Hmono.
           assert (- 60 <= - (60 * 1000 - (now - rl_windowStart data)) / 1000); [| lia].
           apply Z.div_le_lower_bound; lia.
    + cbn [rl_count rl_windowStart]. destruct (Z.ltb_spec MAX_REQUESTS (0 + 1));
        [unfold MAX_REQUESTS in *; lia | discriminate].
Qed.

Lemma rateLimiter_table_and_retry_witness :
  fst (rateLimiter 2000 "203.0.113.7" window_full) = tooManyRequests 59
  /\ exists data,
       window_full !! "203.0.113.7" = Some data
       /\ 2000 - rl_windowStart data <= WINDOW_MS
       /\ MAX_REQUESTS <= rl_count data
       /\ 0 <= 59
       /\ (rl_windowStart data <= 2000 -> 59 <= 60).
Proof.
  assert (E : fst (rateLimiter 2000 "203.0.113.7" window_full) = tooManyRequests 59)
    by (vm_compute; reflexivity).
  split; [exact E |].
  exact (proj2 (rateLimiter_table_and_retry 2000 "203.0.113.7" window_full) 59 E).
Defined.

(** ** Oracle adapters *)

Lemma report_sum (cond : bool) (finding : Finding) (st : list Finding * Q) :
  (snd st == sumScores f_score (fst st))%Q ->
  (snd (report cond finding st) == sumScores f_score (fst (report cond finding st)))%Q.
Proof.
  intros H. unfold report, record. destruct cond; [| exact H].
  cbn [fst snd]. rewrite H. clear H.
  induction (fst st) as [|x l IH]; cbn [app sumScores fold_right].
  - ring.
  - fold (sumScores f_score l) (sumScores f_score (l ++ [finding])). rewrite <- IH. ring.
Qed.

Lemma report_range (cond : bool) (finding : Finding) (st : list Finding * Q)
    (lo hi bound : Q) :
  (0 <= f_score finding <= bound)%Q ->
  (lo <= snd st <= hi - bound)%Q ->
  (lo <= snd (report cond finding st) <= hi)%Q.
Proof.
  intros Hf H. unfold report, record. destruct cond; cbn [snd]; lra.
Qed.

(** X22: the GoPlus contribution.  [calculateRisk] returns a score between 0
    and 215 that is the sum of the scores of the findings it lists; an
    absent or unchecked answer contributes nothing. *)
Theorem GoPlus_calculateRisk_range (goplusResult : option GoPlusAnswer) :
  let risk := GoPlusClient.calculateRisk goplusResult in
  (0 <= or_score risk <= 215)%Q
  /\ (or_score risk == sumScores f_score (or_findings risk))%Q
  /\ match goplusResult with
     | Some (goplusChecked_ _) => True
     | _ => risk = noOracleRisk
     end.
Proof.
  cbv zeta. unfold GoPlusClient.calculateRisk.
  destruct goplusResult as [[|g]|];
    try (split; [split; discriminate | split; reflexivity]).
  cbn [or_score or_findings]. split; [| split; [| exact I]].
  - repeat (eapply (report_range _ _ _ _ _ _); [cbn [f_score]; split; [discriminate | apply Qle_refl] |]).
    cbn [snd]. split; [apply Qle_refl | discriminate].
  - repeat apply report_sum. reflexivity.
Qed.

Example goplus_all_flags_score :
  (or_score (GoPlusClient.calculateRisk (Some goplus_all_flags)) == 215)%Q
  /\ length (or_findings (GoPlusClient.calculateRisk (Some goplus_all_flags))) = 15%nat.
Proof. split; reflexivity. Qed.

Lemma warningScore_range (n : nat) :
  (0 <= Math_min (inject_Z (Z.of_nat n) * 3) 15 <= 15)%Q.
Proof.
  split; [| apply Math_min_le_r].
  apply Math_min_glb; [| discriminate].
  assert (H : (0 <= inject_Z (Z.of_nat n))%Q) by (rewrite <- (Zle_Qle 0); lia). lra.
Qed.

(** X23: the Token Sniffer contribution.  [calculateRisk] returns a score
    between 0 and 130 that is the sum of the scores of the findings it lists;
    the warnings add 3 each but at most 15; an absent or unchecked answer and
    a token that is not in the database contribute nothing. *)
Theorem TokenSniffer_calculateRisk_range (snifferResult : option SnifferResult) :
  let risk := TokenSnifferClient.calculateRisk snifferResult in
  (0 <= or_score risk <= 130)%Q
  /\ (or_score risk == sumScores f_score (or_findings risk))%Q
  /\ match snifferResult with
     | Some s => if sr_checked s && sr_in_database s then True else risk = noOracleRisk
     | None => risk = noOracleRisk
     end.
Proof.
  cbv zeta. unfold TokenSnifferClient.calculateRisk.
  destruct snifferResult as [s|]; [| split; [split; discriminate | split; reflexivity]].
  destruct (sr_checked s); cbn [negb andb];
    [| split; [split; discriminate | split; reflexivity]].
  destruct (sr_in_database s); cbn [negb];
    [| split; [split; discriminate | split; reflexivity]].
  cbn [or_score or_findings]. split; [| split; [| exact I]].
  - destruct (sr_details s) as [details|];
      destruct (TokenSnifferClient.scoreAbove (sr_score s) 70);
      repeat (eapply (report_range _ _ _ _ _ _);
              [cbn [f_score];
               first [apply warningScore_range
                     | split; [discriminate | apply Qle_refl]] |]);
      cbn [snd]; split; try apply Qle_refl; discriminate.
  - destruct (sr_details s) as [details|];
      destruct (TokenSnifferClient.scoreAbove (sr_score s) 70);
      repeat apply report_sum; reflexivity.
Qed.

(** X24: what the aggregator derives from a GoPlus answer.  Whatever the
    GoPlus response is, the record that [parseResponse] builds defines the
    honeypot flag and both taxes, so [detectAPINotFound] never reports "no
    trading data" for it; and it reports "not in security databases" only
    for an unchecked answer. *)
Theorem detectAPINotFound_on_goplus_answer
    (parseFloat : string -> Q) (data : GoPlusResponse) (address : string)
    (tokenSnifferResult : option TokenSnifferResult) (contractInfo : option ContractInfo) :
  let answer := GoPlusClient.parseResponse parseFloat data address in
  let findings :=
    detectAPINotFound tokenSnifferResult (Some (asGoPlusResult answer)) contractInfo in
  ~ In "no_trading_data" (map p_type findings)
  /\ (In "not_in_security_databases" (map p_type findings) -> answer = goplusUnchecked).
Proof.
  cbv zeta. unfold detectAPINotFound.
  destruct (GoPlusClient.parseResponse parseFloat data address) as [|g];
    destruct (_ || _);
    cbn [asGoPlusResult gp_checked gp_is_honeypot gp_buy_tax gp_sell_tax negb andb];
    destruct (ageInDays_gt contractInfo 30); cbn [app map p_type In];
    (split; [intros H | intros H; try reflexivity]);
    repeat match goal with
           | H : _ \/ _ |- _ => destruct H as [H | H]
           | H : False |- _ => destruct H
           | H : _ = _ |- _ => discriminate H
           end.
Qed.

(** ** Ownership analysis *)

Lemma KNOWN_TOKENS_safe (normalized : string) (token : KnownToken) :
  KNOWN_TOKENS !! normalized = Some token -> normalized ∈ KNOWN_SAFE_TOKENS.
Proof.
  intros H. apply (elem_of_list_to_map_2 (M := gmap string)) in H.
  repeat (apply elem_of_cons in H; destruct H as [[= -> _] | H];
          [apply (bool_decide_unpack _); vm_compute; reflexivity |]).
  now apply elem_of_nil in H.
Qed.

Lemma ownershipHistoryStep_score (r : OwnershipResponses) (checks : OwnershipChecks) :
  oc_hasOwner (ownershipHistoryStep r checks) = oc_hasOwner checks
  /\ oc_isRenounced (ownershipHistoryStep r checks) = oc_isRenounced checks
  /\ oc_isCentralized (ownershipHistoryStep r checks) = oc_isCentralized checks
  /\ (oc_score checks <= oc_score (ownershipHistoryStep r checks) <= oc_score checks + 3)%Q
  /\ ((oc_score checks == sumScores f_score (oc_findings checks))%Q ->
      (oc_score (ownershipHistoryStep r checks)
       == sumScores f_score (oc_findings (ownershipHistoryStep r checks)))%Q).
Proof.
  unfold ownershipHistoryStep. destruct (_ <? _)%nat;
    cbn [addScore pushFinding oc_hasOwner oc_isRenounced oc_isCentralized oc_score
         oc_findings].
  - split; [reflexivity |]. split; [reflexivity |]. split; [reflexivity |].
    split; [lra |]. intros H. rewrite H. clear H.
    induction (oc_findings checks) as [|x l IH]; cbn [app sumScores fold_right f_score].
    + ring.
    + fold (sumScores f_score l) (sumScores f_score (l ++ [ {| f_type := "ownership_transferred";
                                                             f_severity := medium;
                                                             f_score := 3 |} ])).
      rewrite <- IH. ring.
  - split; [reflexivity |]. split; [reflexivity |]. split; [reflexivity |].
    split; [lra | auto].
Qed.

(** X25: the ownership analysis.  The score of [analyzeOwnership] lies
    between -10 and 13 and is the sum of the scores of its findings; when
    ownership is reported as renounced the score is exactly -10, the contract
    is not reported as centralized and nothing else is listed; without an
    owner, and when the first call fails, the score is 0. *)
Theorem analyzeOwnership_summary (r : OwnershipResponses) (contractAddress : string) :
  let checks := analyzeOwnership r contractAddress in
  (-10 <= oc_score checks <= 13)%Q
  /\ (oc_score checks == sumScores f_score (oc_findings checks))%Q
  /\ (if oc_isRenounced checks
      then (oc_score checks == -10)%Q
           /\ oc_isCentralized checks = false
           /\ oc_hasOwner checks = true
           /\ map f_type (oc_findings checks) = ["ownership_renounced"]
      else True)
  /\ (if oc_hasOwner checks then True else (oc_score checks == 0)%Q).
Proof.
  cbv zeta. unfold analyzeOwnership.
  destruct (own_getOwner r) as [owner|]; [| cbn; repeat split; lra].
  destruct (truthy_string owner); cbn [negb]; [| cbn; repeat split; lra].
  destruct (String.eqb _ zeroAddress); [cbn; repeat split; lra |].
  destruct (own_isContract r) as [[|]|]; [| | cbn; repeat split; lra].
  - destruct (own_isMultiSig r) as [isMultiSig|]; [| cbn; repeat split; lra].
    destruct (own_isTimelock r) as [isTimelock|];
      [| destruct isMultiSig; cbn; repeat split; lra].
    match goal with
    | |- context [ownershipHistoryStep r ?c] =>
        destruct (ownershipHistoryStep_score r c) as (Hh & Hr & Hc & Hs & Hsum)
    end.
    rewrite Hh, Hr.
    destruct isMultiSig, isTimelock;
      cbn [negb andb addScore pushFinding oc_hasOwner oc_isRenounced oc_isCentralized
           oc_score oc_findings app] in *;
      (split; [lra | split; [apply Hsum; cbn; ring | split; exact I]]).
  - match goal with
    | |- context [ownershipHistoryStep r ?c] =>
        destruct (ownershipHistoryStep_score r c) as (Hh & Hr & Hc & Hs & Hsum)
    end.
    rewrite Hh, Hr.
    destruct (allowsCentralizedOwnership contractAddress && _);
      cbn [addScore pushFinding oc_hasOwner oc_isRenounced oc_isCentralized
           oc_score oc_findings app] in *;
      (split; [lra | split; [apply Hsum; cbn; ring | split; exact I]]).
Qed.

Example owned_by_account_checks :
  let checks := analyzeOwnership owned_by_account "0x5555555555555555555555555555555555555555" in
  map f_type (oc_findings checks) = ["centralized_ownership"; "ownership_transferred"]
  /\ (oc_score checks == 13)%Q
  /\ (oc_score (analyzeOwnership owned_by_account
                  "0xA0b86991c6218b36c1d19D4a2e9Eb0cE3606eB48") == 5)%Q.
Proof. vm_compute. repeat split; reflexivity. Qed.

(** X26: the centralization discount.  [allowsCentralizedOwnership] holds
    exactly for the addresses of USDC, USDT, BUSD and WBTC, in any case of
    the hex digits, and every address of the table of known tokens is on the
    known-safe allow-list. *)
Theorem allowsCentralizedOwnership_addresses (address : string) :
  (allowsCentralizedOwnership address = true
   <-> In (toLowerCase address)
         [ "0xa0b86991c6218b36c1d19d4a2e9eb0ce3606eb48";
           "0xdac17f958d2ee523a2206206994597c13d831ec7";
           "0x4fabb145d64652a948d72533023f6e7a623c7c53";
           "0x2260fac5e5542a773aa44fbcfedf7c193bc2c599" ])
  /\ (forall token, isKnownToken address = tokenEntry token ->
                    isKnownSafeToken address = true).
Proof.
  split.
  - unfold allowsCentralizedOwnership, isKnownToken. cbv zeta.
    destruct (KNOWN_TOKENS !! toLowerCase address) as [token|] eqn:E.
    + apply (elem_of_list_to_map_2 (M := gmap string)) in E.
      repeat (apply elem_of_cons in E; destruct E as [[= -> ->] | E];
              [cbn; split; [intros H; try discriminate H; tauto
                           | intros H; repeat (destruct H as [H | H]; try discriminate H);
                             try reflexivity; destruct H] |]).
      now apply elem_of_nil in E.
    + split.
      * destruct (_ || _); discriminate.
      * intros H. exfalso.
        repeat (destruct H as [H | H];
                [rewrite <- H in E; vm_compute in E; discriminate E |]).
        destruct H.
  - intros token. unfold isKnownToken. cbv zeta.
    destruct (KNOWN_TOKENS !! toLowerCase address) as [t|] eqn:E.
    + intros _. apply isKnownSafeToken_spec. eapply KNOWN_TOKENS_safe, E.
    + destruct (_ || _); discriminate.
Qed.

(** ** Creator history *)

Lemma creationLoop_counts (recentCreations : list (CreatorTx * DeployedResponses)) :
  let '(contracts, abandoned_contracts, recent_deployments) := creationLoop recentCreations in
  (length contracts <= length recentCreations)%nat
  /\ 0 <= abandoned_contracts <= Z.of_nat (length contracts)
  /\ 0 <= recent_deployments <= Z.of_nat (length contracts)
  /\ abandoned_contracts
     = Z.of_nat (length (List.filter dc_abandoned contracts)).
Proof.
  unfold creationLoop.
  assert (H : forall l contracts a rd,
             0 <= a <= Z.of_nat (length contracts) ->
             0 <= rd <= Z.of_nat (length contracts) ->
             a = Z.of_nat (length (List.filter dc_abandoned contracts)) ->
             let '(contracts', a', rd') :=
               fold_left
                 (fun '(contracts, abandoned_contracts, recent_deployments) '(tx, r) =>
                    let contractAddress :=
                      if truthy_string (ctx_contractAddress tx) then ctx_contractAddress tx
                      else ctx_to tx in
                    if negb (truthy_string contractAddress) then
                      (contracts, abandoned_contracts, recent_deployments)
                    else
                      let contractAnalysis :=
                        analyzeDeployedContract r (orEmpty contractAddress)
                          (ctx_timeStamp tx) in
                      let deploymentAge := dr_now_recent r - ctx_timeStamp tx * 1000 in
                      ((contracts ++ [contractAnalysis])%list,
                       (if dc_abandoned contractAnalysis then abandoned_contracts + 1
                        else abandoned_contracts),
                       (if deploymentAge <? 30 * 24 * 60 * 60 * 1000
                        then recent_deployments + 1 else recent_deployments)))
                 l (contracts, a, rd) in
             (length contracts' <= length contracts + length l)%nat
             /\ 0 <= a' <= Z.of_nat (length contracts')
             /\ 0 <= rd' <= Z.of_nat (length contracts')
             /\ a' = Z.of_nat (length (List.filter dc_abandoned contracts'))).
  { induction l as [|[tx r] l IH]; intros contracts a rd Ha Hrd Hf; cbn [fold_left].
    - repeat split; try lia.
    - cbv zeta.
      destruct (negb (truthy_string
                        (if truthy_string (ctx_contractAddress tx)
                         then ctx_contractAddress tx else ctx_to tx))).
      + specialize (IH contracts a rd Ha Hrd Hf).
        destruct (fold_left _ l _) as [[c' a'] rd']. cbn [length]. lia.
      + match goal with
        | |- context [fold_left _ l (?c, ?x, ?y)] => specialize (IH c x y)
        end.
        rewrite length_app in IH. cbn [length] in IH.
        rewrite List.filter_app, length_app in IH. cbn [List.filter] in IH.
        destruct (dc_abandoned _), (_ <? _); cbn [length] in IH;
          (destruct (fold_left _ l _) as [[c' a'] rd']; cbn [length];
           destruct IH as (I1 & I2 & I3 & I4); [lia | lia | lia |];
           repeat split; lia). }
  specialize (H recentCreations [] 0 0).
  destruct (fold_left _ recentCreations _) as [[c a] rd].
  cbn [length List.filter] in H. apply H; lia.
Qed.

Lemma report_snd (cond : bool) (finding : Finding) (st : list Finding * Q) :
  (snd (report cond finding st) == snd st + (if cond then f_score finding else 0))%Q.
Proof. unfold report, record. destruct cond; cbn [snd]; ring. Qed.

Lemma note_sum (finding : Finding) (st : list Finding * Q) :
  (f_score finding == 0)%Q ->
  (snd st == sumScores f_score (fst st))%Q ->
  (snd st == sumScores f_score (fst st ++ [finding]))%Q.
Proof.
  intros Hz H. rewrite H. clear H.
  induction (fst st) as [|x l IH]; cbn [app sumScores fold_right].
  - rewrite Hz. ring.
  - fold (sumScores f_score l) (sumScores f_score (l ++ [finding])). now rewrite <- IH.
Qed.

Lemma calculateCreatorRiskScore_closed (total_contracts_deployed abandoned_contracts
    recent_deployments analyzedCount : Z) :
  let risk :=
    calculateCreatorRiskScore total_contracts_deployed abandoned_contracts
      recent_deployments analyzedCount in
  (snd risk
   == deployerCharge total_contracts_deployed + abandonedCharge abandoned_contracts
      + rapidCharge recent_deployments + rateCharge abandoned_contracts analyzedCount)%Q
  /\ (snd risk == sumScores f_score (fst risk))%Q.
Proof.
  cbv zeta.
  unfold calculateCreatorRiskScore, deployerCharge, abandonedCharge, rapidCharge, rateCharge.
  destruct (10 <=? total_contracts_deployed), (5 <=? abandoned_contracts),
    (5 <=? analyzedCount),
    (gtb (inject_Z abandoned_contracts / inject_Z analyzedCount) (7 # 10)),
    (total_contracts_deployed =? 1);
    cbn [fst snd];
    (split;
     [rewrite !report_snd; cbn [snd f_score];
      repeat match goal with |- context [if ?b then _ else _] => destruct b end; ring
     | try (apply note_sum; [reflexivity |]); repeat apply report_sum; reflexivity]).
Qed.

Lemma creatorRisk_summary (total_contracts_deployed abandoned_contracts
    recent_deployments analyzedCount : Z) :
  let risk :=
    calculateCreatorRiskScore total_contracts_deployed abandoned_contracts
      recent_deployments analyzedCount in
  let pattern :=
    creatorSuspiciousPattern total_contracts_deployed abandoned_contracts
      recent_deployments analyzedCount in
  (0 <= snd risk <= 72)%Q
  /\ (snd risk == sumScores f_score (fst risk))%Q
  /\ (if fst pattern then (10 <= snd risk)%Q else True).
Proof.
  cbv zeta.
  destruct (calculateCreatorRiskScore_closed total_contracts_deployed abandoned_contracts
              recent_deployments analyzedCount) as [Hclosed Hsum].
  assert (H1 : (0 <= deployerCharge total_contracts_deployed <= 15)%Q
               /\ ((10 <=? total_contracts_deployed) = true ->
                   (10 <= deployerCharge total_contracts_deployed)%Q)).
  { unfold deployerCharge.
    destruct (10 <=? total_contracts_deployed), (5 <=? total_contracts_deployed);
      repeat split; discriminate. }
  assert (H2 : (0 <= abandonedCharge abandoned_contracts <= 25)%Q
               /\ ((3 <=? abandoned_contracts) = true ->
                   (10 <= abandonedCharge abandoned_contracts)%Q)).
  { unfold abandonedCharge.
    destruct (5 <=? abandoned_contracts), (3 <=? abandoned_contracts);
      repeat split; discriminate. }
  assert (H3 : (0 <= rapidCharge recent_deployments <= 12)%Q
               /\ ((5 <=? recent_deployments) = true ->
                   (10 <= rapidCharge recent_deployments)%Q)).
  { unfold rapidCharge. destruct (5 <=? recent_deployments); repeat split; discriminate. }
  assert (H4 : (0 <= rateCharge abandoned_contracts analyzedCount <= 20)%Q
               /\ (gtb (inject_Z abandoned_contracts / inject_Z analyzedCount) (5 # 10)
                     && (5 <=? analyzedCount) = true ->
                   (10 <= rateCharge abandoned_contracts analyzedCount)%Q)).
  { unfold rateCharge.
    destruct (5 <=? analyzedCount),
      (gtb (inject_Z abandoned_contracts / inject_Z analyzedCount) (7 # 10)),
      (gtb (inject_Z abandoned_contracts / inject_Z analyzedCount) (5 # 10));
      repeat split; discriminate. }
  destruct H1 as [H1 P1], H2 as [H2 P2], H3 as [H3 P3], H4 as [H4 P4].
  split; [rewrite Hclosed; lra |]. split; [exact Hsum |].
  unfold creatorSuspiciousPattern.
  destruct (10 <=? total_contracts_deployed) eqn:E1, (3 <=? abandoned_contracts) eqn:E2,
    (5 <=? recent_deployments) eqn:E3, (0 <? analyzedCount),
    (gtb (inject_Z abandoned_contracts / inject_Z analyzedCount) (5 # 10) && (5 <=? analyzedCount))
      eqn:E4;
    cbn [fst]; try exact I; rewrite Hclosed;
    try specialize (P1 eq_refl); try specialize (P2 eq_refl);
    try specialize (P3 eq_refl); try specialize (P4 eq_refl); lra.
Qed.

(** X27: the creator history.  [analyzeCreatorHistory] looks at no more
    than 20 deployed contracts; its counters of abandoned and of recent
    deployments count contracts it looked at; its score lies between 0 and
    72 and is the sum of the scores of its findings; every suspicious
    pattern it flags is charged at least 10; and a history that could not be
    analysed scores 0. *)
Theorem analyzeCreatorHistory_summary (creatorAddress : option string)
    (transactions : option (list (CreatorTx * DeployedResponses))) :
  let analysis := analyzeCreatorHistory creatorAddress transactions in
  (length (ch_contracts analysis) <= 20)%nat
  /\ ch_abandoned_contracts analysis
     = Z.of_nat (length (List.filter dc_abandoned (ch_contracts analysis)))
  /\ 0 <= ch_recent_deployments analysis <= Z.of_nat (length (ch_contracts analysis))
  /\ (0 <= ch_score analysis <= 72)%Q
  /\ (ch_score analysis == sumScores f_score (ch_findings analysis))%Q
  /\ (if ch_suspicious_pattern analysis then (10 <= ch_score analysis)%Q else True)
  /\ (if ch_analyzed analysis then True
      else (ch_score analysis == 0)%Q /\ ch_findings analysis = []).
Proof.
  cbv zeta. unfold analyzeCreatorHistory.
  destruct (_ || _); [cbn; repeat split; (lia || discriminate) |].
  destruct transactions as [transactions|]; [| cbn; repeat split; (lia || discriminate)].
  pose proof (creationLoop_counts
                (firstn 20 (List.filter (fun entry => isContractCreation (fst entry))
                              transactions))) as Hloop.
  destruct (creationLoop _) as [[contracts abandoned] recent].
  destruct Hloop as (Hlen & Hab & Hrec & Hfilter).
  cbn [ch_contracts ch_abandoned_contracts ch_recent_deployments ch_score ch_findings
       ch_suspicious_pattern ch_analyzed].
  match goal with
  | |- context [calculateCreatorRiskScore ?t ?a ?r ?n] =>
      destruct (creatorRisk_summary t a r n) as (Hrange & Hsum & Hpattern)
  end.
  split; [| split; [exact Hfilter | split; [exact Hrec |
    split; [exact Hrange | split; [exact Hsum | split; [exact Hpattern | exact I]]]]]].
  pose proof (firstn_le_length 20
                (List.filter (fun entry => isContractCreation (fst entry)) transactions)).
  lia.
Qed.

(** ** Behavioral analysis, holder concentration and the RPC contract info *)

Lemma sumScores_app {A} (score : A -> Q) (l1 l2 : list A) :
  (sumScores score (l1 ++ l2) == sumScores score l1 + sumScores score l2)%Q.
Proof.
  induction l1 as [|x l1 IH].
  - change (sumScores score l2 == 0 + sumScores score l2)%Q. ring.
  - change (score x + sumScores score (l1 ++ l2)
            == score x + sumScores score l1 + sumScores score l2)%Q.
    rewrite IH. ring.
Qed.

Lemma analyzeContractAge_summary (contractInfo : ContractInfo) :
  let ageAnalysis := analyzeContractAge contractInfo in
  (-5 <= snd ageAnalysis <= 10)%Q
  /\ (snd ageAnalysis == sumScores f_score (fst ageAnalysis))%Q.
Proof.
  cbv zeta. unfold analyzeContractAge, report.
  repeat match goal with |- context [if ?b then _ else _] => destruct b end;
    vm_compute; repeat split; first [reflexivity | discriminate].
Qed.

Lemma analyzeActivity_summary (transactions : option (list BehaviorTx)) :
  let activityAnalysis := analyzeActivity transactions in
  (-5 <= snd activityAnalysis <= 5)%Q
  /\ (snd activityAnalysis == sumScores f_score (fst activityAnalysis))%Q.
Proof.
  cbv zeta. unfold analyzeActivity, report.
  destruct transactions as [transactions|]; [| vm_compute; repeat split; first [reflexivity | discriminate]].
  repeat match goal with |- context [if ?b then _ else _] => destruct b end;
    vm_compute; repeat split; first [reflexivity | discriminate].
Qed.

Lemma detectTransactionPatterns_summary (transactions : option (list BehaviorTx)) :
  let suspiciousPatterns := detectTransactionPatterns transactions in
  (0 <= snd suspiciousPatterns <= 26)%Q
  /\ (snd suspiciousPatterns == sumScores f_score (fst suspiciousPatterns))%Q.
Proof.
  cbv zeta. unfold detectTransactionPatterns.
  destruct transactions as [transactions|]; [| vm_compute; repeat split; first [reflexivity | discriminate]].
  destruct (Z.of_nat (length transactions) =? 0); [vm_compute; repeat split; first [reflexivity | discriminate] |].
  split.
  - repeat (eapply (report_range _ _ _ _ _ _);
            [cbn [f_score]; split; [discriminate | apply Qle_refl] |]).
    cbn [snd]. split; [apply Qle_refl | discriminate].
  - repeat apply report_sum. reflexivity.
Qed.

(** X28: the behavioral analysis.  The score of [analyzeBehavior] is the sum
    of the scores of its findings and lies between -10 and 41; when the
    explorer fails on both calls, only the age of the contract counts. *)
Theorem analyzeBehavior_summary (r : BehaviorResponses) (contractInfo : ContractInfo) :
  let analysis := analyzeBehavior r contractInfo in
  (-10 <= bc_score analysis <= 41)%Q
  /\ (bc_score analysis == sumScores f_score (bc_findings analysis))%Q
  /\ match beh_activity r, beh_patterns r with
     | None, None =>
         (bc_score analysis == bc_ageScore analysis)%Q
         /\ bc_findings analysis = fst (analyzeContractAge contractInfo)
     | _, _ => True
     end.
Proof.
  cbv zeta. unfold analyzeBehavior.
  cbn [bc_score bc_findings bc_ageScore].
  destruct (analyzeContractAge_summary contractInfo) as [Ha Hasum].
  destruct (analyzeActivity_summary (beh_activity r)) as [Hb Hbsum].
  destruct (detectTransactionPatterns_summary (beh_patterns r)) as [Hc Hcsum].
  split; [lra |]. split.
  - rewrite !sumScores_app, <- Hasum, <- Hbsum, <- Hcsum. ring.
  - destruct (beh_activity r); [exact I |]. destruct (beh_patterns r); [exact I |].
    cbn [analyzeActivity detectTransactionPatterns fst snd].
    split; [rewrite !Qplus_0_r; reflexivity | now rewrite !app_nil_r].
Qed.

Lemma holdersOf_size (transfers : list (option string)) (holders : gset string) :
  (size
     (fold_left
        (fun holders to =>
           if truthy_string to && negb (String.eqb (orEmpty to) zeroAddress)
           then {[ toLowerCase (orEmpty to) ]} ∪ holders
           else holders)
        transfers holders)
   <= size holders + length transfers)%nat.
Proof.
  revert holders. induction transfers as [|to l IH]; intros holders; cbn [fold_left length].
  - lia.
  - etransitivity; [apply IH |].
    destruct (_ && _); [| lia].
    rewrite size_union_alt, size_singleton.
    assert (size (holders ∖ {[toLowerCase (orEmpty to)]}) <= size holders)%nat
      by (apply subseteq_size, subseteq_difference_l; reflexivity).
    lia.
Qed.

(** X29: holder concentration.  [analyzeHolderConcentration] never reports
    an analysis on zero holders, counts at most one holder per listed
    transfer, scores 0, 5, 10 or 20, and never scores more holders
    higher. *)
Theorem analyzeHolderConcentration_summary (r : HolderResponses) :
  let analysis := analyzeHolderConcentration r in
  (if ha_analyzed analysis
   then 1 <= ha_holderCount analysis
        /\ (forall transfers,
               hr_transfers r = Some (Some transfers) ->
               ha_holderCount analysis <= Z.of_nat (length transfers))
   else (ha_score analysis == 0)%Q)
  /\ (ha_score analysis == 0 \/ ha_score analysis == 5
      \/ ha_score analysis == 10 \/ ha_score analysis == 20)%Q
  /\ (forall r',
         ha_analyzed analysis = true ->
         ha_analyzed (analyzeHolderConcentration r') = true ->
         ha_holderCount analysis <= ha_holderCount (analyzeHolderConcentration r') ->
         (ha_score (analyzeHolderConcentration r') <= ha_score analysis)%Q).
Proof.
  cbv zeta.
  assert (Hscore : forall r0,
             ha_analyzed (analyzeHolderConcentration r0) = true ->
             ha_score (analyzeHolderConcentration r0)
             = let n := ha_holderCount (analyzeHolderConcentration r0) in
               if n <? 10 then (0 + 20)%Q
               else if n <? 50 then (0 + 10)%Q
               else if n <? 100 then (0 + 5)%Q else 0%Q).
  { intros r0. unfold analyzeHolderConcentration.
    destruct (hr_totalSupply r0); [| discriminate].
    destruct (_ =? 0); [discriminate | reflexivity]. }
  split; [| split].
  - unfold analyzeHolderConcentration.
    destruct (hr_totalSupply r) as [supply|]; [| reflexivity].
    destruct (Z.eqb_spec (Z.of_nat (size match hr_transfers r with
                                         | Some (Some transfers) => holdersOf transfers
                                         | _ => ∅
                                         end)) 0) as [E | Hne]; [reflexivity |].
    cbn [ha_analyzed ha_holderCount]. split; [lia |].
    intros transfers ->. unfold holdersOf.
    pose proof (holdersOf_size transfers ∅) as H. rewrite size_empty in H. lia.
  - destruct (ha_analyzed (analyzeHolderConcentration r)) eqn:E.
    + rewrite (Hscore r E). cbv zeta.
      repeat match goal with |- context [if ?b then _ else _] => destruct b end;
        first [ left; reflexivity
              | right; left; reflexivity
              | right; right; left; reflexivity
              | right; right; right; reflexivity ].
    + unfold analyzeHolderConcentration in *.
      destruct (hr_totalSupply r); [| left; reflexivity].
      destruct (_ =? 0); [left; reflexivity | discriminate].
  - intros r' Ha Ha' Hle. rewrite (Hscore r Ha), (Hscore r' Ha'). cbv zeta.
    repeat match goal with
           | |- context [?a <? ?b] => destruct (Z.ltb_spec a b)
           end; try lia; discriminate.
Qed.

Lemma analyzeHolderConcentration_summary_witness :
  (ha_score (analyzeHolderConcentration ten_holders)
   <= ha_score (analyzeHolderConcentration one_holder))%Q.
Proof.
  apply (proj2 (proj2 (analyzeHolderConcentration_summary one_holder)) ten_holders).
  - vm_compute. reflexivity.
  - vm_compute. reflexivity.
  - vm_compute. discriminate.
Defined.

(** X30: the contract info read over RPC.  [analyzeContractViaRPC] never
    fills in a creator or a creation transaction, and reports the source as
    unverified with an age of at least one day.  So whenever the resolver
    builds the contract info from it, as it does when the explorer fails and
    Sourcify has the verified source, [detectAPINotFound] reports "contract
    not found" (40) for that contract, whatever the oracles answer. *)
Theorem rescued_contract_is_not_found
    (r : Responses) (node : RpcResponses) (address : string) (contractInfo : ContractInfo) :
  etherscan_getContractInfo r = None ->
  rpc_analyzeContractViaRPC r = analyzeContractViaRPC node address ->
  resolve r = Some (contractInfo, false) ->
  ci_verified contractInfo = true
  /\ ci_creator contractInfo = None
  /\ ci_creationTxHash contractInfo = None
  /\ 1 <= ci_ageInDays contractInfo
  /\ forall tokenInfo tokenSnifferResult goplusResult,
       detectAPINotFound tokenSnifferResult goplusResult
         (Some (withTokenInfo tokenInfo contractInfo))
       = [ {| p_type := "contract_not_found"; p_score := 40 |} ].
Proof.
  intros He Hrpc. unfold resolve. rewrite He, Hrpc.
  destruct (sourcify_getSourceCode r) as [sd|];
    [destruct (sd_verified sd) |];
    (destruct (analyzeContractViaRPC node address) as [rpcInfo|] eqn:E;
     [| discriminate]); cbn [mbind option_bind]; try discriminate.
  intros [= <-]. unfold analyzeContractViaRPC in E.
  destruct (rpcr_getCode node) as [code|]; [| discriminate].
  cbn [mbind option_bind] in E. destruct (String.eqb code "0x"); [discriminate |].
  destruct (rpcr_getTransactionCount node) as [txCount|]; [| discriminate].
  cbn [mbind option_bind] in E. injection E as <-.
  cbn [mergeSourcify ci_verified ci_creator ci_creationTxHash ci_ageInDays].
  repeat split; lia.
Qed.

Lemma rescued_contract_is_not_found_witness :
  exists contractInfo,
    resolve run_rescued_by_sourcify = Some (contractInfo, false)
    /\ detectAPINotFound None None
         (Some (withTokenInfo defaultTokenInfo contractInfo))
       = [ {| p_type := "contract_not_found"; p_score := 40 |} ].
Proof.
  eexists. split; [reflexivity |].
  eapply (rescued_contract_is_not_found run_rescued_by_sourcify node_answers
            "0x5555555555555555555555555555555555555555").
  - reflexivity.
  - reflexivity.
  - reflexivity.
Defined.
